(** * Ofek: the batch-fetch / batch-analyze / merge pipeline of [server.js]

    A shallow embedding of the [POST /analyze] handler of [src/server.js]
    (pagination against the video search API, slicing into batches of ten,
    per-batch classification with failure isolation, [combineAnalyses],
    [generateMockResults]) and of the [extractJSON] helper of [src/test.js],
    followed by the properties the specification states about them.

    JavaScript values are embedded as a tagged union; exceptions are
    explicit ([Ok] / [Throw]); the outside world (search endpoint,
    text-generation endpoint, [JSON.parse], clock, environment keys) is a
    record of oracles, and every outbound call or timer of a run is recorded
    in an event trace. *)

From Stdlib Require Import List String Ascii Bool Arith ZArith Lia ZifyNat.
From Stdlib Require Import Permutation Sorted DecimalString.
From Stdlib Require Import Floats.SpecFloat.
Import ListNotations.

#[local] Set Warnings "-register-all".
Local Open Scope string_scope.
Local Open Scope list_scope.

(** ** Exceptions *)

(** A thrown JavaScript [Error]: the handler only ever reads [.message]. *)
Record JSError : Type := mkError { name : string; message : string }.

Inductive result (A : Type) : Type :=
| Ok (a : A)
| Throw (e : JSError).
Arguments Ok {A} a.
Arguments Throw {A} e.

Definition bind {A B : Type} (r : result A) (k : A -> result B) : result B :=
  match r with
  | Ok a => k a
  | Throw e => Throw e
  end.

Notation "x <- r ;; k" := (bind r (fun x => k))
  (at level 61, r at next level, right associativity).

Definition isOk {A : Type} (r : result A) : bool :=
  match r with Ok _ => true | Throw _ => false end.

Definition isThrow {A : Type} (r : result A) : bool := negb (isOk r).

(** [array.map(f)] / [array.filter(p)] with a callback that may throw: the
    first exception aborts the traversal. *)
Fixpoint mapM {A B : Type} (f : A -> result B) (l : list A) : result (list B) :=
  match l with
  | [] => Ok []
  | x :: l' => y <- f x ;; ys <- mapM f l' ;; Ok (y :: ys)
  end.

Fixpoint filterM {A : Type} (p : A -> result bool) (l : list A) : result (list A) :=
  match l with
  | [] => Ok []
  | x :: l' =>
      b <- p x ;; ys <- filterM p l' ;; Ok (if b then x :: ys else ys)
  end.

(** ** JavaScript values *)

Module JS.

(** Numbers are IEEE-754 binary64 values, in the canonical representation
    of [spec_float]. *)
Definition number : Type := spec_float.

Definition ofZ (z : Z) : number := binary_normalize 53 1024 z 0 false.
Definition ofNat (n : nat) : number := ofZ (Z.of_nat n).

Inductive JSValue : Type :=
| VUndefined
| VNull
| VBool (b : bool)
| VNum (x : number)
| VStr (s : string)
| VArr (elems : list JSValue)
| VObj (fields : list (string * JSValue)).

(** ToBoolean. *)
Definition truthy (v : JSValue) : bool :=
  match v with
  | VUndefined | VNull => false
  | VBool b => b
  | VNum (S754_zero _) | VNum S754_nan => false
  | VNum _ => true
  | VStr s => negb (s =? "")
  | VArr _ | VObj _ => true
  end.

(** [a || b] *)
Definition or (a b : JSValue) : JSValue := if truthy a then a else b.

Definition nullish (v : JSValue) : bool :=
  match v with VUndefined | VNull => true | _ => false end.

Fixpoint lookup (k : string) (fields : list (string * JSValue)) : JSValue :=
  match fields with
  | [] => VUndefined
  | (k', v) :: rest => if k' =? k then v else lookup k rest
  end.

(** [v.k] on a value that is not [undefined] or [null].  None of the keys
    the program reads this way is a member of [Object.prototype] or a
    built-in member of a string, number, boolean or array, so the read
    gives the own property of an object and [undefined] anywhere else. *)
Definition prop (v : JSValue) (k : string) : JSValue :=
  match v with
  | VObj fields => lookup k fields
  | _ => VUndefined
  end.

Definition typeName (v : JSValue) : string :=
  match v with VNull => "null" | _ => "undefined" end.

Definition TypeError (msg : string) : JSError := mkError "TypeError" msg.

(** [v.k]: reading a property of [undefined] or [null] throws. *)
Definition get (v : JSValue) (k : string) : result JSValue :=
  if nullish v
  then Throw (TypeError ("Cannot read properties of " ++ typeName v
                          ++ " (reading '" ++ k ++ "')"))
  else Ok (prop v k).

(** [v?.k] *)
Definition getOpt (v : JSValue) (k : string) : JSValue :=
  if nullish v then VUndefined else prop v k.

(** [array[0]] *)
Definition first (l : list JSValue) : JSValue :=
  match l with [] => VUndefined | x :: _ => x end.

(** [v === 'literal'] *)
Definition strictEqStr (v : JSValue) (s : string) : bool :=
  match v with VStr s' => s' =? s | _ => false end.

Definition numSameValueZero (x y : number) : bool :=
  match x, y with
  | S754_zero _, S754_zero _ => true
  | S754_nan, S754_nan => true
  | S754_infinity s, S754_infinity s' => Bool.eqb s s'
  | S754_finite s m e, S754_finite s' m' e' =>
      Bool.eqb s s' && Pos.eqb m m' && Z.eqb e e'
  | _, _ => false
  end.

(** SameValueZero, the equality of [Set].  Arrays and objects are compared
    by identity; every array or object of a parsed JSON text is a fresh
    one, so two occurrences are never the same value. *)
Definition sameValueZero (a b : JSValue) : bool :=
  match a, b with
  | VUndefined, VUndefined => true
  | VNull, VNull => true
  | VBool x, VBool y => Bool.eqb x y
  | VNum x, VNum y => numSameValueZero x y
  | VStr x, VStr y => x =? y
  | _, _ => false
  end.

(** ToPrimitive with hint string, which ToString and ToPropertyKey apply
    to an object: a plain object with an own member named [toString] (never
    callable in a value that came out of [JSON.parse]) has no primitive
    value, and the read throws; an array is joined, which converts each
    element that is not [null] or [undefined]. *)
Fixpoint convertible (v : JSValue) : bool :=
  match v with
  | VObj fields => negb (existsb (fun kv => fst kv =? "toString") fields)
  | VArr l => forallb (fun e => nullish e || convertible e) l
  | _ => true
  end.

Definition toPrimitive (v : JSValue) : result unit :=
  if convertible v then Ok tt
  else Throw (TypeError "Cannot convert object to primitive value").

(** [array.flatMap(f)]: an array returned by the callback is spliced in,
    anything else is appended as one element. *)
Definition spliced (v : JSValue) : list JSValue :=
  match v with VArr l => l | _ => [v] end.

Fixpoint flatMap (f : JSValue -> result JSValue) (l : list JSValue)
  : result (list JSValue) :=
  match l with
  | [] => Ok []
  | x :: l' => v <- f x ;; vs <- flatMap f l' ;; Ok (spliced v ++ vs)
  end.

(** [[...new Set(l)]]: insertion order, a value already present is skipped. *)
Definition has (s : list JSValue) (v : JSValue) : bool :=
  existsb (sameValueZero v) s.

Definition add (s : list JSValue) (v : JSValue) : list JSValue :=
  if has s v then s else s ++ [v].

Definition newSet (l : list JSValue) : list JSValue := fold_left add l [].

(** [array.slice(0, n)] *)
Definition slice0 {A : Type} (n : nat) (l : list A) : list A := firstn n l.

(** [array.slice(i, j)] for [0 <= i <= j]. *)
Definition slice {A : Type} (i j : nat) (l : list A) : list A :=
  firstn (j - i) (skipn i l).

(** [array.sort(comparefn)].  The comparator returns a number, [None]
    standing for NaN, which the sort treats as [+0], or throws, which ends
    the sort.  The sort is stable; for a consistent comparator the result
    is the unique stable sorted arrangement, which the insertion below
    computes.  With two elements or more every element is compared at
    least once. *)
Definition notAfter (c : option Z) : bool :=
  match c with
  | Some z => (z <=? 0)%Z
  | None => true
  end.

Section SortM.
Context {A : Type}.
Variable comparefn : A -> A -> result (option Z).

Fixpoint insertM (x : A) (l : list A) : result (list A) :=
  match l with
  | [] => Ok [x]
  | y :: l' =>
      c <- comparefn x y ;;
      if notAfter c then Ok (x :: y :: l')
      else (r <- insertM x l' ;; Ok (y :: r))
  end.

Fixpoint sortM (l : list A) : result (list A) :=
  match l with
  | [] => Ok []
  | x :: l' => s <- sortM l' ;; insertM x s
  end.

End SortM.

(** The same sort for a comparator that does not throw. *)
Section Sort.
Context {A : Type}.
Variable comparefn : A -> A -> option Z.

Definition before (a b : A) : bool := notAfter (comparefn a b).

Fixpoint insert (x : A) (l : list A) : list A :=
  match l with
  | [] => [x]
  | y :: l' => if before x y then x :: y :: l' else y :: insert x l'
  end.

Fixpoint sort (l : list A) : list A :=
  match l with
  | [] => []
  | x :: l' => insert x (sort l')
  end.

End Sort.

(** Template-literal rendering of a non-negative integer. *)
Definition decimal (n : nat) : string :=
  NilEmpty.string_of_uint (Nat.to_uint n).

(** [array.join(sep)] on already rendered elements. *)
Fixpoint join (sep : string) (l : list string) : string :=
  match l with
  | [] => ""
  | [x] => x
  | x :: l' => (x ++ sep ++ join sep l')%string
  end.

(** ToString, as a template literal applies it to a value that
    [toPrimitive] accepts.  The rendering of a number is left to the
    platform. *)
Fixpoint toString (numberToString : number -> string) (v : JSValue) : string :=
  match v with
  | VUndefined => "undefined"
  | VNull => "null"
  | VBool true => "true"
  | VBool false => "false"
  | VNum x => numberToString x
  | VStr s => s
  | VArr l =>
      join "," (map (fun e => if nullish e then ""
                              else toString numberToString e) l)
  | VObj _ => "[object Object]"
  end.

(** Own enumerable keys of an object, in insertion order. *)
Definition keys (v : JSValue) : list string :=
  match v with
  | VObj fields => map fst fields
  | _ => []
  end.

(** [array.map((x, index) => ...)] *)
Fixpoint mapi {A B : Type} (f : nat -> A -> B) (i : nat) (l : list A) : list B :=
  match l with
  | [] => []
  | x :: l' => f i x :: mapi f (S i) l'
  end.

(** Decimal rendering of [n >= 0], left-padded with zeros to [width]. *)
Fixpoint zeros (n : nat) : string :=
  match n with 0 => "" | S n' => ("0" ++ zeros n')%string end.

Definition pad (width : nat) (n : Z) : string :=
  let d := decimal (Z.to_nat n) in
  (zeros (width - String.length d) ++ d)%string.

(** Year, month and day of the proleptic Gregorian calendar for a day
    number counted from 1970-01-01. *)
Definition civil (days : Z) : Z * Z * Z :=
  let z := (days + 719468)%Z in
  let era := (z / 146097)%Z in
  let doe := (z - era * 146097)%Z in
  let yoe := ((doe - doe / 1460 + doe / 36524 - doe / 146096) / 365)%Z in
  let doy := (doe - (365 * yoe + yoe / 4 - yoe / 100))%Z in
  let mp := ((5 * doy + 2) / 153)%Z in
  let d := (doy - (153 * mp + 2) / 5 + 1)%Z in
  let m := (if mp <? 10 then mp + 3 else mp - 9)%Z in
  let y := (yoe + era * 400 + (if m <=? 2 then 1 else 0))%Z in
  (y, m, d).

Definition msPerDay : Z := 86400000.

(** [new Date(t).toISOString()] for an integral time value [t]. *)
Definition toISOString (t : Z) : result string :=
  if (Z.abs t <=? 8640000000000000)%Z then
    let '(y, m, d) := civil (t / msPerDay) in
    let r := (t mod msPerDay)%Z in
    let year := if ((0 <=? y) && (y <=? 9999))%Z then pad 4 y
                else ((if (y <? 0)%Z then "-" else "+") ++ pad 6 (Z.abs y))%string in
    Ok (year ++ "-" ++ pad 2 m ++ "-" ++ pad 2 d
        ++ "T" ++ pad 2 (r / 3600000) ++ ":" ++ pad 2 (r / 60000 mod 60)
        ++ ":" ++ pad 2 (r / 1000 mod 60) ++ "." ++ pad 3 (r mod 1000) ++ "Z")%string
  else Throw (mkError "RangeError" "Invalid time value").

(** The double-quote character, as a one-character string. *)
Definition dquote : string := String "034"%char "".

End JS.
Import JS.

(** ** ResultMerger: [combineAnalyses] (server.js, lines 578-624) *)

(** ToPropertyKey, as far as it can spell an own key of [riskPriority]: a
    string is its own key and a one-element array is keyed like its element
    (a [null] or [undefined] element renders as the empty string).  The key
    of any other value ("null", "true", "[object Object]", the digits of a
    number, a comma-joined array) is never one of the three level names. *)
Fixpoint riskKey (v : JSValue) : option string :=
  match v with
  | VStr s => Some s
  | VArr [x] =>
      match x with
      | VUndefined | VNull => Some ""
      | _ => riskKey x
      end
  | _ => None
  end.

(** [const riskPriority = { High: 3, Medium: 2, Low: 1 }] read at
    [riskPriority[risk]] and coerced to a number: [None] is NaN, which is
    what [undefined] (no such key) and the inherited members become. *)
Definition riskPriority (risk : JSValue) : option Z :=
  match riskKey risk with
  | Some k =>
      if k =? "High" then Some 3%Z
      else if k =? "Medium" then Some 2%Z
      else if k =? "Low" then Some 1%Z
      else None
  | None => None
  end.

(** [x - y] on numbers, NaN-propagating. *)
Definition minus (x y : option Z) : option Z :=
  match x, y with
  | Some a, Some b => Some (a - b)%Z
  | _, _ => None
  end.

(** [(a, b) => riskPriority[b.risk] - riskPriority[a.risk]].  Every item
    that reaches the sort has had [item.risk] read by the three filters
    before it, so [a.risk] and [b.risk] cannot throw here; turning them
    into property keys can. *)
Definition byRisk (a b : JSValue) : option Z :=
  minus (riskPriority (prop b "risk")) (riskPriority (prop a "risk")).

Definition byRiskM (a b : JSValue) : result (option Z) :=
  _ <- toPrimitive (prop b "risk") ;;
  _ <- toPrimitive (prop a "risk") ;;
  Ok (byRisk a b).

(** [item => item.risk === level] *)
Definition riskIs (level : string) (item : JSValue) : result bool :=
  r <- get item "risk" ;; Ok (strictEqStr r level).

Definition attention : string :=
  "Immediate attention recommended for high-risk content.".
Definition noConcern : string :=
  "No immediate high-risk concerns detected.".
Definition defaultDisclaimer : string :=
  "This is an automated risk-assessment, not legal advice; consult counsel before taking legal action.".

Definition summaryText (totalHighRisk totalMediumRisk : nat) : string :=
  "We found " ++ decimal (totalHighRisk + totalMediumRisk)
  ++ " Movies with Possible infringement. "
  ++ (if (0 <? totalHighRisk)%nat then attention else noConcern).

Definition combineAnalyses (analyses : list JSValue) (totalVideos : nat)
  : result JSValue :=
  allRankedLists <-
    flatMap (fun analysis =>
               rl <- get analysis "ranked_list" ;; Ok (or rl (VArr [])))
            analyses ;;
  allTopPriority <-
    flatMap (fun analysis =>
               tp <- get analysis "top_priority" ;; Ok (or tp (VArr [])))
            analyses ;;
  let uniqueTopPriority := slice0 10 (newSet allTopPriority) in
  successfulAnalyses <-
    filterM (fun a => f <- get a "batch_failed" ;; Ok (negb (truthy f)))
            analyses ;;
  let checklist := or (getOpt (first successfulAnalyses) "checklist") (VArr []) in
  let next_actions :=
    or (getOpt (first successfulAnalyses) "next_actions") (VArr []) in
  let disclaimer :=
    or (getOpt (first successfulAnalyses) "disclaimer") (VStr defaultDisclaimer) in
  high <- filterM (riskIs "High") allRankedLists ;;
  let totalHighRisk := List.length high in
  medium <- filterM (riskIs "Medium") allRankedLists ;;
  let totalMediumRisk := List.length medium in
  low <- filterM (riskIs "Low") allRankedLists ;;
  failed <-
    filterM (fun a => f <- get a "batch_failed" ;; Ok (truthy f)) analyses ;;
  let failedBatches := List.length failed in
  let summary := summaryText totalHighRisk totalMediumRisk in
  sortedRankedList <- sortM byRiskM allRankedLists ;;
  Ok (VObj [ ("summary", VStr summary);
             ("ranked_list", VArr sortedRankedList);
             ("top_priority", VArr uniqueTopPriority);
             ("checklist", checklist);
             ("next_actions", next_actions);
             ("disclaimer", disclaimer);
             ("batch_count", VNum (ofNat (List.length analyses)));
             ("failed_batches", VNum (ofNat failedBatches)) ]).


(** ** The outside world *)

(** The query parameters of one search call (lines 337-344).  [q] is the
    template literal [`${userName} ${channelName}`]; [part], [type] and
    [key] are constants of the run. *)
Record SearchParams : Type := mkSearchParams {
  q : string;
  maxResults : Z;
  pageToken : JSValue
}.

(** What varies in the payload of one text-generation call (lines 393-480):
    the two names and the batch interpolated in the prompt, the batch
    ordinal and the batch total. *)
Record ChatRequest : Type := mkChatRequest {
  original_title : JSValue;
  original_channel_title : JSValue;
  batchResults : list JSValue;
  batchOrdinal : nat;
  batchTotal : nat
}.

Record Platform : Type := mkPlatform {
  (** [process.env.YOUTUBE_API_KEY], [process.env.OPENAI_API_KEY] *)
  YOUTUBE_API_KEY : option string;
  OPENAI_API_KEY : option string;
  (** [await axios.get(url, { params })] for the n-th page request of the
      run: the response object, or the rejection. *)
  axios_get : nat -> SearchParams -> result JSValue;
  (** [await openai.chat.completions.create(...)] followed by
      [completion.choices[0].message.content]: the text handed to
      [JSON.parse], or whatever the call or the reads threw. *)
  chat_create : ChatRequest -> result string;
  (** [JSON.parse] *)
  JSON_parse : string -> result JSValue;
  (** [Date.now()], by reading: the clock may advance between two reads. *)
  Date_now : nat -> Z;
  (** Number::toString *)
  Number_toString : number -> string
}.

(** [!process.env.KEY] is false exactly for a non-empty string. *)
Definition keyPresent (k : option string) : bool :=
  match k with
  | Some s => negb (s =? "")
  | None => false
  end.

(** Outbound calls and timers, in the order the handler issues them. *)
Inductive Event : Type :=
| Search (pageCount : nat) (params : SearchParams)
| Sleep (ms : nat)
| Classify (request : ChatRequest).

Record Response : Type := mkResponse { status : nat; body : JSValue }.

(** ** SearchFetcher (server.js, lines 322-389) *)

Definition targetResults : nat := 100.
Definition maxResultsPerPage : nat := 50.

(** The callback of [searchResponse.data.items.map] (lines 348-357). *)
Definition normalize (item : JSValue) : result JSValue :=
  videoId <- (id <- get item "id" ;; get id "videoId") ;;
  title <- (snippet <- get item "snippet" ;; get snippet "title") ;;
  description <- (snippet <- get item "snippet" ;; get snippet "description") ;;
  channelTitle <- (snippet <- get item "snippet" ;; get snippet "channelTitle") ;;
  channelId <- (snippet <- get item "snippet" ;; get snippet "channelId") ;;
  publishedAt <- (snippet <- get item "snippet" ;; get snippet "publishedAt") ;;
  thumbnails <- (snippet <- get item "snippet" ;; get snippet "thumbnails") ;;
  publishTime <- (snippet <- get item "snippet" ;; get snippet "publishTime") ;;
  Ok (VObj [ ("videoId", videoId);
             ("title", title);
             ("description", description);
             ("channelTitle", channelTitle);
             ("channelId", channelId);
             ("publishedAt", publishedAt);
             ("thumbnails", thumbnails);
             ("publishTime", publishTime) ]).

(** [receiver.map(f)]: only an array has a [map] method. *)
Definition arrayMap (f : JSValue -> result JSValue) (receiver : JSValue)
  : result (list JSValue) :=
  match receiver with
  | VArr l => mapM f l
  | VUndefined | VNull =>
      Throw (TypeError ("Cannot read properties of " ++ typeName receiver
                         ++ " (reading 'map')"))
  | _ => Throw (TypeError "searchResponse.data.items.map is not a function")
  end.

(** Lines 348-360 for one response: the normalized page and the next token. *)
Definition processPage (searchResponse : JSValue)
  : result (list JSValue * JSValue) :=
  data <- get searchResponse "data" ;;
  items <- get data "items" ;;
  pageResults <- arrayMap normalize items ;;
  nextPageToken <- get data "nextPageToken" ;;
  Ok (pageResults, nextPageToken).

Section Handler.
Variable P : Platform.
Variables userName channelName : JSValue.

Definition searchParams (allSearchResults : list JSValue)
  (nextPageToken : JSValue) : SearchParams :=
  {| q := toString (Number_toString P) userName ++ " "
          ++ toString (Number_toString P) channelName;
     maxResults := Z.min (Z.of_nat maxResultsPerPage)
                     (Z.of_nat targetResults
                      - Z.of_nat (List.length allSearchResults));
     pageToken := nextPageToken |}.

(** The [do ... while] loop of lines 332-372, entered with the current
    [pageCount], [allSearchResults] and [nextPageToken].  [fuel] bounds the
    number of page requests; [None] means the loop is still running when
    the fuel is spent.  The result is what the [try] block yields (the
    videos, or the exception handed to [catch (youtubeError)]) and the
    events issued. *)
Fixpoint fetchPages (fuel pageCount : nat) (allSearchResults : list JSValue)
  (nextPageToken : JSValue) : option (result (list JSValue) * list Event) :=
  match fuel with
  | 0 => None
  | S fuel' =>
      let pageCount := S pageCount in
      let params := searchParams allSearchResults nextPageToken in
      match page <- axios_get P pageCount params ;; processPage page with
      | Throw youtubeError => Some (Throw youtubeError, [Search pageCount params])
      | Ok (pageResults, nextPageToken) =>
          let allSearchResults := allSearchResults ++ pageResults in
          if (targetResults <=? List.length allSearchResults)%nat
             || negb (truthy nextPageToken)
          then Some (Ok allSearchResults, [Search pageCount params])
          else
            match fetchPages fuel' pageCount allSearchResults nextPageToken with
            | None => None
            | Some (r, events) =>
                Some (r, Search pageCount params :: Sleep 500 :: events)
            end
      end
  end.

(** ** RiskClassifier (server.js, lines 392-483) *)

Definition analyzeBatch (batchResults : list JSValue)
  (batchNumber totalBatches : nat) : result JSValue :=
  content <- chat_create P {| original_title := userName;
                              original_channel_title := channelName;
                              batchResults := batchResults;
                              batchOrdinal := batchNumber;
                              batchTotal := totalBatches |} ;;
  JSON_parse P content.

(** ** BatchOrchestrator (server.js, lines 485-536) *)

Definition batchSize : nat := 10.

(** [Math.ceil(n / batchSize)] *)
Definition totalBatchesOf (n : nat) : nat := (n + (batchSize - 1)) / batchSize.

(** One turn of the [for] loop: the index [i], [batchNumber] and [batch]
    (lines 493-495). *)
Record Turn : Type := mkTurn {
  index : nat;
  batchNumber : nat;
  batch : list JSValue
}.

(** The turns of [for (let i = 0; i < allSearchResults.length; i += batchSize)]
    from index [i] on; there are at most [fuel] of them. *)
Fixpoint turnsFrom (fuel i : nat) (allSearchResults : list JSValue) : list Turn :=
  match fuel with
  | 0 => []
  | S fuel' =>
      if (i <? List.length allSearchResults)%nat
      then {| index := i;
              batchNumber := i / batchSize + 1;
              batch := slice i (i + batchSize) allSearchResults |}
           :: turnsFrom fuel' (i + batchSize) allSearchResults
      else []
  end.

Definition turns (allSearchResults : list JSValue) : list Turn :=
  turnsFrom (List.length allSearchResults) 0 allSearchResults.

(** The placeholder pushed for a failed batch (lines 525-534). *)
Definition placeholder (batchNumber : nat) : JSValue :=
  VObj [ ("summary", VStr ("Analysis failed for batch " ++ decimal batchNumber));
         ("ranked_list", VArr []);
         ("top_priority", VArr []);
         ("checklist", VArr []);
         ("next_actions", VArr []);
         ("disclaimer", VStr "Analysis incomplete due to API error");
         ("batch_failed", VBool true);
         ("batch_number", VNum (ofNat batchNumber)) ].

(** The record pushed on [failedBatches] (lines 518-522). *)
Definition failureDetail (batchNumber : nat) (openaiError : JSError)
  (batch : list JSValue) : JSValue :=
  VObj [ ("batchNumber", VNum (ofNat batchNumber));
         ("error", VStr (message openaiError));
         ("videosInBatch", VNum (ofNat (List.length batch))) ].

Record Loop : Type := mkLoop {
  allAnalyses : list JSValue;
  failedBatches : list JSValue;
  events : list Event
}.

(** The body of the [for] loop (lines 497-535). *)
Definition batchTurn (allSearchResults : list JSValue) (totalBatches : nat)
  (st : Loop) (t : Turn) : Loop :=
  let request := {| original_title := userName;
                    original_channel_title := channelName;
                    batchResults := batch t;
                    batchOrdinal := batchNumber t;
                    batchTotal := totalBatches |} in
  match analyzeBatch (batch t) (batchNumber t) totalBatches with
  | Ok batchAnalysis =>
      {| allAnalyses := allAnalyses st ++ [batchAnalysis];
         failedBatches := failedBatches st;
         events := events st ++ Classify request
                   :: (if (index t + batchSize <? List.length allSearchResults)%nat
                       then [Sleep 1000] else []) |}
  | Throw openaiError =>
      {| allAnalyses := allAnalyses st ++ [placeholder (batchNumber t)];
         failedBatches := failedBatches st
                          ++ [failureDetail (batchNumber t) openaiError (batch t)];
         events := events st ++ [Classify request] |}
  end.

Definition batchLoop (allSearchResults : list JSValue) : Loop :=
  fold_left
    (batchTurn allSearchResults (totalBatchesOf (List.length allSearchResults)))
    (turns allSearchResults)
    {| allAnalyses := []; failedBatches := []; events := [] |}.

(** What [analyzeBatch] yields at turn [t] of a run over [allSearchResults]. *)
Definition outcome (allSearchResults : list JSValue) (t : Turn) : result JSValue :=
  analyzeBatch (batch t) (batchNumber t)
    (totalBatchesOf (List.length allSearchResults)).

(** The call issued at turn [t]. *)
Definition requestOf (allSearchResults : list JSValue) (t : Turn) : ChatRequest :=
  {| original_title := userName;
     original_channel_title := channelName;
     batchResults := batch t;
     batchOrdinal := batchNumber t;
     batchTotal := totalBatchesOf (List.length allSearchResults) |}.

(** The contribution of turn [t] to [allAnalyses], to [failedBatches] and
    to the events of the run. *)
Definition analysisAt (allSearchResults : list JSValue) (t : Turn) : JSValue :=
  match outcome allSearchResults t with
  | Ok batchAnalysis => batchAnalysis
  | Throw _ => placeholder (batchNumber t)
  end.

Definition detailAt (allSearchResults : list JSValue) (t : Turn) : list JSValue :=
  match outcome allSearchResults t with
  | Ok _ => []
  | Throw openaiError => [failureDetail (batchNumber t) openaiError (batch t)]
  end.

Definition eventsAt (allSearchResults : list JSValue) (t : Turn) : list Event :=
  Classify (requestOf allSearchResults t)
  :: (if isOk (outcome allSearchResults t)
         && (index t + batchSize <? List.length allSearchResults)%nat
      then [Sleep 1000] else []).

(** ** MockReportGenerator: [generateMockResults] (server.js, lines 627-691) *)

(** The record pushed at turn [i] of the loop [for (let i = 1; i <= 100; i++)].
    The clock is read twice per turn. *)
Definition mockVideo (i : nat) : result JSValue :=
  let user := toString (Number_toString P) userName in
  let channel := toString (Number_toString P) channelName in
  publishedAt <-
    toISOString (Date_now P (2 * (i - 1)) - Z.of_nat i * msPerDay) ;;
  publishTime <-
    toISOString (Date_now P (2 * (i - 1) + 1) - Z.of_nat i * msPerDay) ;;
  Ok (VObj [ ("videoId", VStr ("mock_video_" ++ decimal i));
             ("title", VStr (user ++ " - " ++ channel ++ " Content " ++ decimal i));
             ("description",
              VStr ("This is a description for " ++ user ++ " " ++ channel
                    ++ " video " ++ decimal i));
             ("channelTitle",
              if i mod 5 =? 0 then channelName
              else VStr ("Other Channel " ++ decimal i));
             ("channelId", VStr ("channel_" ++ decimal i));
             ("publishedAt", VStr publishedAt);
             ("thumbnails",
              VObj [ ("default",
                      VObj [ ("url",
                              VStr ("https://via.placeholder.com/120x90.png?text=Thumbnail+"
                                    ++ decimal i));
                             ("width", VNum (ofNat 120));
                             ("height", VNum (ofNat 90)) ]) ]);
             ("publishTime", VStr publishTime) ])%nat.

(** The callback of [searchResults.slice(0, 20).map] (lines 655-665). *)
Definition mockEntry (index : nat) (r : JSValue) : JSValue :=
  VObj [ ("videoId", prop r "videoId");
         ("title", prop r "title");
         ("channel", prop r "channelTitle");
         ("publishedAt", prop r "publishedAt");
         ("risk", VStr (if (index <? 5)%nat then "High"
                        else if (index <? 10)%nat then "Medium" else "Low"));
         ("rationale",
          VArr [ VStr (if (index <? 5)%nat
                       then "Exact title match with original content"
                       else "Possible infringement");
                 VStr (if (index <? 5)%nat
                       then "Uploaded by unauthorized channel"
                       else "Requires manual verification") ]) ].

Definition mockChecklist : JSValue :=
  VArr [ VStr "Open video and compare audio/duration";
         VStr "Check description for rights statement";
         VStr "Check channel About page";
         VStr "Screenshot evidence";
         VStr "Check YouTube Content ID/claims if visible" ].

Definition mockNextActions : JSValue :=
  VArr [ VStr "Contact rights owner";
         VStr "Use YouTube Studio -> Copyright -> Submit takedown (if owner)";
         VStr "Send polite removal request to uploader (template)" ].

Definition generateMockResults : result JSValue :=
  let user := toString (Number_toString P) userName in
  let channel := toString (Number_toString P) channelName in
  searchResults <- mapM mockVideo (seq 1 100) ;;
  let analysis :=
    VObj [ ("summary",
            VStr ("Based on the search results for " ++ dquote ++ user ++ " "
                  ++ channel ++ dquote
                  ++ ", we analyzed 100 videos across 10 batches. Found 15 high-risk, 25 medium-risk, and 60 low-risk videos. Immediate attention recommended for high-risk content."));
           ("ranked_list", VArr (mapi mockEntry 0 (slice 0 20 searchResults)));
           ("top_priority",
            VArr [ VStr "mock_video_1"; VStr "mock_video_2"; VStr "mock_video_3";
                   VStr "mock_video_4"; VStr "mock_video_5" ]);
           ("checklist", mockChecklist);
           ("next_actions", mockNextActions);
           ("disclaimer", VStr defaultDisclaimer);
           ("batch_count", VNum (ofNat 10)) ] in
  Ok (VObj [ ("userName", userName);
             ("query", channelName);
             ("totalVideosFound", VNum (ofNat 100));
             ("batchesAnalyzed", VNum (ofNat 10));
             ("searchResults", VArr searchResults);
             ("analysis", analysis) ]).

(** The report of the real pipeline (lines 556-565). *)
Definition report (allSearchResults : list JSValue) (st : Loop)
  (finalAnalysis : JSValue) : JSValue :=
  VObj [ ("userName", userName);
         ("query", channelName);
         ("totalVideosFound", VNum (ofNat (List.length allSearchResults)));
         ("batchesAnalyzed", VNum (ofNat (List.length (allAnalyses st))));
         ("batchesFailed", VNum (ofNat (List.length (failedBatches st))));
         ("failedBatchDetails", VArr (failedBatches st));
         ("searchResults", VArr allSearchResults);
         ("analysis", finalAnalysis) ].

End Handler.

(** ** The [POST /analyze] handler (server.js, lines 304-575) *)

Definition errorBody (msg : string) : JSValue := VObj [("error", VStr msg)].

(** The outer [catch (error)] (lines 567-574). *)
Definition unexpected (error : JSError) : Response :=
  {| status := 500;
     body := VObj [ ("error", VStr "An unexpected error occurred during analysis");
                    ("details", VStr (message error)) ] |}.

(** [const { userName, channelName } = req.body] (line 306) *)
Definition destructure (req_body : JSValue) : result (JSValue * JSValue) :=
  if nullish req_body
  then Throw (TypeError ("Cannot destructure property 'userName' of 'req.body' as it is "
                          ++ typeName req_body ++ "."))
  else Ok (prop req_body "userName", prop req_body "channelName").

(** The template literal of the log line 313, the first place where the
    two names are rendered; the later template literals render the same
    two values and cannot throw. *)
Definition logStart (userName channelName : JSValue) : result unit :=
  _ <- toPrimitive userName ;; toPrimitive channelName.

(** The real pipeline, once the request is accepted and both keys are
    there (lines 322-565). *)
Definition pipeline (P : Platform) (userName channelName : JSValue) (fuel : nat)
  : option (Response * list Event) :=
  match fetchPages P userName channelName fuel 0 [] VNull with
  | None => None
  | Some (Throw youtubeError, searched) =>
      Some ({| status := 500;
               body := errorBody ("YouTube API error: " ++ message youtubeError) |},
            searched)
  | Some (Ok allSearchResults, searched) =>
      if (List.length allSearchResults =? 0)%nat then
        Some ({| status := 404;
                 body := errorBody "No videos found for this channel" |},
              searched)
      else
        let st := batchLoop P userName channelName allSearchResults in
        match combineAnalyses (allAnalyses st) (List.length allSearchResults) with
        | Ok finalAnalysis =>
            Some ({| status := 200;
                     body := report userName channelName
                               allSearchResults st finalAnalysis |},
                  searched ++ events st)
        | Throw error => Some (unexpected error, searched ++ events st)
        end
  end.

(** One request: the response sent and the events issued, or [None] when
    [fuel] page requests do not end the pagination. *)
Definition analyze (P : Platform) (req_body : JSValue) (fuel : nat)
  : option (Response * list Event) :=
  match destructure req_body with
  | Throw error => Some (unexpected error, [])
  | Ok (userName, channelName) =>
      if negb (truthy userName) || negb (truthy channelName) then
        Some ({| status := 400;
                 body := errorBody "User name and channel name are required" |},
              [])
      else
        match logStart userName channelName with
        | Throw error => Some (unexpected error, [])
        | Ok _ =>
            if negb (keyPresent (YOUTUBE_API_KEY P))
               || negb (keyPresent (OPENAI_API_KEY P)) then
              match generateMockResults P userName channelName with
              | Ok mockResults =>
                  Some ({| status := 200; body := mockResults |}, [])
              | Throw error => Some (unexpected error, [])
              end
            else pipeline P userName channelName fuel
        end
  end.

(** ** The parser of the single-request variant: [extractJSON] (test.js, lines 33-46) *)

Module Variant.

(** A text is a byte string: the UTF-8 encoding of the JavaScript string
    (a lone surrogate in its generalized three-byte form).  The braces,
    the backquote and the letters of [json] are single bytes that occur in
    no longer encoding, so searching and slicing by bytes selects the same
    characters as the code does by code units.

    The white space [trim] and [\s] remove is the WhiteSpace and
    LineTerminator code points of ECMAScript: TAB, LF, VT, FF, CR and SP,
    which are one byte each; U+00A0, which is two bytes; and U+1680, U+2000
    to U+200A, U+2028, U+2029, U+202F, U+205F, U+3000 and U+FEFF, which are
    three bytes each. *)
Definition isSpace (c : ascii) : bool :=
  let n := nat_of_ascii c in
  ((9 <=? n) && (n <=? 13) || (n =? 32))%nat.

(** C2 A0 *)
Definition space2 (a b : nat) : bool := ((a =? 194) && (b =? 160))%nat.

(** E1 9A 80; E2 80 80 to E2 80 8A, E2 80 A8, E2 80 A9, E2 80 AF; E2 81 9F;
    E3 80 80; EF BB BF *)
Definition space3 (a b c : nat) : bool :=
  ((a =? 225) && (b =? 154) && (c =? 128)
   || (a =? 226) && (b =? 128)
      && ((128 <=? c) && (c <=? 138) || (c =? 168) || (c =? 169) || (c =? 175))
   || (a =? 226) && (b =? 129) && (c =? 159)
   || (a =? 227) && (b =? 128) && (c =? 128)
   || (a =? 239) && (b =? 187) && (c =? 191))%nat.

Definition isSpace2 (a b : ascii) : bool :=
  space2 (nat_of_ascii a) (nat_of_ascii b).

Definition isSpace3 (a b c : ascii) : bool :=
  space3 (nat_of_ascii a) (nat_of_ascii b) (nat_of_ascii c).

Definition reverse (s : string) : string :=
  string_of_list_ascii (rev (list_ascii_of_string s)).

(** The text without the white space at its front.  With [mirror] the
    text is a reversed one, in which every encoding reads backwards. *)
Fixpoint trimFrom (mirror : bool) (s : string) : string :=
  match s with
  | String a s1 =>
      if isSpace a then trimFrom mirror s1
      else
        match s1 with
        | String b s2 =>
            if (if mirror then isSpace2 b a else isSpace2 a b)
            then trimFrom mirror s2
            else
              match s2 with
              | String c s3 =>
                  if (if mirror then isSpace3 c b a else isSpace3 a b c)
                  then trimFrom mirror s3
                  else s
              | EmptyString => s
              end
        | EmptyString => s
        end
  | EmptyString => s
  end.

Definition trimStart (s : string) : string := trimFrom false s.

Definition trimEnd (s : string) : string := reverse (trimFrom true (reverse s)).

Definition trim (s : string) : string := trimEnd (trimStart s).

Definition lower (c : ascii) : ascii :=
  let n := nat_of_ascii c in
  if ((65 <=? n) && (n <=? 90))%nat then ascii_of_nat (n + 32) else c.

(** Case-insensitive prefix test; the rest of the text after the prefix. *)
Fixpoint stripPrefixCI (pre s : string) : option string :=
  match pre, s with
  | EmptyString, _ => Some s
  | String a pre', String b s' =>
      if Ascii.eqb (lower a) (lower b) then stripPrefixCI pre' s' else None
  | String _ _, EmptyString => None
  end.

Definition fence : string := "```".

(** [.replace(/^```(?:json)?\s*/i, '')] *)
Definition stripOpeningFence (s : string) : string :=
  match stripPrefixCI fence s with
  | None => s
  | Some rest =>
      trimStart (match stripPrefixCI "json" rest with
                 | Some rest' => rest'
                 | None => rest
                 end)
  end.

(** [.replace(/```$/i, '')] *)
Definition stripClosingFence (s : string) : string :=
  match stripPrefixCI fence (reverse s) with
  | Some rest => reverse rest
  | None => s
  end.

(** [s.indexOf(c)], [None] for -1. *)
Fixpoint indexOf (c : ascii) (s : string) : option nat :=
  match s with
  | EmptyString => None
  | String c' s' =>
      if Ascii.eqb c' c then Some 0
      else option_map S (indexOf c s')
  end.

(** [s.lastIndexOf(c)], [None] for -1. *)
Definition lastIndexOf (c : ascii) (s : string) : option nat :=
  match indexOf c (reverse s) with
  | Some i => Some (String.length s - 1 - i)
  | None => None
  end.

Definition orElse {A : Type} (r : result A) (k : result A) : result A :=
  match r with
  | Ok a => Ok a
  | Throw _ => k
  end.

Definition extractJSON (parse : string -> result JSValue) (text : string)
  : result JSValue :=
  let fenced := stripClosingFence (stripOpeningFence (trim text)) in
  let giveUp := Throw (mkError "Error" "Model did not return valid JSON") in
  orElse (parse fenced)
    (match indexOf "{"%char fenced, lastIndexOf "}"%char fenced with
     | Some first, Some last =>
         if (first <? last)%nat
         then orElse (parse (substring first (last + 1 - first) fenced)) giveUp
         else giveUp
     | _, _ => giveUp
     end).

End Variant.

(** ** Vocabulary of the statements *)

(** What one batch analysis contributes to [allRankedLists] and to
    [allTopPriority]: the elements of the array, nothing when the field is
    missing, and the field itself when it is some other truthy value. *)
Definition rankedListOf (analysis : JSValue) : list JSValue :=
  spliced (or (prop analysis "ranked_list") (VArr [])).

Definition topPriorityOf (analysis : JSValue) : list JSValue :=
  spliced (or (prop analysis "top_priority") (VArr [])).



(** An analysis [combineAnalyses] can read: it is not [null], no ranked
    entry is [null], and the risk of every ranked entry has a property
    key. *)
Definition readableEntry (item : JSValue) : bool :=
  negb (nullish item) && convertible (prop item "risk").

Definition readable (analysis : JSValue) : bool :=
  negb (nullish analysis) && forallb readableEntry (rankedListOf analysis).

(** A ranked entry carrying one of the three risk levels. *)
Definition levels : list string := ["High"; "Medium"; "Low"].

Definition hasLevel (level : string) (item : JSValue) : bool :=
  strictEqStr (prop item "risk") level.

Definition graded (item : JSValue) : bool :=
  negb (nullish item) && existsb (fun level => hasLevel level item) levels.

(** Severity of a graded entry: High 3, Medium 2, Low 1. *)
Definition severity (item : JSValue) : Z :=
  if hasLevel "High" item then 3
  else if hasLevel "Medium" item then 2
  else if hasLevel "Low" item then 1
  else 0.

(** The elements of [l] that no earlier element of [l] is the same value
    as, in the order of [l]; [earlier] holds what came before [l]. *)
Fixpoint firstOccurrencesAfter (earlier l : list JSValue) : list JSValue :=
  match l with
  | [] => []
  | x :: l' =>
      (if has earlier x then [] else [x])
      ++ firstOccurrencesAfter (earlier ++ [x]) l'
  end.

Definition firstOccurrences (l : list JSValue) : list JSValue :=
  firstOccurrencesAfter [] l.

(** No two places of [l] hold the same value. *)
Fixpoint distinct (l : list JSValue) : Prop :=
  match l with
  | [] => True
  | x :: l' => has l' x = false /\ distinct l'
  end.

(** The text after the count in the summary. *)
Definition qualifierOf (summary : JSValue) (count : nat) : option string :=
  match summary with
  | VStr s =>
      let head := ("We found " ++ decimal count
                   ++ " Movies with Possible infringement. ")%string in
      if prefix head s
      then Some (substring (String.length head)
                           (String.length s - String.length head) s)
      else None
  | _ => None
  end.

(** The object [combineAnalyses] returns when none of its reads throws. *)
Definition merged (analyses : list JSValue) : JSValue :=
  let allRankedLists := List.concat (map rankedListOf analyses) in
  let allTopPriority := List.concat (map topPriorityOf analyses) in
  let successfulAnalyses :=
    filter (fun a => negb (truthy (prop a "batch_failed"))) analyses in
  VObj [ ("summary",
          VStr (summaryText
                  (List.length (filter (hasLevel "High") allRankedLists))
                  (List.length (filter (hasLevel "Medium") allRankedLists))));
         ("ranked_list", VArr (sort byRisk allRankedLists));
         ("top_priority", VArr (slice0 10 (newSet allTopPriority)));
         ("checklist",
          or (getOpt (first successfulAnalyses) "checklist") (VArr []));
         ("next_actions",
          or (getOpt (first successfulAnalyses) "next_actions") (VArr []));
         ("disclaimer",
          or (getOpt (first successfulAnalyses) "disclaimer")
             (VStr defaultDisclaimer));
         ("batch_count", VNum (ofNat (List.length analyses)));
         ("failed_batches",
          VNum (ofNat (List.length
                         (filter (fun a => truthy (prop a "batch_failed"))
                                 analyses)))) ].

(** The analyses of the batches that did not throw, in batch order. *)
Fixpoint successesOf (outcomes : list (result JSValue)) : list JSValue :=
  match outcomes with
  | [] => []
  | Ok a :: rest => a :: successesOf rest
  | Throw _ :: rest => successesOf rest
  end.

(** A raw search item whose two sub-objects are there. *)
Definition complete (item : JSValue) : bool :=
  negb (nullish item)
  && negb (nullish (prop item "id"))
  && negb (nullish (prop item "snippet")).

(** The fields of the normalized record: its key, and the sub-object and
    the key there that it is read from. *)
Definition fieldMap : list (string * (string * string)) :=
  [ ("videoId", ("id", "videoId"));
    ("title", ("snippet", "title"));
    ("description", ("snippet", "description"));
    ("channelTitle", ("snippet", "channelTitle"));
    ("channelId", ("snippet", "channelId"));
    ("publishedAt", ("snippet", "publishedAt"));
    ("thumbnails", ("snippet", "thumbnails"));
    ("publishTime", ("snippet", "publishTime")) ].

(** The record [normalize] builds from a complete item. *)
Definition normalized (item : JSValue) : JSValue :=
  VObj [ ("videoId", prop (prop item "id") "videoId");
         ("title", prop (prop item "snippet") "title");
         ("description", prop (prop item "snippet") "description");
         ("channelTitle", prop (prop item "snippet") "channelTitle");
         ("channelId", prop (prop item "snippet") "channelId");
         ("publishedAt", prop (prop item "snippet") "publishedAt");
         ("thumbnails", prop (prop item "snippet") "thumbnails");
         ("publishTime", prop (prop item "snippet") "publishTime") ].

(** The keys of a report and of its analysis, as the real pipeline and as
    the mock generator write them. *)
Definition reportKeys : list string :=
  [ "userName"; "query"; "totalVideosFound"; "batchesAnalyzed";
    "batchesFailed"; "failedBatchDetails"; "searchResults"; "analysis" ].

Definition analysisKeys : list string :=
  [ "summary"; "ranked_list"; "top_priority"; "checklist"; "next_actions";
    "disclaimer"; "batch_count"; "failed_batches" ].

Definition mockReportKeys : list string :=
  [ "userName"; "query"; "totalVideosFound"; "batchesAnalyzed";
    "searchResults"; "analysis" ].

Definition mockAnalysisKeys : list string :=
  [ "summary"; "ranked_list"; "top_priority"; "checklist"; "next_actions";
    "disclaimer"; "batch_count" ].

(** The request body passes the validation and the first log line, with
    the two names [userName] and [channelName]. *)
Definition accepted (req_body userName channelName : JSValue) : Prop :=
  destructure req_body = Ok (userName, channelName)
  /\ truthy userName = true
  /\ truthy channelName = true
  /\ convertible userName = true
  /\ convertible channelName = true.

(** Both keys are configured. *)
Definition configured (P : Platform) : Prop :=
  keyPresent (YOUTUBE_API_KEY P) = true /\ keyPresent (OPENAI_API_KEY P) = true.

(** Mock mode: either key is missing. *)
Definition mockMode (P : Platform) : bool :=
  negb (keyPresent (YOUTUBE_API_KEY P)) || negb (keyPresent (OPENAI_API_KEY P)).

(** The response of a run; status 0 when the run has not answered. *)
Definition responseOf (run : option (Response * list Event)) : Response :=
  match run with
  | Some (response, _) => response
  | None => {| status := 0; body := VUndefined |}
  end.

(** The events of a run. *)
Definition issuedBy (run : option (Response * list Event)) : list Event :=
  match run with
  | Some (_, issued) => issued
  | None => []
  end.

Definition isClassify (e : Event) : bool :=
  match e with Classify _ => true | _ => false end.

Definition isSearch (e : Event) : bool :=
  match e with Search _ _ => true | _ => false end.

(** The state of the pagination loop after [n] page requests that all
    succeeded without ending the loop. *)
Inductive paged (P : Platform) (userName channelName : JSValue)
  : nat -> list JSValue -> JSValue -> Prop :=
| paged_start : paged P userName channelName 0 [] VNull
| paged_next (n : nat) (allSearchResults pageResults : list JSValue)
    (token token' page : JSValue) :
    paged P userName channelName n allSearchResults token ->
    axios_get P (S n) (searchParams P userName channelName allSearchResults token)
    = Ok page ->
    processPage page = Ok (pageResults, token') ->
    List.length (allSearchResults ++ pageResults) < targetResults ->
    truthy token' = true ->
    paged P userName channelName (S n) (allSearchResults ++ pageResults) token'.

(** ** Sample inputs *)

Definition entry (id risk : string) : JSValue :=
  VObj [ ("videoId", VStr id); ("risk", VStr risk) ].

(** Three batch analyses: a well-formed one, a failure placeholder, and a
    second well-formed one that repeats an id of the first. *)
Definition sampleAnalyses : list JSValue :=
  [ VObj [ ("summary", VStr "first");
           ("ranked_list",
            VArr [ entry "a" "Low"; entry "b" "High"; entry "c" "Medium";
                   entry "f" "Low" ]);
           ("top_priority", VArr [ VStr "b"; VStr "c"; VStr "b" ]) ];
    VObj [ ("summary", VStr "Analysis failed for batch 2");
           ("ranked_list", VArr []);
           ("top_priority", VArr []);
           ("batch_failed", VBool true) ];
    VObj [ ("summary", VStr "third");
           ("ranked_list", VArr [ entry "d" "High"; entry "e" "Low" ]);
           ("top_priority", VArr [ VStr "d"; VStr "b" ]) ] ].


Definition onlyMedium : list JSValue :=
  [ VObj [ ("ranked_list", VArr [ entry "m" "Medium" ]) ] ].

Definition onlyHigh : list JSValue :=
  [ VObj [ ("ranked_list", VArr [ entry "h" "High" ]) ] ].

(** A search response carrying [items] and a continuation token. *)
Definition pageOf (items : list JSValue) (token : JSValue) : JSValue :=
  VObj [ ("data", VObj [ ("items", VArr items); ("nextPageToken", token) ]) ].

(** A raw item with an id and a snippet that has a title only. *)
Definition video (id : string) : JSValue :=
  VObj [ ("id", VObj [ ("videoId", VStr id) ]);
         ("snippet", VObj [ ("title", VStr id) ]) ].

(** A raw item without the [snippet] sub-object. *)
Definition bareItem : JSValue := VObj [ ("id", VObj [ ("videoId", VStr "v2") ]) ].

Definition videos (n : nat) : list JSValue :=
  map (fun i => video ("v" ++ decimal i)) (seq 1 n).

Definition sampleBody : JSValue :=
  VObj [ ("userName", VStr "Artist"); ("channelName", VStr "ArtistOfficial") ].

(** What the search stage yields on a single page of [n] sample videos. *)
Definition found (n : nat) : list JSValue := map normalized (videos n).

(** The outcomes of the batches of a run for [sampleBody] on [P] that found
    [n] sample videos. *)
Definition sampleOutcomes (P : Platform) (n : nat) : list (result JSValue) :=
  map (outcome P (VStr "Artist") (VStr "ArtistOfficial") (found n))
      (turns (found n)).

(** The first search call of a run for [sampleBody]. *)
Definition firstSearch : Event :=
  Search 1 {| q := "Artist ArtistOfficial"; maxResults := 50; pageToken := VNull |}.

(** The classification call for batch [n] of [total] over [batch], in a
    run for [sampleBody]. *)
Definition classifyCall (n total : nat) (batch : list JSValue) : Event :=
  Classify {| original_title := VStr "Artist";
              original_channel_title := VStr "ArtistOfficial";
              batchResults := batch;
              batchOrdinal := n;
              batchTotal := total |}.

Definition SyntaxError (text : string) : JSError :=
  mkError "SyntaxError" ("Unexpected token in JSON: " ++ text).

Definition quoted (s : string) : string := dquote ++ s ++ dquote.

(** The JSON text of an object whose only member is [batch_failed], true. *)
Definition markedText : string := "{" ++ quoted "batch_failed" ++ ":true}".

(** The JSON text of an analysis that ranks the video v11 High, and the
    analysis. *)
Definition analysisText : string :=
  "{" ++ quoted "ranked_list" ++ ":[{" ++ quoted "videoId" ++ ":" ++ quoted "v11"
  ++ "," ++ quoted "risk" ++ ":" ++ quoted "High" ++ "}]}".

Definition sampleAnalysis : JSValue :=
  VObj [ ("ranked_list", VArr [ entry "v11" "High" ]) ].

(** The same text after a sentence of prose. *)
Definition chattyText : string := "Here is the analysis: " ++ analysisText.

(** [JSON.parse] on the texts the samples use. *)
Definition parseSample (text : string) : result JSValue :=
  if text =? "null" then Ok VNull
  else if text =? "{}" then Ok (VObj [])
  else if text =? markedText then Ok (VObj [ ("batch_failed", VBool true) ])
  else if text =? analysisText then Ok sampleAnalysis
  else Throw (SyntaxError text).

(** A platform with both keys, a single page of [n] videos with [extra]
    appended, and a text-generation endpoint answering by batch ordinal. *)
Definition samplePlatform (n : nat) (extra : list JSValue)
  (answer : nat -> result string) : Platform :=
  {| YOUTUBE_API_KEY := Some "yt-key";
     OPENAI_API_KEY := Some "oa-key";
     axios_get := fun _ _ => Ok (pageOf (videos n ++ extra) VUndefined);
     chat_create := fun request => answer (batchOrdinal request);
     JSON_parse := parseSample;
     Date_now := fun k => (1700000000000 + Z.of_nat k)%Z;
     Number_toString := fun _ => "0" |}.

(** Every batch parses to [null]. *)
Definition nullPlatform : Platform :=
  samplePlatform 1 [] (fun _ => Ok "null").

(** Every batch parses to an object that carries the failure marker. *)
Definition markedPlatform : Platform :=
  samplePlatform 1 [] (fun _ => Ok markedText).

(** One item of the page has no snippet. *)
Definition barePlatform : Platform :=
  samplePlatform 1 [bareItem] (fun _ => Ok "{}").

(** Eleven videos; the first classification call is refused, the second
    answers. *)
Definition flakyPlatform : Platform :=
  samplePlatform 11 []
    (fun n => if (n =? 1)%nat then Throw (mkError "Error" "429 Too Many Requests")
              else Ok analysisText).

(** Eleven videos; every classification call is refused. *)
Definition refusingPlatform : Platform :=
  samplePlatform 11 [] (fun _ => Throw (mkError "Error" "401 Unauthorized")).

(** Eleven videos; both classification calls answer. *)
Definition steadyPlatform : Platform :=
  samplePlatform 11 [] (fun n => if (n =? 1)%nat then Ok "{}" else Ok analysisText).

(** No key configured. *)
Definition mockPlatform : Platform :=
  {| YOUTUBE_API_KEY := None;
     OPENAI_API_KEY := None;
     axios_get := fun _ _ => Throw (mkError "Error" "no network");
     chat_create := fun _ => Throw (mkError "Error" "no network");
     JSON_parse := parseSample;
     Date_now := fun k => (1700000000000 + Z.of_nat k)%Z;
     Number_toString := fun _ => "0" |}.

(** Two pages: fifty videos and a token, then the endpoint refuses. *)
Definition secondPageFails : Platform :=
  {| YOUTUBE_API_KEY := Some "yt-key";
     OPENAI_API_KEY := Some "oa-key";
     axios_get := fun n _ =>
       if (n =? 1)%nat then Ok (pageOf (videos 50) (VStr "CDIQAA"))
       else Throw (mkError "AxiosError" "Request failed with status code 403");
     chat_create := fun _ => Ok "{}";
     JSON_parse := parseSample;
     Date_now := fun k => (1700000000000 + Z.of_nat k)%Z;
     Number_toString := fun _ => "0" |}.

(** The model wraps its JSON in a sentence. *)
Definition chattyPlatform : Platform :=
  samplePlatform 1 [] (fun _ => Ok chattyText).

(** ** The single-request handler of the variant (test.js, lines 53-258) *)

Module Single.

(** [!!(v?.length)] (line 85): the length of an array or of a string is a
    number, falsy exactly when it is zero; any other object has the length
    it holds as a property; [undefined], [null], booleans and numbers have
    none. *)
Definition hasLength (v : JSValue) : bool :=
  match v with
  | VArr l => negb (List.length l =? 0)%nat
  | VStr s => negb (String.length s =? 0)%nat
  | VObj fields => truthy (lookup "length" fields)
  | _ => false
  end.

(** The one search call (lines 71-79): [q] is [`${userName}`], ten results
    are asked for, and there is no page token. *)
Definition searchParams (P : Platform) (userName : JSValue) : SearchParams :=
  {| q := toString (Number_toString P) userName;
     maxResults := 10;
     pageToken := VUndefined |}.

(** The payload of the one text-generation call (lines 101-130); the
    prompt carries the two names and all the search results, and no batch
    numbering. *)
Definition chatRequest (userName channelName : JSValue)
  (searchResults : list JSValue) : ChatRequest :=
  {| original_title := userName;
     original_channel_title := channelName;
     batchResults := searchResults;
     batchOrdinal := 1;
     batchTotal := 1 |}.

(** The outer [catch (error)] (lines 154-157): no details. *)
Definition unexpected : Response :=
  {| status := 500;
     body := errorBody "An unexpected error occurred during analysis" |}.

(** [llmError.message || 'unknown'] *)
Definition messageOr (e : JSError) : string :=
  if message e =? "" then "unknown" else message e.

(** The record pushed at turn [i] of [for (let i = 1; i <= 5; i++)]
    (lines 163-180). *)
Definition mockVideo (P : Platform) (channelName : JSValue) (i : nat)
  : result JSValue :=
  let channel := toString (Number_toString P) channelName in
  publishedAt <-
    toISOString (Date_now P (2 * (i - 1)) - Z.of_nat i * msPerDay) ;;
  publishTime <-
    toISOString (Date_now P (2 * (i - 1) + 1) - Z.of_nat i * msPerDay) ;;
  Ok (VObj [ ("videoId", VStr ("mock_video_" ++ decimal i));
             ("title", VStr (channel ++ " - Video " ++ decimal i));
             ("description",
              VStr ("This is a description for " ++ channel ++ " video "
                    ++ decimal i));
             ("channelTitle",
              if (i =? 1)%nat then channelName
              else VStr ("Other Channel " ++ decimal i));
             ("channelId", VStr ("channel_" ++ decimal i));
             ("publishedAt", VStr publishedAt);
             ("thumbnails",
              VObj [ ("default",
                      VObj [ ("url",
                              VStr ("https://via.placeholder.com/120x90.png?text=Thumbnail+"
                                    ++ decimal i));
                             ("width", VNum (ofNat 120));
                             ("height", VNum (ofNat 90)) ]) ]);
             ("publishTime", VStr publishTime) ]).

(** One entry of the literal ranked list (lines 184-240); [reading] is
    the number of the clock reading of its date. *)
Definition mockEntry (P : Platform) (channelName : JSValue) (reading i : nat)
  (channel : JSValue) (risk : string) (rationale : list string)
  : result JSValue :=
  publishedAt <- toISOString (Date_now P reading - Z.of_nat i * msPerDay) ;;
  Ok (VObj [ ("videoId", VStr ("mock_video_" ++ decimal i));
             ("title",
              VStr (toString (Number_toString P) channelName ++ " - Video "
                    ++ decimal i));
             ("channel", channel);
             ("publishedAt", VStr publishedAt);
             ("risk", VStr risk);
             ("rationale", VArr (map VStr rationale)) ]).

Definition generateMockResults (P : Platform) (userName channelName : JSValue)
  : result JSValue :=
  _ <- toPrimitive channelName ;;
  searchResults <- mapM (mockVideo P channelName) (seq 1 5) ;;
  e2 <- mockEntry P channelName 10 2 (VStr "Other Channel 2") "High"
          [ "Exact title match with original content";
            "Uploaded by a channel not associated with the original creator" ] ;;
  e3 <- mockEntry P channelName 11 3 (VStr "Other Channel 3") "Medium"
          [ "Title suggests possible infringement";
            "Channel has uploaded similar content from multiple creators" ] ;;
  e4 <- mockEntry P channelName 12 4 (VStr "Other Channel 4") "Low"
          [ "May be transformative content";
            "Description suggests educational use" ] ;;
  e5 <- mockEntry P channelName 13 5 (VStr "Other Channel 5") "Low"
          [ "Short clip likely falling under fair use";
            "Clear attribution in description" ] ;;
  e1 <- mockEntry P channelName 14 1 channelName "Low"
          [ "Official channel content"; "No signs of infringement" ] ;;
  let analysis :=
    VObj [ ("summary",
            VStr ("Based on the search results for " ++ dquote
                  ++ toString (Number_toString P) channelName ++ dquote
                  ++ ", we found 5 videos with varying levels of copyright risk."));
           ("ranked_list", VArr [ e2; e3; e4; e5; e1 ]);
           ("top_priority", VArr [ VStr "mock_video_2"; VStr "mock_video_3" ]);
           ("checklist", mockChecklist);
           ("next_actions", mockNextActions);
           ("disclaimer", VStr defaultDisclaimer) ] in
  Ok (VObj [ ("userName", userName);
             ("query", channelName);
             ("searchResults", VArr searchResults);
             ("analysis", analysis) ]).

(** Lines 100-152, once the search results are there: the prompt, the one
    call, the parse.  [chat_create] stands here for the call followed by
    [completion.choices?.[0]?.message?.content || ''] (line 132): the text
    handed to [extractJSON], or what the call threw. *)
Definition classify (P : Platform) (userName channelName : JSValue)
  (searchResults : list JSValue) : Response * list Event :=
  match toPrimitive channelName with
  | Throw _ => (unexpected, [])
  | Ok _ =>
      let request := chatRequest userName channelName searchResults in
      match chat_create P request with
      | Throw llmError =>
          ({| status := 500;
              body := errorBody ("OpenRouter API error: " ++ messageOr llmError) |},
           [Classify request])
      | Ok raw =>
          match Variant.extractJSON (JSON_parse P) raw with
          | Throw _ =>
              ({| status := 502;
                  body := errorBody "Model returned non-JSON output. Please retry." |},
               [Classify request])
          | Ok analysis =>
              ({| status := 200;
                  body := VObj [ ("userName", userName);
                                 ("query", channelName);
                                 ("searchResults", VArr searchResults);
                                 ("analysis", analysis) ] |},
               [Classify request])
          end
      end
  end.

(** The handler (lines 53-158): the response sent and the events issued. *)
Definition analyze (P : Platform) (req_body : JSValue) : Response * list Event :=
  match destructure req_body with
  | Throw _ => (unexpected, [])
  | Ok (userName, channelName) =>
      if negb (truthy userName) || negb (truthy channelName) then
        ({| status := 400;
            body := errorBody "User name and channel name are required" |}, [])
      else if negb (keyPresent (YOUTUBE_API_KEY P))
              || negb (keyPresent (OPENAI_API_KEY P)) then
        match generateMockResults P userName channelName with
        | Ok mockResults => ({| status := 200; body := mockResults |}, [])
        | Throw _ => (unexpected, [])
        end
      else
        match toPrimitive userName with
        | Throw youtubeError =>
            ({| status := 500;
                body := errorBody ("YouTube API error: " ++ message youtubeError) |},
             [])
        | Ok _ =>
            let params := searchParams P userName in
            match axios_get P 1 params with
            | Throw youtubeError =>
                ({| status := 500;
                    body := errorBody ("YouTube API error: "
                                       ++ message youtubeError) |},
                 [Search 1 params])
            | Ok searchResponse =>
                match data <- get searchResponse "data" ;; get data "items" with
                | Throw _ => (unexpected, [Search 1 params])
                | Ok items =>
                    if negb (hasLength items) then
                      ({| status := 404;
                          body := errorBody "No videos found for this channel" |},
                       [Search 1 params])
                    else
                      match arrayMap normalize items with
                      | Throw _ => (unexpected, [Search 1 params])
                      | Ok searchResults =>
                          let '(response, issued) :=
                            classify P userName channelName searchResults in
                          (response, Search 1 params :: issued)
                      end
                end
            end
        end
  end.

End Single.

(** ** Further vocabulary *)

(** The text [extractJSON] parses first. *)
Definition fencedOf (text : string) : string :=
  Variant.stripClosingFence (Variant.stripOpeningFence (Variant.trim text)).

(** The error [extractJSON] gives up with. *)
Definition giveUp : JSError := mkError "Error" "Model did not return valid JSON".

(** [c] occurs in [s]. *)
Fixpoint occurs (c : ascii) (s : string) : bool :=
  match s with
  | EmptyString => false
  | String c' s' => Ascii.eqb c' c || occurs c s'
  end.

(** The events of a pagination of [ps] page requests, the first one being
    request number [start + 1]: the requests in order, 500 ms between two
    of them. *)
Fixpoint searchTrace (start : nat) (ps : list SearchParams) : list Event :=
  match ps with
  | [] => []
  | p :: ps' =>
      Search (S start) p
      :: match ps' with
         | [] => []
         | _ :: _ => Sleep 500 :: searchTrace (S start) ps'
         end
  end.

(** An event of the search stage, and an event of the classification
    stage. *)
Definition ofSearchStage (e : Event) : bool :=
  match e with
  | Search _ _ => true
  | Sleep ms => (ms =? 500)%nat
  | Classify _ => false
  end.

Definition ofBatchStage (e : Event) : bool :=
  match e with
  | Search _ _ => false
  | Sleep ms => (ms =? 1000)%nat
  | Classify _ => true
  end.

Definition isPause (e : Event) : bool :=
  match e with Sleep _ => true | _ => false end.

(** The ranked list may be sorted: it has at most one entry, or the risk
    of every entry has a property key. *)
Definition sortable (l : list JSValue) : bool :=
  (List.length l <=? 1)%nat
  || forallb (fun item => convertible (prop item "risk")) l.

(** The batch analysis is marked as failed. *)
Definition marked (analysis : JSValue) : bool :=
  truthy (prop analysis "batch_failed").

(** The endpoint never returns more items than [maxResults] asks for. *)
Definition respectsMaxResults (P : Platform) : Prop :=
  forall n params page pageResults token,
    axios_get P n params = Ok page ->
    processPage page = Ok (pageResults, token) ->
    List.length pageResults <= Z.to_nat (maxResults params).

(** The endpoint keeps answering with an empty page and a token. *)
Definition stalls (P : Platform) : Prop :=
  forall n params,
    exists page token,
      axios_get P n params = Ok page
      /\ processPage page = Ok ([], token)
      /\ truthy token = true.

(** A search call asks for at least one and at most fifty results. *)
Definition pageSized (e : Event) : bool :=
  match e with
  | Search _ params => (1 <=? maxResults params)%Z && (maxResults params <=? 50)%Z
  | _ => true
  end.

(** The search calls of a list of events. *)
Fixpoint searchesOf (issued : list Event) : list SearchParams :=
  match issued with
  | [] => []
  | Search _ params :: rest => params :: searchesOf rest
  | _ :: rest => searchesOf rest
  end.

(** Every page the endpoint returns has an item. *)
Definition pagesNotEmpty (P : Platform) : Prop :=
  forall n params page pageResults token,
    axios_get P n params = Ok page ->
    processPage page = Ok (pageResults, token) ->
    1 <= List.length pageResults.

(** The dates of the mock videos are within the range of [Date]. *)
Definition clockInRange (P : Platform) : Prop :=
  forall k i, 1 <= i <= 100 ->
    (Z.abs (Date_now P k - Z.of_nat i * msPerDay) <= 8640000000000000)%Z.

(** The request reaches the search stage: the body is an object, the two
    names are truthy and can be rendered, and both keys are configured. *)
Definition goesOut (P : Platform) (req_body : JSValue) : bool :=
  negb (nullish req_body)
  && truthy (prop req_body "userName")
  && truthy (prop req_body "channelName")
  && convertible (prop req_body "userName")
  && convertible (prop req_body "channelName")
  && negb (mockMode P).

(** ** Further sample inputs *)

(** A failure placeholder, an analysis without a checklist, and an
    analysis with one. *)
Definition checklistAnalyses : list JSValue :=
  [ placeholder 1;
    VObj [ ("ranked_list", VArr [ entry "a" "Low" ]);
           ("disclaimer", VStr "second") ];
    VObj [ ("ranked_list", VArr [ entry "b" "High" ]);
           ("checklist", VArr [ VStr "third" ]);
           ("disclaimer", VStr "third") ] ].

(** Pages of fifty videos with a token, for ever. *)
Definition endlessPlatform : Platform :=
  {| YOUTUBE_API_KEY := Some "yt-key";
     OPENAI_API_KEY := Some "oa-key";
     axios_get := fun _ params =>
       Ok (pageOf (videos (Z.to_nat (maxResults params))) (VStr "next"));
     chat_create := fun _ => Ok "{}";
     JSON_parse := parseSample;
     Date_now := fun k => (1700000000000 + Z.of_nat k)%Z;
     Number_toString := fun _ => "0" |}.

(** A line feed, a no-break space (U+00A0) and a byte order mark (U+FEFF)
    in UTF-8, and a fenced answer: the empty object in a block tagged JSON,
    with white space of the three kinds around and inside the block. *)
Definition newline : string := String "010"%char "".

Definition nbsp : string := String "194"%char (String "160"%char "").

Definition bom : string :=
  String "239"%char (String "187"%char (String "191"%char "")).

Definition fencedText : string :=
  (nbsp ++ " ") ++ Variant.fence ++ "JSON" ++ (newline ++ nbsp ++ "{}")
  ++ Variant.fence ++ (newline ++ bom).

(** One video per page with a token, for ever. *)
Definition tricklePlatform : Platform :=
  {| YOUTUBE_API_KEY := Some "yt-key";
     OPENAI_API_KEY := Some "oa-key";
     axios_get := fun n _ => Ok (pageOf [video ("v" ++ decimal n)] (VStr "next"));
     chat_create := fun _ => Ok "{}";
     JSON_parse := parseSample;
     Date_now := fun k => (1700000000000 + Z.of_nat k)%Z;
     Number_toString := fun _ => "0" |}.

(** Empty pages with a token, for ever. *)
Definition stallingPlatform : Platform :=
  {| YOUTUBE_API_KEY := Some "yt-key";
     OPENAI_API_KEY := Some "oa-key";
     axios_get := fun _ _ => Ok (pageOf [] (VStr "next"));
     chat_create := fun _ => Ok "{}";
     JSON_parse := parseSample;
     Date_now := fun k => (1700000000000 + Z.of_nat k)%Z;
     Number_toString := fun _ => "0" |}.

(** * Properties *)

Ltac Zify.zify_post_hook ::= Z.div_mod_to_equations.

(** ** The definitions at work *)

Example decimal_renders :
  decimal 0 = "0" /\ decimal 7 = "7" /\ decimal 100 = "100".
Proof. repeat split. Qed.

Example toISOString_renders :
  toISOString 0 = Ok "1970-01-01T00:00:00.000Z"
  /\ toISOString 951782400000 = Ok "2000-02-29T00:00:00.000Z"
  /\ toISOString 1700000000000 = Ok "2023-11-14T22:13:20.000Z"
  /\ toISOString (-1) = Ok "1969-12-31T23:59:59.999Z"
  /\ toISOString 8640000000000000 = Ok "+275760-09-13T00:00:00.000Z"
  /\ toISOString 8640000000000001
     = Throw (mkError "RangeError" "Invalid time value").
Proof. vm_compute. repeat split. Qed.

Example truthy_values :
  map truthy [ VUndefined; VNull; VBool false; VNum (ofNat 0); VStr "";
               VStr "0"; VNum (ofNat 1); VArr []; VObj [] ]
  = [ false; false; false; false; false; true; true; true; true ].
Proof. reflexivity. Qed.

Example riskPriority_lookups :
  map riskPriority [ VStr "High"; VStr "Medium"; VStr "Low"; VStr "high";
                     VStr "toString"; VUndefined; VArr [VStr "High"];
                     VArr [VStr "High"; VStr "Low"] ]
  = [ Some 3%Z; Some 2%Z; Some 1%Z; None; None; None; Some 3%Z; None ].
Proof. reflexivity. Qed.

Example combineAnalyses_sample :
  combineAnalyses sampleAnalyses 6
  = Ok (VObj
          [ ("summary",
             VStr "We found 3 Movies with Possible infringement. Immediate attention recommended for high-risk content.");
            ("ranked_list",
             VArr [ entry "b" "High"; entry "d" "High"; entry "c" "Medium";
                    entry "a" "Low"; entry "f" "Low"; entry "e" "Low" ]);
            ("top_priority", VArr [ VStr "b"; VStr "c"; VStr "d" ]);
            ("checklist", VArr []);
            ("next_actions", VArr []);
            ("disclaimer", VStr defaultDisclaimer);
            ("batch_count", VNum (ofNat 3));
            ("failed_batches", VNum (ofNat 1)) ]).
Proof. reflexivity. Qed.

Example combineAnalyses_unconvertible_risk :
  combineAnalyses
    [ VObj [ ("ranked_list",
              VArr [ entry "a" "Low";
                     VObj [ ("risk", VObj [ ("toString", VStr "High") ]) ] ]) ] ]
    2
  = Throw (TypeError "Cannot convert object to primitive value").
Proof. reflexivity. Qed.

Example turns_of_25 :
  map (fun t => (index t, batchNumber t, List.length (batch t)))
      (turns (found 25))
  = [ (0, 1, 10); (10, 2, 10); (20, 3, 5) ].
Proof. reflexivity. Qed.

Example fetchPages_two_pages :
  fetchPages secondPageFails (VStr "Artist") (VStr "ArtistOfficial") 2 0 [] VNull
  = Some (Throw (mkError "AxiosError" "Request failed with status code 403"),
          [ firstSearch;
            Sleep 500;
            Search 2 {| q := "Artist ArtistOfficial";
                        maxResults := 50;
                        pageToken := VStr "CDIQAA" |} ]).
Proof. vm_compute. reflexivity. Qed.

Example fetchPages_out_of_fuel :
  fetchPages secondPageFails (VStr "Artist") (VStr "ArtistOfficial") 1 0 [] VNull
  = None.
Proof. vm_compute. reflexivity. Qed.

Example analyze_validation :
  analyze mockPlatform (VObj [ ("userName", VStr "") ]) 0
  = Some ({| status := 400;
             body := errorBody "User name and channel name are required" |},
          []).
Proof. reflexivity. Qed.

Example analyze_no_results :
  analyze (samplePlatform 0 [] (fun _ => Ok "{}")) sampleBody 1
  = Some ({| status := 404;
             body := errorBody "No videos found for this channel" |},
          [ firstSearch ]).
Proof. reflexivity. Qed.

Example analyze_every_batch_fails :
  status (responseOf (analyze refusingPlatform sampleBody 1)) = 200
  /\ prop (body (responseOf (analyze refusingPlatform sampleBody 1)))
          "batchesFailed"
     = VNum (ofNat 2)
  /\ prop (body (responseOf (analyze refusingPlatform sampleBody 1))) "analysis"
     = VObj [ ("summary",
               VStr "We found 0 Movies with Possible infringement. No immediate high-risk concerns detected.");
              ("ranked_list", VArr []);
              ("top_priority", VArr []);
              ("checklist", VArr []);
              ("next_actions", VArr []);
              ("disclaimer", VStr defaultDisclaimer);
              ("batch_count", VNum (ofNat 2));
              ("failed_batches", VNum (ofNat 2)) ].
Proof. repeat split. Qed.

Example extractJSON_stages :
  Variant.extractJSON parseSample "{}" = Ok (VObj [])
  /\ Variant.extractJSON parseSample "  ```json
{}
```  " = Ok (VObj [])
  /\ Variant.extractJSON parseSample "Here is the analysis: {} Done." = Ok (VObj [])
  /\ Variant.extractJSON parseSample chattyText = Ok sampleAnalysis
  /\ Variant.extractJSON parseSample "} {"
     = Throw (mkError "Error" "Model did not return valid JSON").
Proof. repeat split. Qed.

(** ** Batching (C2) *)

Section Batching.

Lemma slice_batch (i : nat) (l : list JSValue) :
  slice i (i + batchSize) l ++ skipn (i + batchSize) l = skipn i l.
Proof.
  unfold slice.
  replace (i + batchSize - i) with batchSize by lia.
  rewrite Nat.add_comm, <- skipn_skipn.
  apply firstn_skipn.
Qed.

Lemma turnsFrom_concat (fuel k : nat) (l : list JSValue) :
  List.length l - k * batchSize <= fuel ->
  List.concat (map batch (turnsFrom fuel (k * batchSize) l)) = skipn (k * batchSize) l.
Proof.
  revert k.
  induction fuel as [|fuel IH]; intros k Hfuel; simpl.
  - symmetry. apply skipn_all2. lia.
  - destruct (Nat.ltb_spec (k * batchSize) (List.length l)) as [Hlt|Hge].
    + simpl.
      replace (k * batchSize + batchSize) with (S k * batchSize) by lia.
      rewrite IH by (unfold batchSize in *; lia).
      replace (S k * batchSize) with (k * batchSize + batchSize) by lia.
      apply slice_batch.
    + symmetry. apply skipn_all2. lia.
Qed.

Lemma turnsFrom_length (fuel k : nat) (l : list JSValue) :
  List.length l - k * batchSize <= fuel ->
  List.length (turnsFrom fuel (k * batchSize) l)
  = totalBatchesOf (List.length l - k * batchSize).
Proof.
  revert k.
  induction fuel as [|fuel IH]; intros k Hfuel; simpl.
  - replace (List.length l - k * batchSize) with 0 by lia. reflexivity.
  - destruct (Nat.ltb_spec (k * batchSize) (List.length l)) as [Hlt|Hge].
    + simpl.
      replace (k * batchSize + batchSize) with (S k * batchSize) by lia.
      rewrite IH by (unfold batchSize in *; lia).
      unfold totalBatchesOf, batchSize in *. lia.
    + replace (List.length l - k * batchSize) with 0 by lia. reflexivity.
Qed.

Lemma turns_count (l : list JSValue) :
  List.length (turns l) = totalBatchesOf (List.length l).
Proof.
  pose proof (turnsFrom_length (List.length l) 0 l) as H.
  simpl in H. rewrite Nat.sub_0_r in H. apply H. apply le_n.
Qed.

Lemma turnsFrom_numbers (fuel k : nat) (l : list JSValue) :
  map batchNumber (turnsFrom fuel (k * batchSize) l)
  = seq (S k) (List.length (turnsFrom fuel (k * batchSize) l)).
Proof.
  revert k.
  induction fuel as [|fuel IH]; intros k; cbn [turnsFrom].
  - reflexivity.
  - destruct (Nat.ltb_spec (k * batchSize) (List.length l)) as [Hlt|Hge].
    + cbn [map batchNumber List.length seq].
      replace (k * batchSize + batchSize) with (S k * batchSize) by lia.
      rewrite IH. f_equal.
      unfold batchSize. lia.
    + reflexivity.
Qed.

Lemma turnsFrom_index (fuel k : nat) (l : list JSValue) :
  Forall (fun t => index t = (batchNumber t - 1) * batchSize
                   /\ 1 <= batchNumber t
                   /\ batch t = slice (index t) (index t + batchSize) l
                   /\ index t < List.length l)
         (turnsFrom fuel (k * batchSize) l).
Proof.
  revert k.
  induction fuel as [|fuel IH]; intros k; cbn [turnsFrom].
  - constructor.
  - destruct (Nat.ltb_spec (k * batchSize) (List.length l)) as [Hlt|Hge].
    + constructor.
      * cbn [index batchNumber batch]. unfold batchSize in *.
        repeat split; trivial; lia.
      * replace (k * batchSize + batchSize) with (S k * batchSize) by lia.
        apply IH.
    + constructor.
Qed.

End Batching.

(** ** The batch loop, turn by turn *)

Section Orchestrator.
Variable P : Platform.
Variables userName channelName : JSValue.
Variable allSearchResults : list JSValue.

Lemma fold_batchTurn (ts : list Turn) (st : Loop) :
  fold_left (batchTurn P userName channelName allSearchResults
               (totalBatchesOf (List.length allSearchResults))) ts st
  = {| allAnalyses :=
         allAnalyses st ++ map (analysisAt P userName channelName allSearchResults) ts;
       failedBatches :=
         failedBatches st
         ++ flat_map (detailAt P userName channelName allSearchResults) ts;
       events :=
         events st ++ flat_map (eventsAt P userName channelName allSearchResults) ts |}.
Proof.
  revert st.
  induction ts as [|t ts IH]; intros st; cbn [fold_left map flat_map].
  - rewrite !app_nil_r. destruct st; reflexivity.
  - rewrite IH. clear IH.
    unfold batchTurn, analysisAt, detailAt, eventsAt, outcome, requestOf.
    destruct (analyzeBatch P userName channelName (batch t) (batchNumber t)
                (totalBatchesOf (List.length allSearchResults))) as [a|e];
      cbn [allAnalyses failedBatches events isOk andb app];
      rewrite <- ?app_assoc; cbn [app]; rewrite ?app_nil_r; reflexivity.
Qed.

Lemma batchLoop_turns :
  batchLoop P userName channelName allSearchResults
  = {| allAnalyses :=
         map (analysisAt P userName channelName allSearchResults)
             (turns allSearchResults);
       failedBatches :=
         flat_map (detailAt P userName channelName allSearchResults)
                  (turns allSearchResults);
       events :=
         flat_map (eventsAt P userName channelName allSearchResults)
                  (turns allSearchResults) |}.
Proof.
  unfold batchLoop. rewrite fold_batchTurn. reflexivity.
Qed.

End Orchestrator.

Lemma classify_calls (P : Platform) (userName channelName : JSValue)
  (allSearchResults : list JSValue) (ts : list Turn) :
  filter isClassify
         (flat_map (eventsAt P userName channelName allSearchResults) ts)
  = map (fun t => Classify (requestOf userName channelName allSearchResults t)) ts.
Proof.
  induction ts as [|t ts IH]; [reflexivity|].
  cbn [flat_map map]. rewrite filter_app, IH. unfold eventsAt at 1.
  destruct (isOk _ && _); reflexivity.
Qed.

(** C2. For every fetched sequence, the loop header of the orchestrator
    makes exactly [Math.ceil(N / 10)] turns, that is the least [n] with
    [N <= 10 n]; the turns carry the ordinals 1, 2, ..., n; every batch is
    the slice of ten starting at ten times its ordinal minus one, and is
    not empty; the batches concatenated in order are the fetched sequence
    itself, so each video is in exactly one batch, at its own place; and
    the classification calls of the loop are those of the turns, one each,
    in order. *)
Theorem batches_partition (P : Platform) (userName channelName : JSValue)
  (allSearchResults : list JSValue) :
  let n := List.length (turns allSearchResults) in
  n = totalBatchesOf (List.length allSearchResults)
  /\ List.length allSearchResults <= n * batchSize
  /\ n * batchSize < List.length allSearchResults + batchSize
  /\ map batchNumber (turns allSearchResults) = seq 1 n
  /\ Forall (fun t => batch t = slice ((batchNumber t - 1) * batchSize)
                                      (batchNumber t * batchSize)
                                      allSearchResults
                      /\ 1 <= List.length (batch t) <= batchSize)
            (turns allSearchResults)
  /\ List.concat (map batch (turns allSearchResults)) = allSearchResults
  /\ filter isClassify
            (events (batchLoop P userName channelName allSearchResults))
     = map (fun t => Classify (requestOf userName channelName allSearchResults t))
           (turns allSearchResults).
Proof.
  intros n. subst n.
  rewrite batchLoop_turns. cbn [events]. rewrite classify_calls.
  unfold turns.
  pose proof (turnsFrom_length (List.length allSearchResults) 0 allSearchResults)
    as Hlen.
  pose proof (turnsFrom_numbers (List.length allSearchResults) 0 allSearchResults)
    as Hnum.
  pose proof (turnsFrom_concat (List.length allSearchResults) 0 allSearchResults)
    as Hcat.
  pose proof (turnsFrom_index (List.length allSearchResults) 0 allSearchResults)
    as Hidx.
  simpl in Hlen, Hnum, Hcat, Hidx.
  rewrite Nat.sub_0_r in Hlen, Hcat.
  specialize (Hlen (le_n _)). specialize (Hcat (le_n _)).
  repeat split; trivial.
  - rewrite Hlen. unfold totalBatchesOf, batchSize. lia.
  - rewrite Hlen. unfold totalBatchesOf, batchSize. lia.
  - eapply Forall_impl; [|exact Hidx].
    intros t (Hi & Hn & Hb & Hlt). simpl.
    split.
    + rewrite Hb, Hi. f_equal. unfold batchSize. lia.
    + rewrite Hb. unfold slice.
      rewrite length_firstn, length_skipn. unfold batchSize in *. lia.
Qed.


(** ** Reads that cannot throw *)

Lemma get_present (v : JSValue) (k : string) :
  nullish v = false -> get v k = Ok (prop v k).
Proof. unfold get. intros ->. reflexivity. Qed.

Lemma get_Ok (v w : JSValue) (k : string) :
  get v k = Ok w -> nullish v = false /\ w = prop v k.
Proof.
  unfold get. destruct (nullish v); [discriminate|].
  intros H. injection H as <-. split; reflexivity.
Qed.

Lemma flatMap_reads (k : string) (d : JSValue) (l : list JSValue) :
  forallb (fun a => negb (nullish a)) l = true ->
  flatMap (fun a => x <- get a k ;; Ok (or x d)) l
  = Ok (List.concat (map (fun a => spliced (or (prop a k) d)) l)).
Proof.
  induction l as [|a l IH]; simpl; intros H.
  - reflexivity.
  - apply andb_prop in H as [Ha Hl].
    rewrite get_present by (destruct (nullish a); [discriminate|reflexivity]).
    simpl. rewrite IH by exact Hl. reflexivity.
Qed.

Lemma flatMap_Ok (k : string) (d : JSValue) (l r : list JSValue) :
  flatMap (fun a => x <- get a k ;; Ok (or x d)) l = Ok r ->
  forallb (fun a => negb (nullish a)) l = true.
Proof.
  revert r.
  induction l as [|a l IH]; simpl; intros r H.
  - reflexivity.
  - unfold get in H. destruct (nullish a); [discriminate|]. simpl in H.
    destruct (flatMap _ l) as [vs|e] eqn:E; [|discriminate].
    simpl. eapply IH. reflexivity.
Qed.

Lemma filterM_reads (k : string) (g : JSValue -> bool) (l : list JSValue) :
  forallb (fun a => negb (nullish a)) l = true ->
  filterM (fun a => x <- get a k ;; Ok (g x)) l
  = Ok (filter (fun a => g (prop a k)) l).
Proof.
  induction l as [|a l IH]; simpl; intros H.
  - reflexivity.
  - apply andb_prop in H as [Ha Hl].
    rewrite get_present by (destruct (nullish a); [discriminate|reflexivity]).
    simpl. rewrite IH by exact Hl. reflexivity.
Qed.

Lemma filterM_Ok (k : string) (g : JSValue -> bool) (l r : list JSValue) :
  filterM (fun a => x <- get a k ;; Ok (g x)) l = Ok r ->
  forallb (fun a => negb (nullish a)) l = true.
Proof.
  revert r.
  induction l as [|a l IH]; simpl; intros r H.
  - reflexivity.
  - unfold get in H. destruct (nullish a); [discriminate|]. simpl in H.
    destruct (filterM _ l) as [vs|e] eqn:E; [|discriminate].
    simpl. eapply IH. reflexivity.
Qed.

Lemma forallb_concat {A : Type} (f : A -> bool) (ls : list (list A)) :
  forallb f (List.concat ls) = forallb (forallb f) ls.
Proof.
  induction ls as [|l ls IH]; simpl.
  - reflexivity.
  - rewrite forallb_app, IH. reflexivity.
Qed.

Lemma readable_split (analyses : list JSValue) :
  forallb readable analyses
  = forallb (fun a => negb (nullish a)) analyses
    && forallb readableEntry (List.concat (map rankedListOf analyses)).
Proof.
  induction analyses as [|a l IH]; simpl.
  - reflexivity.
  - rewrite forallb_app, IH. unfold readable.
    generalize (negb (nullish a))
      (forallb readableEntry (rankedListOf a))
      (forallb (fun a => negb (nullish a)) l)
      (forallb readableEntry (List.concat (map rankedListOf l))).
    intros [] [] [] []; reflexivity.
Qed.

Lemma readableEntry_present (l : list JSValue) :
  forallb readableEntry l = true ->
  forallb (fun item => negb (nullish item)) l = true.
Proof.
  rewrite !forallb_forall. intros H x Hx. specialize (H x Hx).
  unfold readableEntry in H. apply andb_prop in H as [H _]. exact H.
Qed.

(** ** The sort with the throwing comparator *)

Lemma byRiskM_Ok (a b : JSValue) (c : option Z) :
  byRiskM a b = Ok c -> c = byRisk a b.
Proof.
  unfold byRiskM, toPrimitive.
  destruct (convertible (prop b "risk")); [|discriminate].
  destruct (convertible (prop a "risk")); [|discriminate].
  simpl. intros H. injection H as <-. reflexivity.
Qed.

Lemma byRiskM_convertible (a b : JSValue) :
  convertible (prop a "risk") = true ->
  convertible (prop b "risk") = true ->
  byRiskM a b = Ok (byRisk a b).
Proof. unfold byRiskM, toPrimitive. intros -> ->. reflexivity. Qed.

Lemma insertM_Ok (x : JSValue) (l s : list JSValue) :
  insertM byRiskM x l = Ok s -> s = insert byRisk x l.
Proof.
  revert s.
  induction l as [|y l IH]; simpl; intros s H.
  - injection H as <-. reflexivity.
  - destruct (byRiskM x y) as [c|e] eqn:E; [|discriminate].
    apply byRiskM_Ok in E. subst c. cbn [bind] in H.
    unfold before. destruct (notAfter (byRisk x y)).
    + injection H as <-. reflexivity.
    + destruct (insertM byRiskM x l) as [r|e]; [|discriminate].
      injection H as <-. rewrite (IH r eq_refl). reflexivity.
Qed.

Lemma sortM_Ok (l s : list JSValue) :
  sortM byRiskM l = Ok s -> s = sort byRisk l.
Proof.
  revert s.
  induction l as [|x l IH]; simpl; intros s H.
  - injection H as <-. reflexivity.
  - destruct (sortM byRiskM l) as [s'|e]; [|discriminate].
    cbn [bind] in H. rewrite <- (IH s' eq_refl).
    apply insertM_Ok. exact H.
Qed.

Lemma insertM_convertible (x : JSValue) (l : list JSValue) :
  convertible (prop x "risk") = true ->
  forallb (fun y => convertible (prop y "risk")) l = true ->
  insertM byRiskM x l = Ok (insert byRisk x l).
Proof.
  intros Hx.
  induction l as [|y l IH]; simpl; intros H.
  - reflexivity.
  - apply andb_prop in H as [Hy Hl].
    rewrite (byRiskM_convertible x y Hx Hy). cbn [bind].
    unfold before. destruct (notAfter (byRisk x y)); [reflexivity|].
    rewrite (IH Hl). reflexivity.
Qed.

Lemma insert_convertible (x : JSValue) (l : list JSValue) :
  convertible (prop x "risk") = true ->
  forallb (fun y => convertible (prop y "risk")) l = true ->
  forallb (fun y => convertible (prop y "risk")) (insert byRisk x l) = true.
Proof.
  intros Hx.
  induction l as [|y l IH]; simpl; intros H.
  - rewrite Hx. reflexivity.
  - apply andb_prop in H as [Hy Hl].
    destruct (before byRisk x y); simpl.
    + rewrite Hx, Hy, Hl. reflexivity.
    + rewrite Hy, (IH Hl). reflexivity.
Qed.

Lemma sortM_convertible (l : list JSValue) :
  forallb (fun y => convertible (prop y "risk")) l = true ->
  sortM byRiskM l = Ok (sort byRisk l)
  /\ forallb (fun y => convertible (prop y "risk")) (sort byRisk l) = true.
Proof.
  induction l as [|x l IH]; simpl; intros H.
  - split; reflexivity.
  - apply andb_prop in H as [Hx Hl].
    destruct (IH Hl) as [-> Hs]. cbn [bind].
    split; [apply insertM_convertible|apply insert_convertible]; assumption.
Qed.

Lemma readableEntry_convertible (l : list JSValue) :
  forallb readableEntry l = true ->
  forallb (fun y => convertible (prop y "risk")) l = true.
Proof.
  rewrite !forallb_forall. intros H x Hx. specialize (H x Hx).
  unfold readableEntry in H. apply andb_prop in H as [_ H]. exact H.
Qed.

(** ** When [combineAnalyses] returns *)

Lemma combineAnalyses_readable (analyses : list JSValue) (totalVideos : nat) :
  forallb readable analyses = true ->
  combineAnalyses analyses totalVideos = Ok (merged analyses).
Proof.
  rewrite readable_split. intros H. apply andb_prop in H as [Ha He].
  pose proof (readableEntry_present _ He) as Hi.
  unfold combineAnalyses, riskIs.
  rewrite !flatMap_reads by exact Ha. cbn [bind].
  rewrite (filterM_reads "batch_failed" (fun f => negb (truthy f))) by exact Ha.
  cbn [bind].
  change (map (fun a => spliced (or (prop a "ranked_list") (VArr []))) analyses)
    with (map rankedListOf analyses).
  rewrite !(filterM_reads "risk" (fun r => strictEqStr r _)) by exact Hi.
  cbn [bind].
  rewrite (filterM_reads "batch_failed" truthy) by exact Ha.
  cbn [bind].
  destruct (sortM_convertible _ (readableEntry_convertible _ He)) as [-> _].
  reflexivity.
Qed.

Lemma combineAnalyses_Ok (analyses : list JSValue) (totalVideos : nat)
  (final : JSValue) :
  combineAnalyses analyses totalVideos = Ok final -> final = merged analyses.
Proof.
  intros H. unfold combineAnalyses in H.
  destruct (flatMap _ analyses) as [all|e] eqn:E1; [|discriminate].
  pose proof (flatMap_Ok _ _ _ _ E1) as Ha.
  rewrite flatMap_reads in E1 by exact Ha. injection E1 as <-.
  cbn [bind] in H.
  rewrite flatMap_reads in H by exact Ha. cbn [bind] in H.
  rewrite (filterM_reads "batch_failed" (fun f => negb (truthy f))) in H
    by exact Ha.
  cbn [bind] in H.
  change (map (fun a => spliced (or (prop a "ranked_list") (VArr []))) analyses)
    with (map rankedListOf analyses) in H.
  destruct (filterM (riskIs "High") _) as [high|e] eqn:E2; [|discriminate].
  pose proof (filterM_Ok _ _ _ _ E2) as Hi.
  unfold riskIs in E2, H.
  rewrite (filterM_reads "risk" (fun r => strictEqStr r _)) in E2 by exact Hi.
  injection E2 as <-. cbn [bind] in H.
  rewrite !(filterM_reads "risk" (fun r => strictEqStr r _)) in H by exact Hi.
  cbn [bind] in H.
  rewrite (filterM_reads "batch_failed" truthy) in H by exact Ha.
  cbn [bind] in H.
  destruct (sortM byRiskM _) as [s|e] eqn:E3; [|discriminate].
  apply sortM_Ok in E3. subst s.
  injection H as <-. reflexivity.
Qed.

(** ** The sort of the ranked list (C3) *)

Lemma insert_split {A : Type} (cmp : A -> A -> option Z) (x : A) (l : list A) :
  exists front back,
    l = front ++ back
    /\ insert cmp x l = front ++ x :: back
    /\ Forall (fun y => before cmp x y = false) front
    /\ match back with
       | [] => True
       | y :: _ => before cmp x y = true
       end.
Proof.
  induction l as [|y l IH]; simpl.
  - exists [], []. repeat split; auto.
  - destruct (before cmp x y) eqn:E.
    + exists [], (y :: l). repeat split; auto.
    + destruct IH as (front & back & -> & Hins & Hfront & Hback).
      exists (y :: front), back. rewrite Hins.
      repeat split; trivial. constructor; assumption.
Qed.

Lemma sort_Permutation {A : Type} (cmp : A -> A -> option Z) (l : list A) :
  Permutation l (sort cmp l).
Proof.
  induction l as [|x l IH]; simpl.
  - constructor.
  - destruct (insert_split cmp x (sort cmp l))
      as (front & back & Hl & -> & _ & _).
    rewrite <- Permutation_middle, <- Hl. constructor. exact IH.
Qed.

Lemma graded_level (item : JSValue) :
  graded item = true ->
  exists level, In level levels /\ prop item "risk" = VStr level.
Proof.
  unfold graded, hasLevel, strictEqStr. intros H.
  apply andb_prop in H as [_ H].
  apply existsb_exists in H as (level & Hin & H).
  exists level. split; [exact Hin|].
  destruct (prop item "risk"); try discriminate.
  apply String.eqb_eq in H. subst. reflexivity.
Qed.

Lemma graded_priority (item : JSValue) :
  graded item = true ->
  riskPriority (prop item "risk") = Some (severity item)
  /\ (1 <= severity item <= 3)%Z.
Proof.
  intros H. destruct (graded_level item H) as (level & Hin & Hrisk).
  unfold severity, hasLevel. rewrite Hrisk.
  simpl in Hin.
  destruct Hin as [<-|[<-|[<-|[]]]]; vm_compute; repeat split; discriminate.
Qed.

Lemma before_graded (x y : JSValue) :
  graded x = true -> graded y = true ->
  before byRisk x y = (severity y <=? severity x)%Z.
Proof.
  intros Hx Hy. unfold before, byRisk.
  destruct (graded_priority x Hx) as [-> _].
  destruct (graded_priority y Hy) as [-> _].
  simpl. destruct (Z.leb_spec (severity y - severity x) 0);
    destruct (Z.leb_spec (severity y) (severity x)); trivial; lia.
Qed.


Lemma graded_sort (l : list JSValue) :
  forallb graded l = true -> forallb graded (sort byRisk l) = true.
Proof.
  intros H. rewrite forallb_forall in *. intros x Hx. apply H.
  eapply Permutation_in; [symmetry; apply sort_Permutation|exact Hx].
Qed.

Lemma StronglySorted_back {A : Type} (R : A -> A -> Prop) (front back : list A) :
  StronglySorted R (front ++ back) -> StronglySorted R back.
Proof.
  induction front as [|x front IH]; simpl; intros H.
  - exact H.
  - inversion H; subst. apply IH. assumption.
Qed.

Lemma sort_sorted (l : list JSValue) :
  forallb graded l = true ->
  StronglySorted (fun a b => (severity b <= severity a)%Z) (sort byRisk l).
Proof.
  induction l as [|x l IH]; simpl; intros H.
  - constructor.
  - apply andb_prop in H as [Hx Hl].
    specialize (IH Hl).
    pose proof (graded_sort l Hl) as Hg.
    destruct (insert_split byRisk x (sort byRisk l))
      as (front & back & Hsplit & -> & Hfront & Hback).
    rewrite Hsplit in IH, Hg. clear Hsplit.
    rewrite forallb_app in Hg. apply andb_prop in Hg as [Hgf Hgb].
    rewrite forallb_forall in Hgf, Hgb.
    assert (Hxb : Forall (fun y => (severity y <= severity x)%Z) back).
    { destruct back as [|y back]; [constructor|].
      rewrite before_graded in Hback by (trivial; apply Hgb; left; reflexivity).
      apply Z.leb_le in Hback.
      apply StronglySorted_back in IH. inversion IH as [|? ? ? Hall]; subst.
      constructor; [exact Hback|].
      eapply Forall_impl; [|exact Hall]. simpl. intros; lia. }
    assert (Hfx : Forall (fun y => (severity x < severity y)%Z) front).
    { rewrite Forall_forall in *. intros y Hy.
      specialize (Hfront y Hy). rewrite before_graded in Hfront by auto.
      apply Z.leb_gt in Hfront. exact Hfront. }
    clear Hfront Hback.
    induction front as [|y front IHf]; simpl.
    + constructor; [|exact Hxb]. exact IH.
    + inversion IH as [|? ? Hs Hall]; subst.
      inversion Hfx as [|? ? Hy Hfx']; subst.
      constructor.
      * apply IHf; trivial. intros z Hz. apply Hgf. right. exact Hz.
      * apply Forall_app in Hall as [Hall1 Hall2].
        apply Forall_app. split; [exact Hall1|].
        constructor; [lia|exact Hall2].
Qed.


Lemma graded_readable (item : JSValue) :
  graded item = true -> readableEntry item = true.
Proof.
  intros H. destruct (graded_level item H) as (level & _ & Hrisk).
  unfold graded in H. apply andb_prop in H as [H _].
  unfold readableEntry. rewrite H, Hrisk. reflexivity.
Qed.






(** ** The priority set (C4) *)

Lemma numSameValueZero_congr (x y : number) :
  numSameValueZero x y = true ->
  forall z, numSameValueZero z x = numSameValueZero z y.
Proof.
  destruct x as [sx|sx| |sx mx ex], y as [sy|sy| |sy my ey];
    simpl; try discriminate; intros H z; trivial.
  - apply Bool.eqb_prop in H. subst. reflexivity.
  - apply andb_prop in H as [H He]. apply andb_prop in H as [Hs Hm].
    apply Bool.eqb_prop in Hs. apply Pos.eqb_eq in Hm. apply Z.eqb_eq in He.
    subst. reflexivity.
Qed.

Lemma sameValueZero_congr (a b : JSValue) :
  sameValueZero a b = true ->
  forall c, sameValueZero c a = sameValueZero c b.
Proof.
  destruct a, b; simpl; try discriminate; intros H c; trivial.
  - apply Bool.eqb_prop in H. subst. reflexivity.
  - destruct c; trivial. simpl. apply numSameValueZero_congr. exact H.
  - apply String.eqb_eq in H. subst. reflexivity.
Qed.

Lemma bool_eqb_sym (a b : bool) : Bool.eqb a b = Bool.eqb b a.
Proof. destruct a, b; reflexivity. Qed.

Lemma numSameValueZero_sym (x y : number) :
  numSameValueZero x y = numSameValueZero y x.
Proof.
  destruct x, y; simpl; trivial.
  - apply bool_eqb_sym.
  - rewrite (bool_eqb_sym s s0), (Pos.eqb_sym m m0), (Z.eqb_sym e e0).
    reflexivity.
Qed.

Lemma sameValueZero_sym (a b : JSValue) :
  sameValueZero a b = sameValueZero b a.
Proof.
  destruct a, b; simpl; trivial.
  - apply bool_eqb_sym.
  - apply numSameValueZero_sym.
  - apply String.eqb_sym.
Qed.

Lemma has_app (s t : list JSValue) (v : JSValue) :
  has (s ++ t) v = has s v || has t v.
Proof. unfold has. apply existsb_app. Qed.

Lemma has_same (s : list JSValue) (x v : JSValue) :
  has s x = true -> sameValueZero v x = true -> has s v = true.
Proof.
  unfold has. intros Hx Hv.
  apply existsb_exists in Hx as (y & Hy & Hxy).
  apply existsb_exists. exists y. split; [exact Hy|].
  rewrite <- (sameValueZero_congr x y Hxy v). exact Hv.
Qed.

Lemma fold_add (l s earlier : list JSValue) :
  (forall v, has s v = has earlier v) ->
  fold_left add l s = s ++ firstOccurrencesAfter earlier l.
Proof.
  revert s earlier.
  induction l as [|x l IH]; intros s earlier Hs; simpl.
  - rewrite app_nil_r. reflexivity.
  - unfold add at 2. rewrite <- Hs.
    destruct (has s x) eqn:Ex.
    + simpl. apply IH. intros v.
      rewrite has_app, <- Hs. simpl. rewrite orb_false_r.
      destruct (sameValueZero v x) eqn:Ev.
      * rewrite orb_true_r. apply (has_same s x v Ex Ev).
      * rewrite orb_false_r. reflexivity.
    + rewrite (IH (s ++ [x]) (earlier ++ [x])).
      * rewrite <- app_assoc. reflexivity.
      * intros v. rewrite !has_app, Hs. reflexivity.
Qed.

Lemma newSet_firstOccurrences (l : list JSValue) :
  newSet l = firstOccurrences l.
Proof.
  unfold newSet, firstOccurrences.
  rewrite (fold_add l [] []); reflexivity.
Qed.

Lemma firstOccurrencesAfter_fresh (l earlier : list JSValue) :
  Forall (fun z => has earlier z = false) (firstOccurrencesAfter earlier l).
Proof.
  revert earlier.
  induction l as [|x l IH]; intros earlier; simpl.
  - constructor.
  - apply Forall_app. split.
    + destruct (has earlier x) eqn:E; constructor; trivial.
    + eapply Forall_impl; [|apply IH].
      intros z Hz. cbv beta in Hz. rewrite has_app in Hz.
      apply orb_false_elim in Hz as [Hz _]. exact Hz.
Qed.

Lemma firstOccurrencesAfter_distinct (l earlier : list JSValue) :
  distinct (firstOccurrencesAfter earlier l).
Proof.
  revert earlier.
  induction l as [|x l IH]; intros earlier; simpl.
  - exact I.
  - destruct (has earlier x); simpl; [apply IH|].
    split; [|apply IH].
    pose proof (firstOccurrencesAfter_fresh l (earlier ++ [x])) as Hfresh.
    unfold has. apply not_true_is_false. intros H.
    apply existsb_exists in H as (z & Hz & Hxz).
    rewrite Forall_forall in Hfresh. specialize (Hfresh z Hz).
    rewrite has_app in Hfresh. apply orb_false_elim in Hfresh as [_ Hfresh].
    simpl in Hfresh. rewrite orb_false_r, sameValueZero_sym in Hfresh.
    congruence.
Qed.

Lemma In_firstn {A : Type} (n : nat) (l : list A) (x : A) :
  In x (firstn n l) -> In x l.
Proof.
  revert n.
  induction l as [|y l IH]; intros [|n]; simpl; trivial; try contradiction.
  intros [H|H]; [left; exact H|right; exact (IH n H)].
Qed.

Lemma distinct_firstn (n : nat) (l : list JSValue) :
  distinct l -> distinct (firstn n l).
Proof.
  revert n.
  induction l as [|x l IH]; intros [|n]; simpl; trivial.
  intros [Hx Hl]. split; [|apply IH; exact Hl].
  unfold has in *. apply not_true_is_false. intros H.
  apply existsb_exists in H as (z & Hz & Hxz).
  apply In_firstn in Hz.
  assert (existsb (sameValueZero x) l = true)
    by (apply existsb_exists; exists z; split; assumption).
  congruence.
Qed.




(** ** The summary (C5) *)

Lemma filter_length_Permutation {A : Type} (f : A -> bool) (l l' : list A) :
  Permutation l l' ->
  List.length (filter f l) = List.length (filter f l').
Proof.
  induction 1 as [|x l l' _ IH|x y l|l l' l'' _ IH1 _ IH2]; simpl.
  - reflexivity.
  - destruct (f x); simpl; congruence.
  - destruct (f x), (f y); reflexivity.
  - congruence.
Qed.

(** C5, as the code has it. For every list of batch analyses, whenever
    [combineAnalyses] returns, the summary states the number of entries of
    the merged ranked list whose risk is High or Medium, and the sentence
    after it is chosen by whether the number of High entries alone is
    greater than zero.  It does return on every list of analyses it can
    read. *)
Theorem summary_counts_high_medium (analyses : list JSValue) (totalVideos : nat) :
  (forallb readable analyses = true ->
   exists final, combineAnalyses analyses totalVideos = Ok final)
  /\ forall final,
       combineAnalyses analyses totalVideos = Ok final ->
       exists ranked,
         prop final "ranked_list" = VArr ranked
         /\ let high := List.length (filter (hasLevel "High") ranked) in
            let medium := List.length (filter (hasLevel "Medium") ranked) in
            prop final "summary"
            = VStr ("We found " ++ decimal (high + medium)
                    ++ " Movies with Possible infringement. "
                    ++ (if (0 <? high)%nat then attention else noConcern)).
Proof.
  split.
  - intros Hr. exists (merged analyses).
    apply combineAnalyses_readable. exact Hr.
  - intros final H. apply combineAnalyses_Ok in H. subst final.
    exists (sort byRisk (List.concat (map rankedListOf analyses))).
    split; [reflexivity|].
    cbv zeta.
    rewrite <- !(filter_length_Permutation _ _ _ (sort_Permutation byRisk _)).
    reflexivity.
Qed.

Lemma summary_counts_high_medium_witness :
  exists final,
    combineAnalyses sampleAnalyses 6 = Ok final
    /\ prop final "summary"
       = VStr "We found 3 Movies with Possible infringement. Immediate attention recommended for high-risk content.".
Proof.
  destruct (summary_counts_high_medium sampleAnalyses 6) as [Hreturns Hshape].
  destruct (Hreturns eq_refl) as [final Hfinal].
  destruct (Hshape final Hfinal) as (ranked & Hranked & Hsummary).
  exists final. split; [exact Hfinal|].
  rewrite (combineAnalyses_Ok _ _ _ Hfinal). reflexivity.
Defined.

(** C5 as stated fails: two merges whose High-plus-Medium count is the same
    number, one, both greater than zero, end in different sentences; the
    sentence is not chosen by whether that count is positive. *)
Lemma summary_qualifier_not_by_count :
  exists final final',
    combineAnalyses onlyMedium 1 = Ok final
    /\ combineAnalyses onlyHigh 1 = Ok final'
    /\ prop final "ranked_list" = VArr [entry "m" "Medium"]
    /\ prop final' "ranked_list" = VArr [entry "h" "High"]
    /\ qualifierOf (prop final "summary") 1 = Some noConcern
    /\ qualifierOf (prop final' "summary") 1 = Some attention
    /\ noConcern <> attention.
Proof.
  exists (merged onlyMedium), (merged onlyHigh).
  repeat split; try reflexivity. discriminate.
Qed.

(** ** Normalization of raw search items (C7) *)

Lemma nullish_negb (v : JSValue) : negb (nullish v) = true -> nullish v = false.
Proof. destruct (nullish v); [discriminate|reflexivity]. Qed.

Lemma normalize_complete (item : JSValue) :
  complete item = true -> normalize item = Ok (normalized item).
Proof.
  unfold complete. intros H.
  apply andb_prop in H as [H Hs]. apply andb_prop in H as [Hi Hd].
  apply nullish_negb in Hi, Hd, Hs.
  unfold normalize.
  rewrite !(get_present item) by exact Hi. cbn [bind].
  rewrite !(get_present (prop item "id")) by exact Hd.
  rewrite !(get_present (prop item "snippet")) by exact Hs.
  reflexivity.
Qed.

Lemma normalize_incomplete (item : JSValue) :
  complete item = false -> exists e, normalize item = Throw e.
Proof.
  unfold complete, normalize, get. intros H.
  destruct (nullish item) eqn:Hi; [eexists; reflexivity|].
  cbn [bind].
  destruct (nullish (prop item "id")) eqn:Hd; [eexists; reflexivity|].
  destruct (nullish (prop item "snippet")) eqn:Hs; [|discriminate].
  eexists. reflexivity.
Qed.

Lemma lookup_absent (k : string) (fields : list (string * JSValue)) :
  ~ In k (map fst fields) -> lookup k fields = VUndefined.
Proof.
  induction fields as [|[k' v] fields IH]; simpl; intros H.
  - reflexivity.
  - destruct (String.eqb_spec k' k) as [->|Hne].
    + exfalso. apply H. left. reflexivity.
    + apply IH. intros Hin. apply H. right. exact Hin.
Qed.

Lemma arrayMap_incomplete (items : list JSValue) :
  forallb complete items = false ->
  exists e, arrayMap normalize (VArr items) = Throw e.
Proof.
  simpl. induction items as [|item items IH]; simpl; intros H.
  - discriminate.
  - destruct (complete item) eqn:Hi.
    + rewrite (normalize_complete item Hi). simpl.
      destruct (IH H) as [e ->]. exists e. reflexivity.
    + destruct (normalize_incomplete item Hi) as [e ->]. exists e. reflexivity.
Qed.

(** C7, as the code has it. For every page of raw search items that all
    have their [id] and [snippet] sub-objects, the page normalizes without
    failing; each record has the eight fields, each read unchanged from its
    place in one of the two sub-objects; and a field that is absent there
    is [undefined] in the record.  A page with an item that lacks one of
    the two sub-objects does not normalize: the map throws. *)
Theorem normalize_absent_fields_empty (items : list JSValue) :
  (forallb complete items = true ->
   exists records,
     arrayMap normalize (VArr items) = Ok records
     /\ Forall2
          (fun item record =>
             keys record = map fst fieldMap
             /\ forall name sub field fields,
                  In (name, (sub, field)) fieldMap ->
                  prop record name = prop (prop item sub) field
                  /\ (prop item sub = VObj fields ->
                      ~ In field (map fst fields) ->
                      prop record name = VUndefined))
          items records)
  /\ (forallb complete items = false ->
      exists e, arrayMap normalize (VArr items) = Throw e).
Proof.
  split; [|apply arrayMap_incomplete].
  intros H. exists (map normalized items). split.
  - simpl. induction items as [|item items IH]; simpl.
    + reflexivity.
    + simpl in H. apply andb_prop in H as [Hi Hl].
      rewrite (normalize_complete item Hi). simpl.
      rewrite (IH Hl). reflexivity.
  - clear H. induction items as [|item items IH]; simpl; constructor; trivial.
    split; [reflexivity|].
    intros name sub field fields Hin.
    assert (Heq : prop (normalized item) name = prop (prop item sub) field).
    { simpl in Hin.
      repeat (destruct Hin as [Hin|Hin];
              [injection Hin as <- <- <-; reflexivity|]).
      contradiction. }
    split; [exact Heq|].
    intros Hsub Hno. rewrite Heq, Hsub. simpl.
    apply lookup_absent. exact Hno.
Qed.

Lemma normalize_absent_fields_empty_witness :
  (exists records,
     arrayMap normalize (VArr (videos 3)) = Ok records
     /\ Forall2
          (fun item record =>
             keys record = map fst fieldMap
             /\ forall name sub field fields,
                  In (name, (sub, field)) fieldMap ->
                  prop record name = prop (prop item sub) field
                  /\ (prop item sub = VObj fields ->
                      ~ In field (map fst fields) ->
                      prop record name = VUndefined))
          (videos 3) records)
  /\ exists e, arrayMap normalize (VArr (videos 1 ++ [bareItem])) = Throw e.
Proof.
  split.
  - apply (normalize_absent_fields_empty (videos 3)). reflexivity.
  - apply (normalize_absent_fields_empty (videos 1 ++ [bareItem])). reflexivity.
Defined.

(** C7 as stated fails: an item without the [snippet] sub-object makes
    [normalize] throw, and the request whose only page holds it is answered
    500 although the other item of the page is complete. *)
Lemma missing_snippet_fails_the_fetch :
  normalize bareItem
  = Throw (TypeError "Cannot read properties of undefined (reading 'title')")
  /\ analyze barePlatform sampleBody 1
     = Some ({| status := 500;
                body := errorBody
                          "YouTube API error: Cannot read properties of undefined (reading 'title')" |},
             [ firstSearch ]).
Proof. split; reflexivity. Qed.

(** ** Partial failure (C1) *)

Section PartialFailure.
Variable P : Platform.
Variables userName channelName : JSValue.
Variable allSearchResults : list JSValue.

Lemma analyses_readable (ts : list Turn) :
  forallb readable (map (analysisAt P userName channelName allSearchResults) ts)
  = forallb readable
      (successesOf (map (outcome P userName channelName allSearchResults) ts)).
Proof.
  induction ts as [|t ts IH]; simpl; [reflexivity|].
  unfold analysisAt at 1.
  destruct (outcome P userName channelName allSearchResults t);
    simpl; rewrite IH; reflexivity.
Qed.

Lemma analyses_ranked (ts : list Turn) :
  List.concat
    (map rankedListOf
         (map (analysisAt P userName channelName allSearchResults) ts))
  = List.concat
      (map rankedListOf
           (successesOf
              (map (outcome P userName channelName allSearchResults) ts))).
Proof.
  induction ts as [|t ts IH]; simpl; [reflexivity|].
  unfold analysisAt at 1.
  destruct (outcome P userName channelName allSearchResults t);
    simpl; rewrite IH; reflexivity.
Qed.

Lemma analyses_failed (ts : list Turn) :
  forallb (fun a => negb (truthy (prop a "batch_failed")))
          (successesOf
             (map (outcome P userName channelName allSearchResults) ts))
  = true ->
  List.length
    (filter (fun a => truthy (prop a "batch_failed"))
            (map (analysisAt P userName channelName allSearchResults) ts))
  = List.length
      (filter isThrow
              (map (outcome P userName channelName allSearchResults) ts)).
Proof.
  induction ts as [|t ts IH]; simpl; [reflexivity|].
  unfold analysisAt at 1.
  destruct (outcome P userName channelName allSearchResults t) as [a|e];
    simpl; intros H.
  - apply andb_prop in H as [Ha Hl].
    destruct (truthy (prop a "batch_failed")); [discriminate|].
    apply IH. exact Hl.
  - f_equal. apply IH. exact H.
Qed.

Lemma details_failed (ts : list Turn) :
  List.length (flat_map (detailAt P userName channelName allSearchResults) ts)
  = List.length
      (filter isThrow
              (map (outcome P userName channelName allSearchResults) ts)).
Proof.
  induction ts as [|t ts IH]; simpl; [reflexivity|].
  unfold detailAt at 1.
  destruct (outcome P userName channelName allSearchResults t) as [a|e];
    simpl; rewrite IH; reflexivity.
Qed.

End PartialFailure.

Lemma analyze_pipeline (P : Platform) (req_body userName channelName : JSValue)
  (fuel : nat) :
  accepted req_body userName channelName ->
  configured P ->
  analyze P req_body fuel = pipeline P userName channelName fuel.
Proof.
  intros (Hd & Htu & Htc & Hcu & Hcc) (Hky & Hko).
  unfold analyze, logStart, toPrimitive.
  rewrite Hd, Htu, Htc, Hcu, Hcc, Hky, Hko. reflexivity.
Qed.

(** C1, as the code has it. For every run in which the search stage
    succeeds with N > 0 videos, k of the ceil(N/10) classification calls
    throw, and every other batch parses to an analysis that
    [combineAnalyses] can read and that carries no truthy [batch_failed],
    the request is answered 200; the merged analysis has [batch_count]
    equal to the number of batches and [failed_batches] equal to k, as has
    [batchesFailed] of the report; and the merged [ranked_list] is a
    rearrangement of the entries of the batches that did not throw. *)
Theorem partial_failure_tolerated (P : Platform)
  (req_body userName channelName : JSValue) (fuel : nat)
  (allSearchResults : list JSValue) (searched : list Event) :
  accepted req_body userName channelName ->
  configured P ->
  fetchPages P userName channelName fuel 0 [] VNull
  = Some (Ok allSearchResults, searched) ->
  0 < List.length allSearchResults ->
  let outcomes :=
    map (outcome P userName channelName allSearchResults)
        (turns allSearchResults) in
  let k := List.length (filter isThrow outcomes) in
  forallb readable (successesOf outcomes) = true ->
  forallb (fun a => negb (truthy (prop a "batch_failed")))
          (successesOf outcomes) = true ->
  exists response issued ranked,
    analyze P req_body fuel = Some (response, issued)
    /\ status response = 200
    /\ List.length outcomes = totalBatchesOf (List.length allSearchResults)
    /\ prop (prop (body response) "analysis") "batch_count"
       = VNum (ofNat (totalBatchesOf (List.length allSearchResults)))
    /\ prop (prop (body response) "analysis") "failed_batches" = VNum (ofNat k)
    /\ prop (body response) "batchesFailed" = VNum (ofNat k)
    /\ prop (prop (body response) "analysis") "ranked_list" = VArr ranked
    /\ Permutation (List.concat (map rankedListOf (successesOf outcomes))) ranked.
Proof.
  intros Hacc Hconf Hfetch Hpos outcomes k Hread Hmark.
  pose proof (turns_count allSearchResults) as Hn.
  rewrite (analyze_pipeline P req_body userName channelName fuel Hacc Hconf).
  unfold pipeline. rewrite Hfetch.
  destruct (Nat.eqb_spec (List.length allSearchResults) 0) as [H0|_]; [lia|].
  rewrite batchLoop_turns. cbn [allAnalyses failedBatches events].
  rewrite combineAnalyses_readable
    by (rewrite analyses_readable; exact Hread).
  eexists _, _, _.
  split; [reflexivity|].
  split; [reflexivity|].
  split; [unfold outcomes; rewrite length_map; exact Hn|].
  cbn [body status report prop lookup String.eqb Ascii.eqb Bool.eqb merged
       allAnalyses failedBatches].
  split; [rewrite length_map, Hn; reflexivity|].
  split; [rewrite analyses_failed by exact Hmark; reflexivity|].
  split; [rewrite details_failed; reflexivity|].
  split; [reflexivity|].
  rewrite analyses_ranked. apply sort_Permutation.
Qed.

Lemma sampleBody_accepted :
  accepted sampleBody (VStr "Artist") (VStr "ArtistOfficial").
Proof. repeat split. Defined.

Lemma samplePlatform_configured (n : nat) (extra : list JSValue)
  (answer : nat -> result string) :
  configured (samplePlatform n extra answer).
Proof. split; reflexivity. Defined.

Lemma partial_failure_tolerated_witness :
  List.length (filter isThrow (sampleOutcomes flakyPlatform 11)) = 1
  /\ successesOf (sampleOutcomes flakyPlatform 11) = [sampleAnalysis]
  /\ exists response issued ranked,
       analyze flakyPlatform sampleBody 1 = Some (response, issued)
       /\ status response = 200
       /\ List.length (sampleOutcomes flakyPlatform 11)
          = totalBatchesOf (List.length (found 11))
       /\ prop (prop (body response) "analysis") "batch_count"
          = VNum (ofNat (totalBatchesOf (List.length (found 11))))
       /\ prop (prop (body response) "analysis") "failed_batches"
          = VNum (ofNat (List.length
                           (filter isThrow (sampleOutcomes flakyPlatform 11))))
       /\ prop (body response) "batchesFailed"
          = VNum (ofNat (List.length
                           (filter isThrow (sampleOutcomes flakyPlatform 11))))
       /\ prop (prop (body response) "analysis") "ranked_list" = VArr ranked
       /\ Permutation
            (List.concat (map rankedListOf
                              (successesOf (sampleOutcomes flakyPlatform 11))))
            ranked.
Proof.
  split; [reflexivity|]. split; [reflexivity|].
  apply (partial_failure_tolerated flakyPlatform sampleBody
           (VStr "Artist") (VStr "ArtistOfficial") 1 (found 11) [firstSearch]
           sampleBody_accepted (samplePlatform_configured _ _ _));
    try reflexivity.
  vm_compute. lia.
Defined.

(** C1 as stated fails. A batch whose text parses to [null] is not a
    failed batch for the loop, and the request whose search succeeded with
    one video is answered 500; a batch whose text parses to an object
    carrying [batch_failed] is counted in [failed_batches] although no
    classification call threw. *)
Lemma unreadable_analysis_breaks_the_request :
  fetchPages nullPlatform (VStr "Artist") (VStr "ArtistOfficial") 1 0 [] VNull
  = Some (Ok (found 1), [firstSearch])
  /\ sampleOutcomes nullPlatform 1 = [Ok VNull]
  /\ analyze nullPlatform sampleBody 1
     = Some ({| status := 500;
                body := VObj [ ("error",
                                VStr "An unexpected error occurred during analysis");
                               ("details",
                                VStr "Cannot read properties of null (reading 'ranked_list')") ] |},
             [ firstSearch; classifyCall 1 1 (found 1) ])
  /\ sampleOutcomes markedPlatform 1 = [Ok (VObj [ ("batch_failed", VBool true) ])]
  /\ status (responseOf (analyze markedPlatform sampleBody 1)) = 200
  /\ prop (body (responseOf (analyze markedPlatform sampleBody 1))) "batchesFailed"
     = VNum (ofNat 0)
  /\ prop (prop (body (responseOf (analyze markedPlatform sampleBody 1)))
                "analysis")
          "failed_batches"
     = VNum (ofNat 1).
Proof. repeat split. Qed.

(** ** Pacing between batches (C8) *)

(** C8 at a run of two batches. When the first classification call
    throws, the second is issued with no timer in between; the pause of
    1000 ms is there only when the first call succeeded.  No pause follows
    the last batch in either run. *)
Theorem no_pause_after_failed_batch :
  sampleOutcomes flakyPlatform 11
  = [ Throw (mkError "Error" "429 Too Many Requests"); Ok sampleAnalysis ]
  /\ issuedBy (analyze flakyPlatform sampleBody 1)
     = [ firstSearch;
         classifyCall 1 2 (firstn 10 (found 11));
         classifyCall 2 2 (skipn 10 (found 11)) ]
  /\ sampleOutcomes steadyPlatform 11 = [ Ok (VObj []); Ok sampleAnalysis ]
  /\ issuedBy (analyze steadyPlatform sampleBody 1)
     = [ firstSearch;
         classifyCall 1 2 (firstn 10 (found 11));
         Sleep 1000;
         classifyCall 2 2 (skipn 10 (found 11)) ].
Proof. repeat split. Qed.

(** ** Shape of the mock report (C9) *)

Lemma mapM_total {A B : Type} (f : A -> result B) (l : list A) :
  (forall x, In x l -> exists y, f x = Ok y) ->
  exists ys, mapM f l = Ok ys.
Proof.
  induction l as [|x l IH]; intros H; simpl.
  - exists []. reflexivity.
  - destruct (H x (or_introl eq_refl)) as [y ->].
    destruct IH as [ys ->]; [intros z Hz; apply H; right; exact Hz|].
    exists (y :: ys). reflexivity.
Qed.

(** In mock mode an accepted request is answered 200 with the mock report,
    without any outbound call, as long as the dates of the mock videos are
    within the range of [Date]. *)
Lemma mock_mode_answers (P : Platform) (req_body userName channelName : JSValue)
  (fuel : nat) :
  accepted req_body userName channelName ->
  mockMode P = true ->
  (forall k i, 1 <= i <= 100 ->
     (Z.abs (Date_now P k - Z.of_nat i * msPerDay) <= 8640000000000000)%Z) ->
  exists mockResults,
    generateMockResults P userName channelName = Ok mockResults
    /\ analyze P req_body fuel
       = Some ({| status := 200; body := mockResults |}, []).
Proof.
  intros (Hd & Htu & Htc & Hcu & Hcc) Hmock Hclock.
  assert (Hvideos : exists l, mapM (mockVideo P userName channelName) (seq 1 100)
                              = Ok l).
  { apply mapM_total. intros i Hi. apply in_seq in Hi.
    unfold mockVideo, toISOString.
    destruct (Z.leb_spec (Z.abs (Date_now P (2 * (i - 1))
                                 - Z.of_nat i * msPerDay)) 8640000000000000)
      as [_|Hbad]; [|specialize (Hclock (2 * (i - 1)) i); lia].
    destruct (Z.leb_spec (Z.abs (Date_now P (2 * (i - 1) + 1)
                                 - Z.of_nat i * msPerDay)) 8640000000000000)
      as [_|Hbad]; [|specialize (Hclock (2 * (i - 1) + 1) i); lia].
    destruct (civil _) as [[y m] d]. destruct (civil _) as [[y' m'] d'].
    eexists. reflexivity. }
  destruct Hvideos as [l Hl].
  unfold analyze, logStart, toPrimitive, mockMode, generateMockResults in *.
  rewrite Hd, Htu, Htc, Hcu, Hcc, Hmock, Hl. cbn [bind negb orb].
  eexists. split; reflexivity.
Qed.

(** C9, as the code has it. Every report sent with status 200 has, in mock
    mode, the keys of the real report except [batchesFailed] and
    [failedBatchDetails], and its analysis the keys of the real analysis
    except [failed_batches]; outside mock mode it has all of them. *)
Theorem mock_report_shape (P : Platform) (req_body : JSValue) (fuel : nat)
  (response : Response) (issued : list Event) :
  analyze P req_body fuel = Some (response, issued) ->
  status response = 200 ->
  keys (body response) = (if mockMode P then mockReportKeys else reportKeys)
  /\ keys (prop (body response) "analysis")
     = (if mockMode P then mockAnalysisKeys else analysisKeys).
Proof.
  unfold analyze, mockMode, pipeline. intros H Hs.
  destruct (destructure req_body) as [[userName channelName]|e].
  2:{ injection H as <- _. discriminate. }
  destruct (negb (truthy userName) || negb (truthy channelName)).
  { injection H as <- _. discriminate. }
  destruct (logStart userName channelName).
  2:{ injection H as <- _. discriminate. }
  destruct (negb (keyPresent (YOUTUBE_API_KEY P))
            || negb (keyPresent (OPENAI_API_KEY P))).
  - unfold generateMockResults in H.
    destruct (mapM _ (seq 1 100)) as [searchResults|e]; cbn [bind] in H.
    + injection H as <- _. split; reflexivity.
    + injection H as <- _. discriminate.
  - destruct (fetchPages P userName channelName fuel 0 [] VNull)
      as [[[allSearchResults|e] searched]|]; [| |discriminate].
    + destruct (List.length allSearchResults =? 0)%nat.
      { injection H as <- _. discriminate. }
      destruct (combineAnalyses _ _) as [final|e] eqn:E.
      * injection H as <- _.
        apply combineAnalyses_Ok in E as ->. split; reflexivity.
      * injection H as <- _. discriminate.
    + injection H as <- _. discriminate.
Qed.

Lemma mock_report_shape_witness :
  status (responseOf (analyze mockPlatform sampleBody 0)) = 200
  /\ keys (body (responseOf (analyze mockPlatform sampleBody 0)))
     = mockReportKeys
  /\ keys (prop (body (responseOf (analyze mockPlatform sampleBody 0))) "analysis")
     = mockAnalysisKeys.
Proof.
  assert (Hs : status (responseOf (analyze mockPlatform sampleBody 0)) = 200)
    by (vm_compute; reflexivity).
  split; [exact Hs|].
  destruct (analyze mockPlatform sampleBody 0) as [[response issued]|] eqn:E;
    [|discriminate].
  exact (mock_report_shape mockPlatform sampleBody 0 response issued E Hs).
Defined.

(** C9 as stated fails: the report of a request in mock mode has no
    [batchesFailed], no [failedBatchDetails] and no [failed_batches], which
    the report of the real pipeline has. *)
Lemma mock_report_lacks_failure_accounting :
  status (responseOf (analyze mockPlatform sampleBody 0)) = 200
  /\ status (responseOf (analyze steadyPlatform sampleBody 1)) = 200
  /\ prop (body (responseOf (analyze mockPlatform sampleBody 0))) "batchesFailed"
     = VUndefined
  /\ prop (body (responseOf (analyze steadyPlatform sampleBody 1))) "batchesFailed"
     = VNum (ofNat 0)
  /\ prop (body (responseOf (analyze mockPlatform sampleBody 0)))
          "failedBatchDetails"
     = VUndefined
  /\ prop (body (responseOf (analyze steadyPlatform sampleBody 1)))
          "failedBatchDetails"
     = VArr []
  /\ prop (prop (body (responseOf (analyze mockPlatform sampleBody 0))) "analysis")
          "failed_batches"
     = VUndefined
  /\ prop (prop (body (responseOf (analyze steadyPlatform sampleBody 1))) "analysis")
          "failed_batches"
     = VNum (ofNat 0)
  /\ keys (body (responseOf (analyze mockPlatform sampleBody 0)))
     <> keys (body (responseOf (analyze steadyPlatform sampleBody 1))).
Proof.
  vm_compute. repeat split. discriminate.
Qed.

(** ** Failure of a page request (C10) *)

Section Pagination.
Variable P : Platform.
Variables userName channelName : JSValue.

Lemma fetchPages_resume (n : nat) (allSearchResults : list JSValue)
  (token : JSValue) :
  paged P userName channelName n allSearchResults token ->
  forall fuel r issued,
    fetchPages P userName channelName fuel n allSearchResults token
    = Some (r, issued) ->
    exists before,
      fetchPages P userName channelName (n + fuel) 0 [] VNull
      = Some (r, before ++ issued)
      /\ filter isClassify before = []
      /\ List.length (filter isSearch before) = n.
Proof.
  induction 1 as [|n acc pageResults token token' page Hp IH Hget Hproc Hlen Htok];
    intros fuel r issued Hrun.
  - exists []. repeat split. exact Hrun.
  - destruct (IH (S fuel) r
                (Search (S n) (searchParams P userName channelName acc token)
                 :: Sleep 500 :: issued)) as (before & Hrun' & Hc & Hs).
    { cbn [fetchPages]. rewrite Hget. cbn [bind]. rewrite Hproc.
      unfold targetResults in *.
      destruct (Nat.leb_spec 100 (List.length (acc ++ pageResults))) as [Hge|_];
        [lia|].
      rewrite Htok. cbn [negb orb]. rewrite Hrun. reflexivity. }
    exists (before
            ++ [Search (S n) (searchParams P userName channelName acc token);
                Sleep 500]).
    rewrite <- app_assoc. cbn [app].
    replace (S n + fuel) with (n + S fuel) by lia.
    split; [exact Hrun'|].
    rewrite !filter_app, length_app, Hc, Hs. cbn. split; [reflexivity|lia].
Qed.

Lemma fetchPages_more_fuel (fuel extra n : nat) (allSearchResults : list JSValue)
  (token : JSValue) (run : result (list JSValue) * list Event) :
  fetchPages P userName channelName fuel n allSearchResults token = Some run ->
  fetchPages P userName channelName (fuel + extra) n allSearchResults token
  = Some run.
Proof.
  revert n allSearchResults token run.
  induction fuel as [|fuel IH]; intros n acc token run H; [discriminate|].
  cbn [fetchPages Nat.add] in *.
  destruct (page <- axios_get P (S n) (searchParams P userName channelName acc token) ;;
            processPage page) as [[pageResults token']|e]; [|exact H].
  destruct ((targetResults <=? List.length (acc ++ pageResults))%nat
            || negb (truthy token')); [exact H|].
  destruct (fetchPages P userName channelName fuel (S n) (acc ++ pageResults) token')
    as [[r issued]|] eqn:E; [|discriminate].
  rewrite (IH _ _ _ _ E). exact H.
Qed.

End Pagination.

Lemma analyze_more_fuel (P : Platform) (req_body : JSValue) (fuel extra : nat)
  (run : Response * list Event) :
  analyze P req_body fuel = Some run ->
  analyze P req_body (fuel + extra) = Some run.
Proof.
  unfold analyze, pipeline.
  destruct (destructure req_body) as [[userName channelName]|e]; trivial.
  destruct (negb (truthy userName) || negb (truthy channelName)); trivial.
  destruct (logStart userName channelName); trivial.
  destruct (negb (keyPresent (YOUTUBE_API_KEY P))
            || negb (keyPresent (OPENAI_API_KEY P))); trivial.
  destruct (fetchPages P userName channelName fuel 0 [] VNull) as [r|] eqn:E;
    [|discriminate].
  rewrite (fetchPages_more_fuel P userName channelName fuel extra 0 [] VNull r E).
  trivial.
Qed.

(** C10. If the page request number n + 1 of the pagination is refused,
    whatever n is and whatever the n pages before it delivered, the request
    is answered 500 with the upstream message and nothing else (the videos
    already fetched are in no part of the response), after exactly n + 1
    search calls and without any classification call. *)
Theorem any_page_failure_aborts (P : Platform)
  (req_body userName channelName : JSValue) (n fuel : nat)
  (allSearchResults : list JSValue) (token : JSValue)
  (youtubeError : JSError) :
  accepted req_body userName channelName ->
  configured P ->
  paged P userName channelName n allSearchResults token ->
  axios_get P (S n) (searchParams P userName channelName allSearchResults token)
  = Throw youtubeError ->
  n < fuel ->
  exists issued,
    analyze P req_body fuel
    = Some ({| status := 500;
               body := VObj [ ("error",
                               VStr ("YouTube API error: "
                                     ++ message youtubeError)) ] |},
            issued)
    /\ filter isClassify issued = []
    /\ List.length (filter isSearch issued) = S n.
Proof.
  intros Hacc Hconf Hpaged Hfail Hfuel.
  destruct (fetchPages_resume P userName channelName n allSearchResults token
              Hpaged (fuel - n) (Throw youtubeError)
              [Search (S n)
                 (searchParams P userName channelName allSearchResults token)])
    as (before & Hrun & Hcl & Hse).
  { destruct (fuel - n) as [|rest] eqn:E; [lia|].
    cbn [fetchPages]. rewrite Hfail. reflexivity. }
  replace (n + (fuel - n)) with fuel in Hrun by lia.
  exists (before
          ++ [Search (S n)
                (searchParams P userName channelName allSearchResults token)]).
  rewrite (analyze_pipeline P req_body userName channelName fuel Hacc Hconf).
  unfold pipeline. rewrite Hrun.
  split; [reflexivity|].
  rewrite !filter_app, length_app, Hcl, Hse. cbn. split; [reflexivity|lia].
Qed.

Lemma secondPageFails_configured : configured secondPageFails.
Proof. split; reflexivity. Defined.

Lemma secondPageFails_paged :
  paged secondPageFails (VStr "Artist") (VStr "ArtistOfficial") 1
        (found 50) (VStr "CDIQAA").
Proof.
  apply (paged_next secondPageFails (VStr "Artist") (VStr "ArtistOfficial")
           0 [] (found 50) VNull (VStr "CDIQAA")
           (pageOf (videos 50) (VStr "CDIQAA"))).
  - constructor.
  - reflexivity.
  - vm_compute. reflexivity.
  - vm_compute. lia.
  - reflexivity.
Defined.

Lemma any_page_failure_aborts_witness :
  exists issued,
    analyze secondPageFails sampleBody 2
    = Some ({| status := 500;
               body := VObj [ ("error",
                               VStr ("YouTube API error: "
                                     ++ "Request failed with status code 403")) ] |},
            issued)
    /\ filter isClassify issued = []
    /\ List.length (filter isSearch issued) = 2.
Proof.
  apply (any_page_failure_aborts secondPageFails sampleBody
           (VStr "Artist") (VStr "ArtistOfficial") 1 2 (found 50) (VStr "CDIQAA")
           (mkError "AxiosError" "Request failed with status code 403")
           sampleBody_accepted secondPageFails_configured secondPageFails_paged);
    [reflexivity|lia].
Defined.

(** ** Parsing of the classifier output (C6) *)

(** C6 on the code. [analyzeBatch] hands the text of the completion to
    [JSON.parse] once: on a text that [JSON.parse] rejects it throws that
    error, also when the two-stage parser of the single-request variant
    (direct parse, then the outermost braces) recovers an object from the
    same text. *)
Theorem classifier_parses_once (P : Platform) (userName channelName : JSValue)
  (batchResults : list JSValue) (batchNumber totalBatches : nat)
  (text : string) (error : JSError) (recovered : JSValue) :
  chat_create P {| original_title := userName;
                   original_channel_title := channelName;
                   batchResults := batchResults;
                   batchOrdinal := batchNumber;
                   batchTotal := totalBatches |} = Ok text ->
  JSON_parse P text = Throw error ->
  Variant.extractJSON (JSON_parse P) text = Ok recovered ->
  analyzeBatch P userName channelName batchResults batchNumber totalBatches
  = Throw error.
Proof.
  intros Hchat Hparse _. unfold analyzeBatch. rewrite Hchat. exact Hparse.
Qed.

Lemma classifier_parses_once_witness :
  Variant.extractJSON parseSample chattyText = Ok sampleAnalysis
  /\ analyzeBatch chattyPlatform (VStr "Artist") (VStr "ArtistOfficial")
       (found 1) 1 1
     = Throw (SyntaxError chattyText)
  /\ allAnalyses (batchLoop chattyPlatform (VStr "Artist") (VStr "ArtistOfficial")
                            (found 1))
     = [placeholder 1].
Proof.
  split; [reflexivity|]. split; [|reflexivity].
  apply (classifier_parses_once chattyPlatform (VStr "Artist")
           (VStr "ArtistOfficial") (found 1) 1 1 chattyText
           (SyntaxError chattyText) sampleAnalysis);
    reflexivity.
Defined.

(** * Further properties *)

(** ** [combineAnalyses]: the fields taken from the first unmarked batch *)

Lemma first_filter (p : JSValue -> bool) (front rest : list JSValue) (a : JSValue) :
  forallb (fun b => negb (p b)) front = true ->
  p a = true ->
  first (filter p (front ++ a :: rest)) = a.
Proof.
  induction front as [|b front IH]; simpl; intros Hf Ha.
  - rewrite Ha. reflexivity.
  - apply andb_prop in Hf as [Hb Hf].
    destruct (p b); [discriminate|]. apply IH; assumption.
Qed.

Lemma filter_none (p : JSValue -> bool) (l : list JSValue) :
  forallb (fun b => negb (p b)) l = true -> filter p l = [].
Proof.
  induction l as [|b l IH]; simpl; intros H; [reflexivity|].
  apply andb_prop in H as [Hb Hl].
  destruct (p b); [discriminate|]. apply IH. exact Hl.
Qed.

(** X1. Whenever [combineAnalyses] returns, [checklist], [next_actions] and
    [disclaimer] are those of the first analysis that is not marked as
    failed, each replaced by its default (the empty list, the fixed
    disclaimer) when that analysis has none; the later analyses are never
    consulted.  When every analysis is marked, the three defaults are
    returned. *)
Theorem guidance_from_first_unmarked (analyses : list JSValue)
  (totalVideos : nat) (final : JSValue) :
  combineAnalyses analyses totalVideos = Ok final ->
  (forall front a rest,
     analyses = front ++ a :: rest ->
     forallb marked front = true ->
     marked a = false ->
     prop final "checklist" = or (prop a "checklist") (VArr [])
     /\ prop final "next_actions" = or (prop a "next_actions") (VArr [])
     /\ prop final "disclaimer"
        = or (prop a "disclaimer") (VStr defaultDisclaimer))
  /\ (forallb marked analyses = true ->
      prop final "checklist" = VArr []
      /\ prop final "next_actions" = VArr []
      /\ prop final "disclaimer" = VStr defaultDisclaimer).
Proof.
  intros H.
  pose proof (combineAnalyses_Ok _ _ _ H) as ->.
  assert (Hpresent : forallb (fun a => negb (nullish a)) analyses = true).
  { unfold combineAnalyses in H.
    destruct (flatMap _ analyses) as [all|e] eqn:E; [|discriminate].
    exact (flatMap_Ok _ _ _ _ E). }
  split.
  - intros front a rest -> Hfront Ha.
    assert (Hfirst : first (filter (fun b => negb (truthy (prop b "batch_failed")))
                                   (front ++ a :: rest)) = a).
    { apply first_filter.
      - rewrite forallb_forall in *. intros b Hb.
        specialize (Hfront b Hb). unfold marked in Hfront.
        rewrite Hfront. reflexivity.
      - unfold marked in Ha. rewrite Ha. reflexivity. }
    assert (Hna : nullish a = false).
    { rewrite forallb_forall in Hpresent.
      apply nullish_negb, Hpresent, in_elt. }
    cbn [merged prop lookup String.eqb Ascii.eqb Bool.eqb].
    rewrite Hfirst. unfold getOpt. rewrite Hna. repeat split.
  - intros Hall.
    cbn [merged prop lookup String.eqb Ascii.eqb Bool.eqb].
    rewrite filter_none; [repeat split|].
    rewrite forallb_forall in *. intros b Hb.
    specialize (Hall b Hb). unfold marked in Hall. rewrite Hall. reflexivity.
Qed.

Lemma guidance_from_first_unmarked_witness :
  exists final,
    combineAnalyses checklistAnalyses 2 = Ok final
    /\ prop final "checklist" = VArr []
    /\ prop final "disclaimer" = VStr "second".
Proof.
  exists (merged checklistAnalyses).
  assert (H : combineAnalyses checklistAnalyses 2 = Ok (merged checklistAnalyses))
    by reflexivity.
  split; [exact H|].
  destruct (guidance_from_first_unmarked checklistAnalyses 2 _ H) as [Hfirst _].
  destruct (Hfirst [placeholder 1]
              (VObj [ ("ranked_list", VArr [ entry "a" "Low" ]);
                      ("disclaimer", VStr "second") ])
              [ VObj [ ("ranked_list", VArr [ entry "b" "High" ]);
                       ("checklist", VArr [ VStr "third" ]);
                       ("disclaimer", VStr "third") ] ]
              eq_refl eq_refl eq_refl) as (Hc & _ & Hd).
  split; [exact Hc|exact Hd].
Defined.

(** ** [combineAnalyses]: counters *)

Lemma length_concat_sum {A : Type} (ls : list (list A)) :
  List.length (List.concat ls) = list_sum (map (@List.length A) ls).
Proof.
  induction ls as [|l ls IH]; simpl; [reflexivity|].
  rewrite length_app, IH. reflexivity.
Qed.

(** X2. Whenever [combineAnalyses] returns, the merged ranked list has as many
    entries as the batches' ranked lists together, [batch_count] is the
    number of analyses, [failed_batches] the number of marked ones, and
    the two add up: no analysis is counted twice or dropped. *)
Theorem merged_counters (analyses : list JSValue) (totalVideos : nat)
  (final : JSValue) :
  combineAnalyses analyses totalVideos = Ok final ->
  exists ranked,
    prop final "ranked_list" = VArr ranked
    /\ List.length ranked
       = list_sum (map (fun a => List.length (rankedListOf a)) analyses)
    /\ prop final "batch_count" = VNum (ofNat (List.length analyses))
    /\ prop final "failed_batches"
       = VNum (ofNat (List.length (filter marked analyses)))
    /\ List.length (filter marked analyses)
       + List.length (filter (fun a => negb (marked a)) analyses)
       = List.length analyses.
Proof.
  intros H. apply combineAnalyses_Ok in H. subst final.
  exists (sort byRisk (List.concat (map rankedListOf analyses))).
  split; [reflexivity|].
  split.
  { rewrite <- (Permutation_length (sort_Permutation byRisk _)).
    rewrite length_concat_sum, map_map. reflexivity. }
  split; [reflexivity|].
  split; [reflexivity|].
  induction analyses as [|a l IH]; simpl; [reflexivity|].
  destruct (marked a); simpl; lia.
Qed.

Lemma merged_counters_witness :
  exists ranked,
    prop (merged sampleAnalyses) "ranked_list" = VArr ranked
    /\ List.length ranked = 6
    /\ prop (merged sampleAnalyses) "batch_count" = VNum (ofNat 3)
    /\ prop (merged sampleAnalyses) "failed_batches" = VNum (ofNat 1).
Proof.
  destruct (merged_counters sampleAnalyses 6 (merged sampleAnalyses) eq_refl)
    as (ranked & Hr & Hlen & Hb & Hf & _).
  exists ranked. repeat split; assumption.
Defined.

(** ** [combineAnalyses]: merging a merged analysis again *)

Lemma sort_sorted_id (l : list JSValue) :
  forallb graded l = true ->
  StronglySorted (fun a b => (severity b <= severity a)%Z) l ->
  sort byRisk l = l.
Proof.
  induction l as [|x l IH]; simpl; intros Hg Hs; [reflexivity|].
  apply andb_prop in Hg as [Hx Hl].
  inversion Hs as [|? ? Hs' Hall]; subst.
  rewrite (IH Hl Hs').
  destruct l as [|y l]; [reflexivity|]. simpl.
  simpl in Hl. apply andb_prop in Hl as [Hy _].
  rewrite (before_graded x y Hx Hy).
  inversion Hall as [|? ? Hxy _]; subst.
  apply Z.leb_le in Hxy. rewrite Hxy. reflexivity.
Qed.

Lemma firstOccurrencesAfter_distinct_id (l earlier : list JSValue) :
  distinct l ->
  forallb (fun x => negb (has earlier x)) l = true ->
  firstOccurrencesAfter earlier l = l.
Proof.
  revert earlier.
  induction l as [|x l IH]; simpl; intros earlier Hd Hfresh; [reflexivity|].
  destruct Hd as [Hx Hd]. apply andb_prop in Hfresh as [Hex Hl].
  destruct (has earlier x); [discriminate|]. simpl. f_equal.
  apply IH; [exact Hd|].
  rewrite forallb_forall in *. intros y Hy. rewrite has_app.
  rewrite (proj1 (negb_true_iff _) (Hl y Hy)). simpl. rewrite orb_false_r.
  unfold has in Hx.
  destruct (sameValueZero y x) eqn:E; [|reflexivity].
  rewrite sameValueZero_sym in E.
  assert (existsb (sameValueZero x) l = true)
    by (apply existsb_exists; exists y; split; assumption).
  congruence.
Qed.

Lemma newSet_distinct_id (l : list JSValue) : distinct l -> newSet l = l.
Proof.
  intros Hd. rewrite newSet_firstOccurrences.
  apply firstOccurrencesAfter_distinct_id; [exact Hd|].
  apply forallb_forall. reflexivity.
Qed.

Lemma or_default_again (a d : JSValue) :
  truthy d = true -> or (or a d) d = or a d.
Proof.
  intros Hd. unfold or. destruct (truthy a) eqn:Ha.
  - rewrite Ha. reflexivity.
  - rewrite Hd. reflexivity.
Qed.

Lemma firstn_short {A : Type} (n : nat) (l : list A) :
  List.length l <= n -> firstn n l = l.
Proof. intros H. apply firstn_all2. exact H. Qed.

(** X3. Merging is idempotent on graded input: when the analyses are not
    [null] and every ranked entry carries one of the three levels, running
    [combineAnalyses] on its own result, taken as a single batch, returns
    the same summary, ranked list, priority list, checklist, next actions
    and disclaimer; only the two counters change, to one batch and no
    failure. *)
Theorem merge_idempotent (analyses : list JSValue) (totalVideos again : nat)
  (final : JSValue) :
  forallb graded (List.concat (map rankedListOf analyses)) = true ->
  combineAnalyses analyses totalVideos = Ok final ->
  exists final',
    combineAnalyses [final] again = Ok final'
    /\ (forall k,
          In k [ "summary"; "ranked_list"; "top_priority"; "checklist";
                 "next_actions"; "disclaimer" ] ->
          prop final' k = prop final k)
    /\ prop final' "batch_count" = VNum (ofNat 1)
    /\ prop final' "failed_batches" = VNum (ofNat 0).
Proof.
  intros Hg H. apply combineAnalyses_Ok in H. subst final.
  set (all := List.concat (map rankedListOf analyses)) in *.
  set (tops := List.concat (map topPriorityOf analyses)).
  assert (Hranked : rankedListOf (merged analyses) = sort byRisk all)
    by reflexivity.
  assert (Htops : topPriorityOf (merged analyses) = slice0 10 (newSet tops))
    by reflexivity.
  assert (Hsorted : sort byRisk (sort byRisk all) = sort byRisk all).
  { apply sort_sorted_id; [apply graded_sort|apply sort_sorted]; exact Hg. }
  assert (Hunique : slice0 10 (newSet (slice0 10 (newSet tops)))
                    = slice0 10 (newSet tops)).
  { unfold slice0. rewrite (newSet_distinct_id (firstn 10 (newSet tops))).
    - apply firstn_short, firstn_le_length.
    - rewrite newSet_firstOccurrences. apply distinct_firstn.
      apply firstOccurrencesAfter_distinct. }
  exists (merged [merged analyses]).
  split.
  { apply combineAnalyses_readable. cbn [forallb]. rewrite andb_true_r.
    unfold readable. cbn [nullish merged negb andb]. rewrite Hranked.
    rewrite forallb_forall. intros x Hx. apply graded_readable.
    pose proof (graded_sort all Hg) as Hgs.
    rewrite forallb_forall in Hgs. exact (Hgs x Hx). }
  split; [|split; reflexivity].
  intros k Hk.
  assert (Hmerged : merged [merged analyses]
    = VObj [ ("summary",
              VStr (summaryText
                      (List.length (filter (hasLevel "High") (sort byRisk all)))
                      (List.length (filter (hasLevel "Medium") (sort byRisk all)))));
             ("ranked_list", VArr (sort byRisk all));
             ("top_priority", VArr (slice0 10 (newSet tops)));
             ("checklist", prop (merged analyses) "checklist");
             ("next_actions", prop (merged analyses) "next_actions");
             ("disclaimer", prop (merged analyses) "disclaimer");
             ("batch_count", VNum (ofNat 1));
             ("failed_batches", VNum (ofNat 0)) ]).
  { unfold merged at 1. cbn [map List.concat]. rewrite !app_nil_r.
    rewrite Hranked, Htops, Hsorted, Hunique.
    cbn [filter prop merged lookup String.eqb Ascii.eqb Bool.eqb truthy negb
         first getOpt nullish List.length].
    rewrite !or_default_again by reflexivity. reflexivity. }
  rewrite Hmerged. clear Hmerged.
  rewrite <- !(filter_length_Permutation _ _ _ (sort_Permutation byRisk all)).
  simpl in Hk.
  repeat (destruct Hk as [<-|Hk]; [reflexivity|]). contradiction.
Qed.

Lemma merge_idempotent_witness :
  exists final final',
    combineAnalyses sampleAnalyses 6 = Ok final
    /\ combineAnalyses [final] 6 = Ok final'
    /\ prop final' "ranked_list" = prop final "ranked_list"
    /\ prop final' "top_priority" = prop final "top_priority"
    /\ prop final' "batch_count" = VNum (ofNat 1).
Proof.
  destruct (merge_idempotent sampleAnalyses 6 6 (merged sampleAnalyses)
              eq_refl eq_refl) as (final' & Hagain & Hsame & Hcount & _).
  exists (merged sampleAnalyses), final'.
  split; [reflexivity|]. split; [exact Hagain|].
  split; [apply Hsame; simpl; tauto|].
  split; [apply Hsame; simpl; tauto|exact Hcount].
Defined.

(** ** [combineAnalyses]: when it throws *)

Lemma sortM_Ok_convertible (l s : list JSValue) :
  sortM byRiskM l = Ok s -> sortable l = true.
Proof.
  unfold sortable. revert s.
  induction l as [|x l IH]; intros s H; [reflexivity|].
  cbn [sortM] in H.
  destruct (sortM byRiskM l) as [s'|e] eqn:E; [|discriminate].
  cbn [bind] in H.
  pose proof (sortM_Ok l s' E) as Hs'.
  specialize (IH s' eq_refl).
  destruct l as [|y l]; [reflexivity|].
  cbn [List.length Nat.leb orb forallb].
  assert (Hne : exists z rest, s' = z :: rest /\ In z (y :: l)).
  { destruct s' as [|z rest].
    - pose proof (Permutation_length (sort_Permutation byRisk (y :: l))) as Hl.
      rewrite <- Hs' in Hl. discriminate.
    - exists z, rest. split; [reflexivity|].
      eapply Permutation_in;
        [symmetry; apply (sort_Permutation byRisk)|].
      rewrite <- Hs'. left. reflexivity. }
  destruct Hne as (z & rest & -> & Hz).
  cbn [insertM] in H.
  unfold byRiskM at 1, toPrimitive in H.
  destruct (convertible (prop z "risk")) eqn:Cz; [|discriminate].
  destruct (convertible (prop x "risk")) eqn:Cx; [|discriminate].
  cbn [andb].
  destruct l as [|y' l].
  - destruct Hz as [->|[]]. rewrite Cz. reflexivity.
  - cbn [List.length Nat.leb orb] in IH. exact IH.
Qed.

Lemma sortable_sortM (l : list JSValue) :
  sortable l = true -> exists s, sortM byRiskM l = Ok s.
Proof.
  unfold sortable. intros H. apply orb_prop in H as [H|H].
  - destruct l as [|x [|y l]]; [eexists; reflexivity..|discriminate].
  - destruct (sortM_convertible l H) as [-> _]. eexists. reflexivity.
Qed.

(** X4. [combineAnalyses] returns exactly when no analysis is [null] or
    [undefined], no ranked entry is, and the ranked entries can be sorted
    (there is at most one, or every risk converts to a property key); in
    every other case it throws. *)
Theorem combineAnalyses_returns_iff (analyses : list JSValue) (totalVideos : nat) :
  isOk (combineAnalyses analyses totalVideos)
  = forallb (fun a => negb (nullish a)) analyses
    && forallb (fun item => negb (nullish item))
               (List.concat (map rankedListOf analyses))
    && sortable (List.concat (map rankedListOf analyses)).
Proof.
  unfold combineAnalyses.
  destruct (forallb (fun a => negb (nullish a)) analyses) eqn:Ha.
  2:{ destruct (flatMap _ analyses) as [all|e] eqn:E; [|reflexivity].
      rewrite (flatMap_Ok _ _ _ _ E) in Ha. discriminate. }
  rewrite !flatMap_reads by exact Ha. cbn [bind].
  rewrite (filterM_reads "batch_failed" (fun f => negb (truthy f))) by exact Ha.
  cbn [bind andb].
  change (map (fun a => spliced (or (prop a "ranked_list") (VArr []))) analyses)
    with (map rankedListOf analyses).
  set (all := List.concat (map rankedListOf analyses)).
  destruct (forallb (fun item => negb (nullish item)) all) eqn:Hi.
  2:{ destruct (filterM (riskIs "High") all) as [high|e] eqn:E; [|reflexivity].
      unfold riskIs in E. rewrite (filterM_Ok _ _ _ _ E) in Hi. discriminate. }
  unfold riskIs.
  rewrite !(filterM_reads "risk" (fun r => strictEqStr r _)) by exact Hi.
  cbn [bind].
  rewrite (filterM_reads "batch_failed" truthy) by exact Ha.
  cbn [bind andb].
  destruct (sortM byRiskM all) as [s|e] eqn:E.
  - rewrite (sortM_Ok_convertible all s E). reflexivity.
  - destruct (sortable all) eqn:Hs; [|reflexivity].
    destruct (sortable_sortM all Hs) as [s Hs']. congruence.
Qed.

(** ** Pagination: pacing, page size, cap and termination *)

Section Paging.
Variable P : Platform.
Variables userName channelName : JSValue.

Lemma fetchPages_trace (fuel n : nat) (acc : list JSValue) (token : JSValue)
  (r : result (list JSValue)) (issued : list Event) :
  List.length acc < targetResults ->
  fetchPages P userName channelName fuel n acc token = Some (r, issued) ->
  exists ps,
    issued = searchTrace n (searchParams P userName channelName acc token :: ps)
    /\ List.length ps < fuel
    /\ Forall (fun p => q p = q (searchParams P userName channelName [] VNull)
                        /\ (1 <= maxResults p <= 50)%Z)
              (searchParams P userName channelName acc token :: ps).
Proof.
  revert n acc token r issued.
  induction fuel as [|fuel IH]; intros n acc token r issued Hlen H; [discriminate|].
  assert (Hhere : q (searchParams P userName channelName acc token)
                  = q (searchParams P userName channelName [] VNull)
                  /\ (1 <= maxResults (searchParams P userName channelName acc token)
                      <= 50)%Z).
  { split; [reflexivity|]. cbn [maxResults searchParams].
    unfold targetResults, maxResultsPerPage in *. lia. }
  cbn [fetchPages] in H.
  destruct (page <- axios_get P (S n) (searchParams P userName channelName acc token) ;;
            processPage page) as [[pageResults token']|e].
  2:{ injection H as <- <-. exists []. split; [reflexivity|].
      split; [cbn [List.length]; lia|].
      constructor; [exact Hhere|constructor]. }
  destruct (Nat.leb_spec targetResults (List.length (acc ++ pageResults)))
    as [Hfull|Hmore]; cbn [orb] in H.
  { injection H as <- <-. exists []. split; [reflexivity|].
      split; [cbn [List.length]; lia|].
    constructor; [exact Hhere|constructor]. }
  destruct (truthy token'); cbn [negb] in H.
  2:{ injection H as <- <-. exists []. split; [reflexivity|].
      split; [cbn [List.length]; lia|].
      constructor; [exact Hhere|constructor]. }
  destruct (fetchPages P userName channelName fuel (S n) (acc ++ pageResults) token')
    as [[r' issued']|] eqn:E; [|discriminate].
  injection H as <- <-.
  destruct (IH _ _ _ _ _ Hmore E) as (ps & -> & Hps & Hall).
  exists (searchParams P userName channelName (acc ++ pageResults) token' :: ps).
  split; [reflexivity|]. split; [cbn [List.length]; lia|].
  constructor; [exact Hhere|exact Hall].
Qed.

Lemma searchTrace_pageSized (n : nat) (ps : list SearchParams) :
  Forall (fun p => q p = q (searchParams P userName channelName [] VNull)
                   /\ (1 <= maxResults p <= 50)%Z) ps ->
  forallb pageSized (searchTrace n ps) = true
  /\ searchesOf (searchTrace n ps) = ps.
Proof.
  revert n. induction ps as [|p ps IH]; intros n H; [split; reflexivity|].
  inversion H as [|? ? [_ Hp] Hps]; subst.
  destruct (IH (S n) Hps) as [IH1 IH2].
  cbn [searchTrace forallb pageSized searchesOf].
  replace ((1 <=? maxResults p)%Z) with true by (symmetry; apply Z.leb_le; lia).
  replace ((maxResults p <=? 50)%Z) with true by (symmetry; apply Z.leb_le; lia).
  destruct ps as [|p' ps]; [split; reflexivity|].
  cbn [forallb pageSized searchesOf andb]. rewrite IH1, IH2. split; reflexivity.
Qed.

Lemma fetchPages_capped (fuel n : nat) (acc all : list JSValue) (token : JSValue)
  (issued : list Event) :
  respectsMaxResults P ->
  List.length acc < targetResults ->
  fetchPages P userName channelName fuel n acc token = Some (Ok all, issued) ->
  List.length all <= targetResults.
Proof.
  intros Hcap. revert n acc token issued.
  induction fuel as [|fuel IH]; intros n acc token issued Hlen H; [discriminate|].
  cbn [fetchPages] in H.
  destruct (axios_get P (S n) (searchParams P userName channelName acc token))
    as [page|e] eqn:Hget; cbn [bind] in H; [|discriminate].
  destruct (processPage page) as [[pageResults token']|e] eqn:Hproc; [|discriminate].
  pose proof (Hcap _ _ _ _ _ Hget Hproc) as Hpage.
  cbn [maxResults searchParams] in Hpage.
  assert (Hsum : List.length (acc ++ pageResults) <= targetResults).
  { rewrite length_app. unfold targetResults, maxResultsPerPage in *. lia. }
  destruct (Nat.leb_spec targetResults (List.length (acc ++ pageResults)))
    as [Hfull|Hmore]; cbn [orb] in H.
  { injection H as <- _. exact Hsum. }
  destruct (truthy token'); cbn [negb] in H.
  2:{ injection H as <- _. exact Hsum. }
  destruct (fetchPages P userName channelName fuel (S n) (acc ++ pageResults) token')
    as [[r' issued']|] eqn:E; [|discriminate].
  injection H as -> _.
  exact (IH _ _ _ _ Hmore E).
Qed.

Lemma fetchPages_ends (fuel n : nat) (acc : list JSValue) (token : JSValue) :
  pagesNotEmpty P ->
  List.length acc < targetResults ->
  targetResults <= List.length acc + fuel ->
  exists run, fetchPages P userName channelName fuel n acc token = Some run.
Proof.
  intros Hpages. revert n acc token.
  induction fuel as [|fuel IH]; intros n acc token Hlen Hfuel; [lia|].
  cbn [fetchPages].
  destruct (axios_get P (S n) (searchParams P userName channelName acc token))
    as [page|e] eqn:Hget; cbn [bind].
  2:{ eexists. reflexivity. }
  destruct (processPage page) as [[pageResults token']|e] eqn:Hproc.
  2:{ eexists. reflexivity. }
  pose proof (Hpages _ _ _ _ _ Hget Hproc) as Hpage.
  destruct (Nat.leb_spec targetResults (List.length (acc ++ pageResults)))
    as [Hfull|Hmore]; cbn [orb]; [eexists; reflexivity|].
  destruct (truthy token'); cbn [negb]; [|eexists; reflexivity].
  destruct (IH (S n) (acc ++ pageResults) token' Hmore) as [[r issued] ->].
  { rewrite length_app in *. lia. }
  eexists. reflexivity.
Qed.

Lemma fetchPages_stalls (fuel n : nat) (acc : list JSValue) (token : JSValue) :
  stalls P ->
  List.length acc < targetResults ->
  fetchPages P userName channelName fuel n acc token = None.
Proof.
  intros Hstall. revert n acc token.
  induction fuel as [|fuel IH]; intros n acc token Hlen; [reflexivity|].
  cbn [fetchPages].
  destruct (Hstall (S n) (searchParams P userName channelName acc token))
    as (page & token' & -> & Hproc & Htok).
  cbn [bind]. rewrite Hproc, app_nil_r, Htok.
  destruct (Nat.leb_spec targetResults (List.length acc)) as [Hfull|_]; [lia|].
  cbn [orb negb]. rewrite (IH (S n) acc token' Hlen). reflexivity.
Qed.

End Paging.

Lemma searchTrace_pauses (n : nat) (p : SearchParams) (ps : list SearchParams) :
  List.length (filter isPause (searchTrace n (p :: ps))) = List.length (p :: ps) - 1.
Proof.
  revert n p. induction ps as [|p' ps IH]; intros n p; [reflexivity|].
  specialize (IH (S n) p').
  cbn [searchTrace filter isPause List.length] in *. rewrite IH. lia.
Qed.

Lemma targetResults_positive : List.length (@nil JSValue) < targetResults.
Proof. unfold targetResults. simpl. lia. Qed.

(** X5. Pacing of the search stage. Whenever the pagination loop ends, after
    any number of pages and whether it ends with the videos or with an
    error, the events it issued are the page requests numbered 1, 2, ... in
    order, with a pause of 500 ms between two consecutive requests and
    nowhere else: none before the first request, none after the last.  The
    first request carries the token [null]. *)
Theorem search_pacing (P : Platform) (userName channelName : JSValue)
  (fuel : nat) (r : result (list JSValue)) (issued : list Event) :
  fetchPages P userName channelName fuel 0 [] VNull = Some (r, issued) ->
  exists ps,
    issued = searchTrace 0 ps
    /\ 1 <= List.length ps <= fuel
    /\ option_map pageToken (hd_error ps) = Some VNull
    /\ List.length (filter isPause issued) = List.length ps - 1.
Proof.
  intros H.
  destruct (fetchPages_trace P userName channelName fuel 0 [] VNull r issued
              targetResults_positive H) as (ps & -> & Hlen & _).
  exists (searchParams P userName channelName [] VNull :: ps).
  split; [reflexivity|]. split; [cbn [List.length]; lia|].
  split; [reflexivity|].
  apply searchTrace_pauses.
Qed.

Lemma search_pacing_witness :
  exists ps,
    [ Search 1 {| q := "Artist ArtistOfficial"; maxResults := 50;
                  pageToken := VNull |};
      Sleep 500;
      Search 2 {| q := "Artist ArtistOfficial"; maxResults := 50;
                  pageToken := VStr "CDIQAA" |} ]
    = searchTrace 0 ps
    /\ 1 <= List.length ps <= 2
    /\ option_map pageToken (hd_error ps) = Some VNull
    /\ 1 = List.length ps - 1.
Proof.
  exact (search_pacing secondPageFails (VStr "Artist") (VStr "ArtistOfficial") 2
           (Throw (mkError "AxiosError" "Request failed with status code 403"))
           _ eq_refl).
Defined.

(** X6. Page size. Whenever the pagination loop ends, every search call it
    issued asked for at least one and at most fifty results, and every call
    carried the same query, the two names separated by a space. *)
Theorem page_size_bounds (P : Platform) (userName channelName : JSValue)
  (fuel : nat) (r : result (list JSValue)) (issued : list Event) :
  fetchPages P userName channelName fuel 0 [] VNull = Some (r, issued) ->
  forallb pageSized issued = true
  /\ Forall (fun p => q p = (toString (Number_toString P) userName ++ " "
                             ++ toString (Number_toString P) channelName)%string)
            (searchesOf issued).
Proof.
  intros H.
  destruct (fetchPages_trace P userName channelName fuel 0 [] VNull r issued
              targetResults_positive H) as (ps & -> & _ & Hall).
  destruct (searchTrace_pageSized P userName channelName 0 _ Hall) as [Hs ->].
  split; [exact Hs|].
  eapply Forall_impl; [|exact Hall]. intros p [Hq _]. exact Hq.
Qed.

Lemma page_size_bounds_witness :
  forallb pageSized
    [ Search 1 {| q := "Artist ArtistOfficial"; maxResults := 50;
                  pageToken := VNull |};
      Sleep 500;
      Search 2 {| q := "Artist ArtistOfficial"; maxResults := 50;
                  pageToken := VStr "next" |} ]
  = true
  /\ Forall (fun p => q p = "Artist ArtistOfficial")
            (searchesOf
               [ Search 1 {| q := "Artist ArtistOfficial"; maxResults := 50;
                             pageToken := VNull |};
                 Sleep 500;
                 Search 2 {| q := "Artist ArtistOfficial"; maxResults := 50;
                             pageToken := VStr "next" |} ]).
Proof.
  exact (page_size_bounds endlessPlatform (VStr "Artist") (VStr "ArtistOfficial") 2
           (Ok (found 50 ++ found 50)) _ eq_refl).
Defined.

Lemma mapM_normalize_complete (items : list JSValue) :
  forallb complete items = true ->
  mapM normalize items = Ok (map normalized items).
Proof.
  induction items as [|item items IH]; simpl; intros H; [reflexivity|].
  apply andb_prop in H as [Hi Hl].
  rewrite (normalize_complete item Hi). simpl. rewrite (IH Hl). reflexivity.
Qed.

Lemma videos_complete (n : nat) : forallb complete (videos n) = true.
Proof.
  unfold videos. generalize 1 as start.
  induction n as [|n IH]; intros start; [reflexivity|].
  cbn [seq map forallb]. rewrite IH. reflexivity.
Qed.

Lemma processPage_videos (n : nat) (token : JSValue) :
  processPage (pageOf (videos n) token) = Ok (found n, token).
Proof.
  unfold processPage, pageOf.
  cbn [get nullish bind prop lookup String.eqb Ascii.eqb Bool.eqb arrayMap].
  rewrite (mapM_normalize_complete _ (videos_complete n)). reflexivity.
Qed.

Lemma found_length (n : nat) : List.length (found n) = n.
Proof. unfold found, videos. rewrite !length_map, length_seq. reflexivity. Qed.

(** X7. Cap on the number of videos. When the endpoint never returns more
    items than a request asks for, a pagination that ends with the videos
    ends with at most 100 of them, whatever the number of pages, and the
    batch loop over them makes at most ten turns. *)
Theorem results_capped (P : Platform) (userName channelName : JSValue)
  (fuel : nat) (allSearchResults : list JSValue) (issued : list Event) :
  respectsMaxResults P ->
  fetchPages P userName channelName fuel 0 [] VNull
  = Some (Ok allSearchResults, issued) ->
  List.length allSearchResults <= 100
  /\ List.length (turns allSearchResults) <= 10.
Proof.
  intros Hcap H.
  pose proof (fetchPages_capped P userName channelName fuel 0 [] allSearchResults
                VNull issued Hcap targetResults_positive H) as Hlen.
  unfold targetResults in Hlen. split; [exact Hlen|].
  rewrite turns_count. unfold totalBatchesOf, batchSize. lia.
Qed.

Lemma endlessPlatform_respectsMaxResults : respectsMaxResults endlessPlatform.
Proof.
  intros n params page pageResults token Hget Hproc.
  cbn [axios_get endlessPlatform] in Hget. injection Hget as <-.
  rewrite processPage_videos in Hproc. injection Hproc as <- _.
  rewrite found_length. apply le_n.
Defined.

Lemma results_capped_witness :
  List.length (found 50 ++ found 50) <= 100
  /\ List.length (turns (found 50 ++ found 50)) <= 10.
Proof.
  exact (results_capped endlessPlatform (VStr "Artist") (VStr "ArtistOfficial") 2
           (found 50 ++ found 50) _ endlessPlatform_respectsMaxResults eq_refl).
Defined.

Lemma searchesOf_app (a b : list Event) :
  searchesOf (a ++ b) = searchesOf a ++ searchesOf b.
Proof.
  induction a as [|e a IH]; [reflexivity|].
  destruct e; cbn [app searchesOf]; rewrite IH; reflexivity.
Qed.

Lemma searchesOf_batchLoop (P : Platform) (userName channelName : JSValue)
  (allSearchResults : list JSValue) :
  searchesOf (events (batchLoop P userName channelName allSearchResults)) = [].
Proof.
  rewrite batchLoop_turns. cbn [events].
  induction (turns allSearchResults) as [|t ts IH]; [reflexivity|].
  cbn [flat_map]. rewrite searchesOf_app, IH. unfold eventsAt.
  destruct (isOk _ && _); reflexivity.
Qed.

Lemma searchesOf_searchTrace (n : nat) (ps : list SearchParams) :
  searchesOf (searchTrace n ps) = ps.
Proof.
  revert n. induction ps as [|p ps IH]; intros n; [reflexivity|].
  specialize (IH (S n)). cbn [searchTrace searchesOf].
  destruct ps as [|p' ps]; [reflexivity|].
  cbn [searchesOf]. rewrite IH. reflexivity.
Qed.

(** X8. Termination. When every page the endpoint returns has at least one
    item, every request is answered after at most 100 page requests: the
    handler answers with 100 page requests allowed, answers the same with
    any larger allowance, and the answer was preceded by at most 100 search
    calls. *)
Theorem pagination_ends (P : Platform) (req_body : JSValue) :
  pagesNotEmpty P ->
  exists response issued,
    (forall fuel, 100 <= fuel -> analyze P req_body fuel = Some (response, issued))
    /\ List.length (searchesOf issued) <= 100.
Proof.
  intros Hpages.
  assert (Hrun : exists response issued,
            analyze P req_body 100 = Some (response, issued)
            /\ List.length (searchesOf issued) <= 100).
  { unfold analyze, pipeline.
    destruct (destructure req_body) as [[userName channelName]|e];
      [|eexists _, _; split; [reflexivity|simpl; lia]].
    destruct (negb (truthy userName) || negb (truthy channelName));
      [eexists _, _; split; [reflexivity|simpl; lia]|].
    destruct (logStart userName channelName);
      [|eexists _, _; split; [reflexivity|simpl; lia]].
    destruct (negb (keyPresent (YOUTUBE_API_KEY P))
              || negb (keyPresent (OPENAI_API_KEY P))).
    { destruct (generateMockResults P userName channelName);
        eexists _, _; (split; [reflexivity|simpl; lia]). }
    destruct (fetchPages_ends P userName channelName 100 0 [] VNull Hpages
                targetResults_positive) as [[r searched] Hfetch];
      [unfold targetResults; simpl; lia|].
    rewrite Hfetch.
    destruct (fetchPages_trace P userName channelName 100 0 [] VNull r searched
                targetResults_positive Hfetch) as (ps & Htrace & Hlen & _).
    assert (Hsearched : List.length (searchesOf searched) <= 100).
    { rewrite Htrace, searchesOf_searchTrace. cbn [List.length]. lia. }
    destruct r as [allSearchResults|e];
      [|eexists _, _; split; [reflexivity|exact Hsearched]].
    destruct (List.length allSearchResults =? 0)%nat;
      [eexists _, _; split; [reflexivity|exact Hsearched]|].
    assert (Hboth : List.length
                      (searchesOf
                         (searched
                          ++ events (batchLoop P userName channelName
                                       allSearchResults))) <= 100).
    { rewrite searchesOf_app, searchesOf_batchLoop, app_nil_r. exact Hsearched. }
    destruct (combineAnalyses _ _);
      eexists _, _; (split; [reflexivity|exact Hboth]). }
  destruct Hrun as (response & issued & Hrun & Hcount).
  exists response, issued. split; [|exact Hcount].
  intros fuel Hfuel.
  replace fuel with (100 + (fuel - 100)) by lia.
  apply analyze_more_fuel. exact Hrun.
Qed.

Lemma tricklePlatform_pagesNotEmpty : pagesNotEmpty tricklePlatform.
Proof.
  intros n params page pageResults token Hget Hproc.
  cbn [axios_get tricklePlatform] in Hget. injection Hget as <-.
  unfold processPage, pageOf in Hproc.
  cbn [get nullish bind prop lookup String.eqb Ascii.eqb Bool.eqb arrayMap mapM]
    in Hproc.
  rewrite normalize_complete in Hproc by reflexivity.
  cbn [bind] in Hproc. injection Hproc as <- _. apply le_n.
Defined.

Lemma pagination_ends_witness :
  exists response issued,
    (forall fuel, 100 <= fuel ->
       analyze tricklePlatform sampleBody fuel = Some (response, issued))
    /\ List.length (searchesOf issued) <= 100.
Proof.
  exact (pagination_ends tricklePlatform sampleBody tricklePlatform_pagesNotEmpty).
Defined.

(** X9. No bound on the number of pages. The handler puts no limit on the
    page requests of one run: against an endpoint that keeps answering with
    an empty page and a continuation token, an accepted request outside
    mock mode is never answered, however many page requests are allowed. *)
Theorem pagination_may_not_end (P : Platform)
  (req_body userName channelName : JSValue) :
  accepted req_body userName channelName ->
  configured P ->
  stalls P ->
  forall fuel, analyze P req_body fuel = None.
Proof.
  intros Hacc Hconf Hstall fuel.
  rewrite (analyze_pipeline P req_body userName channelName fuel Hacc Hconf).
  unfold pipeline.
  rewrite (fetchPages_stalls P userName channelName fuel 0 [] VNull Hstall
             targetResults_positive).
  reflexivity.
Qed.

Lemma stallingPlatform_stalls : stalls stallingPlatform.
Proof.
  intros n params. exists (pageOf [] (VStr "next")), (VStr "next").
  repeat split.
Defined.

Lemma pagination_may_not_end_witness :
  analyze stallingPlatform sampleBody 1000 = None.
Proof.
  exact (pagination_may_not_end stallingPlatform sampleBody
           (VStr "Artist") (VStr "ArtistOfficial")
           sampleBody_accepted (conj eq_refl eq_refl) stallingPlatform_stalls
           1000).
Defined.

(** ** The handler: statuses, validation, outbound calls, order of the stages *)

Lemma toPrimitive_Ok (v : JSValue) :
  isOk (toPrimitive v) = convertible v.
Proof. unfold toPrimitive. destruct (convertible v); reflexivity. Qed.

Lemma logStart_Ok (userName channelName : JSValue) :
  isOk (logStart userName channelName)
  = convertible userName && convertible channelName.
Proof.
  unfold logStart, toPrimitive.
  destruct (convertible userName); [|reflexivity].
  destruct (convertible channelName); reflexivity.
Qed.

Lemma append_not_empty (a b : string) : a <> ""%string -> (a ++ b)%string <> ""%string.
Proof. destruct a; [congruence|discriminate]. Qed.

(** X10. Statuses. Every answer of the handler carries one of the statuses 200,
    400, 404 and 500, and every answer that is not a 200 carries a string
    [error] that is not empty. *)
Theorem answer_statuses (P : Platform) (req_body : JSValue) (fuel : nat)
  (response : Response) (issued : list Event) :
  analyze P req_body fuel = Some (response, issued) ->
  In (status response) [200; 400; 404; 500]
  /\ (status response <> 200 ->
      exists msg, prop (body response) "error" = VStr msg /\ msg <> ""%string).
Proof.
  assert (H500 : forall e,
            In (status (unexpected e)) [200; 400; 404; 500]
            /\ (status (unexpected e) <> 200 ->
                exists msg, prop (body (unexpected e)) "error" = VStr msg
                            /\ msg <> ""%string)).
  { intros e. split; [simpl; tauto|]. intros _. eexists. split; [reflexivity|].
    discriminate. }
  unfold analyze, pipeline. intros H.
  destruct (destructure req_body) as [[userName channelName]|e].
  2:{ injection H as <- _. apply H500. }
  destruct (negb (truthy userName) || negb (truthy channelName)).
  { injection H as <- _. split; [simpl; tauto|]. intros _.
    eexists. split; [reflexivity|discriminate]. }
  destruct (logStart userName channelName).
  2:{ injection H as <- _. apply H500. }
  destruct (negb (keyPresent (YOUTUBE_API_KEY P))
            || negb (keyPresent (OPENAI_API_KEY P))).
  { destruct (generateMockResults P userName channelName).
    - injection H as <- _. split; [simpl; tauto|]. intros Hs. contradiction Hs.
      reflexivity.
    - injection H as <- _. apply H500. }
  destruct (fetchPages P userName channelName fuel 0 [] VNull)
    as [[[allSearchResults|e] searched]|]; [| |discriminate].
  - destruct (List.length allSearchResults =? 0)%nat.
    { injection H as <- _. split; [simpl; tauto|]. intros _.
      eexists. split; [reflexivity|discriminate]. }
    destruct (combineAnalyses _ _).
    + injection H as <- _. split; [simpl; tauto|]. intros Hs. contradiction Hs.
      reflexivity.
    + injection H as <- _. apply H500.
  - injection H as <- _. split; [simpl; tauto|]. intros _.
    exists ("YouTube API error: " ++ message e)%string.
    split; [reflexivity|]. apply append_not_empty. discriminate.
Qed.

Lemma answer_statuses_witness :
  In 500 [200; 400; 404; 500]
  /\ (500 <> 200 ->
      exists msg,
        prop (errorBody
                "YouTube API error: Cannot read properties of undefined (reading 'title')")
             "error" = VStr msg
        /\ msg <> ""%string).
Proof.
  exact (answer_statuses barePlatform sampleBody 1 _ _ eq_refl).
Defined.

(** X11. Validation. A request is answered 400 exactly when its body is an
    object in which one of the two names is missing or falsy; this holds
    in mock mode as outside it, and such a request causes no outbound
    call. *)
Theorem rejected_iff_name_falsy (P : Platform) (req_body : JSValue) (fuel : nat) :
  (status (responseOf (analyze P req_body fuel)) = 400
   <-> nullish req_body = false
       /\ truthy (prop req_body "userName")
          && truthy (prop req_body "channelName") = false)
  /\ (status (responseOf (analyze P req_body fuel)) = 400 ->
      analyze P req_body fuel
      = Some ({| status := 400;
                 body := errorBody "User name and channel name are required" |},
              [])).
Proof.
  unfold analyze, destructure, pipeline.
  destruct (nullish req_body).
  { cbn [responseOf status unexpected]. split; [split|]; intros H;
      try discriminate. destruct H; discriminate. }
  destruct (truthy (prop req_body "userName"));
    destruct (truthy (prop req_body "channelName"));
    cbn [negb orb andb responseOf status];
    try (split; [split; [intros _; split; reflexivity|reflexivity]|reflexivity]).
  assert (Hno : forall run : option (Response * list Event),
            status (responseOf run) <> 400 ->
            (status (responseOf run) = 400 <-> false = false /\ true = false)
            /\ (status (responseOf run) = 400 ->
                run = Some ({| status := 400;
                               body := errorBody
                                         "User name and channel name are required" |},
                            []))).
  { intros run Hne. split; [split|]; intros H; try contradiction.
    destruct H; discriminate. }
  apply Hno.
  destruct (logStart _ _); [|discriminate].
  destruct (negb (keyPresent (YOUTUBE_API_KEY P))
            || negb (keyPresent (OPENAI_API_KEY P))).
  { destruct (generateMockResults _ _ _); discriminate. }
  destruct (fetchPages _ _ _ _ _ _ _)
    as [[[allSearchResults|e] searched]|]; try discriminate.
  destruct (List.length allSearchResults =? 0)%nat; [discriminate|].
  destruct (combineAnalyses _ _); discriminate.
Qed.

Lemma analyze_goesOut (P : Platform) (req_body : JSValue) (fuel : nat) :
  goesOut P req_body = true ->
  analyze P req_body fuel
  = pipeline P (prop req_body "userName") (prop req_body "channelName") fuel.
Proof.
  unfold goesOut, mockMode, analyze, destructure, logStart, toPrimitive.
  intros H. repeat (apply andb_prop in H as [H ?]).
  destruct (nullish req_body); [discriminate|].
  repeat match goal with
         | [ E : ?b = true |- _ ] => rewrite E; clear E
         end.
  cbn [negb orb bind].
  destruct (negb (keyPresent (YOUTUBE_API_KEY P))
            || negb (keyPresent (OPENAI_API_KEY P))); [discriminate|reflexivity].
Qed.

Lemma analyze_stays_in (P : Platform) (req_body : JSValue) (fuel : nat) :
  goesOut P req_body = false ->
  exists response, analyze P req_body fuel = Some (response, []).
Proof.
  unfold goesOut, mockMode, analyze, destructure, logStart, toPrimitive.
  destruct (nullish req_body); [eexists; reflexivity|].
  destruct (truthy (prop req_body "userName")); [|eexists; reflexivity].
  destruct (truthy (prop req_body "channelName")); [|eexists; reflexivity].
  cbn [negb orb andb].
  destruct (convertible (prop req_body "userName")); [|eexists; reflexivity].
  destruct (convertible (prop req_body "channelName")); [|eexists; reflexivity].
  cbn [bind andb].
  destruct (negb (keyPresent (YOUTUBE_API_KEY P))
            || negb (keyPresent (OPENAI_API_KEY P))); [|discriminate].
  intros _.
  destruct (generateMockResults P _ _); eexists; reflexivity.
Qed.

Lemma pipeline_issued (P : Platform) (userName channelName : JSValue) (fuel : nat)
  (response : Response) (issued : list Event) :
  pipeline P userName channelName fuel = Some (response, issued) ->
  exists r searched classified,
    fetchPages P userName channelName fuel 0 [] VNull = Some (r, searched)
    /\ issued = searched ++ classified
    /\ match r with
       | Throw youtubeError =>
           classified = []
           /\ response
              = {| status := 500;
                   body := errorBody ("YouTube API error: "
                                      ++ message youtubeError) |}
       | Ok allSearchResults =>
           if (List.length allSearchResults =? 0)%nat
           then classified = []
                /\ response
                   = {| status := 404;
                        body := errorBody "No videos found for this channel" |}
           else classified
                = events (batchLoop P userName channelName allSearchResults)
                /\ response
                   = match combineAnalyses
                             (allAnalyses (batchLoop P userName channelName
                                             allSearchResults))
                             (List.length allSearchResults) with
                     | Ok finalAnalysis =>
                         {| status := 200;
                            body := report userName channelName allSearchResults
                                      (batchLoop P userName channelName
                                         allSearchResults)
                                      finalAnalysis |}
                     | Throw error => unexpected error
                     end
       end.
Proof.
  unfold pipeline. intros H.
  destruct (fetchPages P userName channelName fuel 0 [] VNull)
    as [[[allSearchResults|e] searched]|]; [| |discriminate].
  - destruct (List.length allSearchResults =? 0)%nat eqn:E.
    + injection H as <- <-. exists (Ok allSearchResults), searched, [].
      rewrite app_nil_r, E. repeat split.
    + exists (Ok allSearchResults), searched,
        (events (batchLoop P userName channelName allSearchResults)).
      rewrite E. split; [reflexivity|].
      destruct (combineAnalyses _ _); injection H as <- <-; repeat split.
  - injection H as <- <-. exists (Throw e), searched, [].
    rewrite app_nil_r. repeat split.
Qed.

Lemma searchTrace_ofSearchStage (n : nat) (ps : list SearchParams) :
  forallb ofSearchStage (searchTrace n ps) = true.
Proof.
  revert n. induction ps as [|p ps IH]; intros n; [reflexivity|].
  specialize (IH (S n)). cbn [searchTrace forallb ofSearchStage].
  destruct ps as [|p' ps]; [reflexivity|].
  cbn [forallb ofSearchStage Nat.eqb andb]. exact IH.
Qed.

Lemma batchLoop_ofBatchStage (P : Platform) (userName channelName : JSValue)
  (allSearchResults : list JSValue) :
  forallb ofBatchStage (events (batchLoop P userName channelName allSearchResults))
  = true.
Proof.
  rewrite batchLoop_turns. cbn [events].
  induction (turns allSearchResults) as [|t ts IH]; [reflexivity|].
  cbn [flat_map]. rewrite forallb_app, IH. unfold eventsAt.
  destruct (isOk _ && _); reflexivity.
Qed.

(** X12. Outbound calls. A request that is answered caused no outbound call
    and no timer exactly when it did not reach the search stage: its body
    is [null] or [undefined], a name is falsy or cannot be rendered, or a
    key is missing (mock mode).  Every other answered request starts with
    page request number 1, which asks for fifty results for the two names
    and carries the token [null]. *)
Theorem first_call_is_a_search (P : Platform) (req_body : JSValue) (fuel : nat)
  (response : Response) (issued : list Event) :
  analyze P req_body fuel = Some (response, issued) ->
  if goesOut P req_body
  then exists rest,
         issued
         = Search 1 {| q := toString (Number_toString P) (prop req_body "userName")
                            ++ " "
                            ++ toString (Number_toString P)
                                 (prop req_body "channelName");
                       maxResults := 50;
                       pageToken := VNull |}
           :: rest
  else issued = [].
Proof.
  intros H. destruct (goesOut P req_body) eqn:Hgo.
  - rewrite (analyze_goesOut P req_body fuel Hgo) in H.
    destruct (pipeline_issued _ _ _ _ _ _ H)
      as (r & searched & classified & Hfetch & -> & _).
    destruct (fetchPages_trace _ _ _ _ _ _ _ _ _ targetResults_positive Hfetch)
      as (ps & -> & _ & _).
    cbn [searchTrace app]. eexists. reflexivity.
  - destruct (analyze_stays_in P req_body fuel Hgo) as [response' H'].
    rewrite H' in H. injection H as _ <-. reflexivity.
Qed.

Lemma first_call_is_a_search_witness :
  exists rest,
    [ firstSearch;
      classifyCall 1 2 (firstn 10 (found 11));
      classifyCall 2 2 (skipn 10 (found 11)) ]
    = Search 1 {| q := "Artist ArtistOfficial"; maxResults := 50;
                  pageToken := VNull |}
      :: rest.
Proof.
  exact (first_call_is_a_search flakyPlatform sampleBody 1 _ _ eq_refl).
Defined.

(** X13. Order of the stages. The events of an answered request are those of
    the search stage (page requests and pauses of 500 ms) followed by those
    of the classification stage (classification calls and pauses of 1000
    ms): no page is requested once a batch has been sent.  A request
    answered 400 or 404, or answered 500 for a failed page request, caused
    no classification call. *)
Theorem search_precedes_classification (P : Platform) (req_body : JSValue)
  (fuel : nat) (response : Response) (issued : list Event) :
  analyze P req_body fuel = Some (response, issued) ->
  exists searched classified,
    issued = searched ++ classified
    /\ forallb ofSearchStage searched = true
    /\ forallb ofBatchStage classified = true
    /\ (In (status response) [400; 404]
        \/ prop (body response) "details" = VUndefined /\ status response = 500 ->
        classified = []).
Proof.
  intros H. destruct (goesOut P req_body) eqn:Hgo.
  - rewrite (analyze_goesOut P req_body fuel Hgo) in H.
    destruct (pipeline_issued _ _ _ _ _ _ H)
      as (r & searched & classified & Hfetch & -> & Hr).
    destruct (fetchPages_trace _ _ _ _ _ _ _ _ _ targetResults_positive Hfetch)
      as (ps & Htrace & _ & _).
    exists searched, classified. split; [reflexivity|].
    split; [rewrite Htrace; apply searchTrace_ofSearchStage|].
    destruct r as [allSearchResults|e].
    + destruct (List.length allSearchResults =? 0)%nat.
      * destruct Hr as [-> _]. split; [reflexivity|]. intros _. reflexivity.
      * destruct Hr as [-> ->].
        split; [apply batchLoop_ofBatchStage|].
        destruct (combineAnalyses _ _); cbn [status body unexpected report];
          intros [[Hs|[Hs|[]]]|[Hd Hs]]; discriminate.
    + destruct Hr as [-> _]. split; [reflexivity|]. intros _. reflexivity.
  - destruct (analyze_stays_in P req_body fuel Hgo) as [response' H'].
    rewrite H' in H. injection H as _ <-.
    exists [], []. repeat split.
Qed.

Lemma search_precedes_classification_witness :
  exists searched classified,
    [ firstSearch;
      classifyCall 1 2 (firstn 10 (found 11));
      Sleep 1000;
      classifyCall 2 2 (skipn 10 (found 11)) ]
    = searched ++ classified
    /\ forallb ofSearchStage searched = true
    /\ forallb ofBatchStage classified = true
    /\ (In (status (responseOf (analyze steadyPlatform sampleBody 1))) [400; 404]
        \/ prop (body (responseOf (analyze steadyPlatform sampleBody 1))) "details"
           = VUndefined
           /\ status (responseOf (analyze steadyPlatform sampleBody 1)) = 500 ->
        classified = []).
Proof.
  exact (search_precedes_classification steadyPlatform sampleBody 1 _ _ eq_refl).
Defined.

(** ** The report of the real pipeline and the pauses of the batch loop *)

Lemma mockMode_goesOut (P : Platform) (req_body : JSValue) (fuel : nat)
  (response : Response) (issued : list Event) :
  mockMode P = false ->
  analyze P req_body fuel = Some (response, issued) ->
  status response = 200 ->
  goesOut P req_body = true.
Proof.
  intros Hmock H Hs.
  destruct (goesOut P req_body) eqn:Hgo; [reflexivity|]. exfalso.
  revert H Hgo.
  unfold goesOut, analyze, destructure, logStart, toPrimitive.
  rewrite Hmock. unfold mockMode in Hmock. rewrite Hmock.
  destruct (nullish req_body).
  { intros H _. injection H as <- _. discriminate. }
  destruct (truthy (prop req_body "userName")), (truthy (prop req_body "channelName"));
    cbn [negb orb andb];
    try (intros H _; injection H as <- _; discriminate).
  destruct (convertible (prop req_body "userName")),
           (convertible (prop req_body "channelName"));
    cbn [bind andb]; try discriminate;
    intros H _; injection H as <- _; discriminate.
Qed.

(** X14. Accounting of the report. Outside mock mode, every report sent with
    status 200 echoes the two names of the request, holds at least one
    video, and agrees with itself and with the calls made: with N the
    number of videos in [searchResults], [totalVideosFound] is N;
    [batchesAnalyzed] and [batch_count] of the analysis are ceil(N/10), as
    is the number of classification calls issued; and [batchesFailed] is
    the length of [failedBatchDetails], which is at most ceil(N/10). *)
Theorem report_accounting (P : Platform) (req_body : JSValue) (fuel : nat)
  (response : Response) (issued : list Event) :
  mockMode P = false ->
  analyze P req_body fuel = Some (response, issued) ->
  status response = 200 ->
  exists allSearchResults details,
    prop (body response) "userName" = prop req_body "userName"
    /\ prop (body response) "query" = prop req_body "channelName"
    /\ prop (body response) "searchResults" = VArr allSearchResults
    /\ 1 <= List.length allSearchResults
    /\ prop (body response) "totalVideosFound"
       = VNum (ofNat (List.length allSearchResults))
    /\ prop (body response) "batchesAnalyzed"
       = VNum (ofNat (totalBatchesOf (List.length allSearchResults)))
    /\ prop (prop (body response) "analysis") "batch_count"
       = VNum (ofNat (totalBatchesOf (List.length allSearchResults)))
    /\ List.length (filter isClassify issued)
       = totalBatchesOf (List.length allSearchResults)
    /\ prop (body response) "failedBatchDetails" = VArr details
    /\ prop (body response) "batchesFailed" = VNum (ofNat (List.length details))
    /\ List.length details <= totalBatchesOf (List.length allSearchResults).
Proof.
  intros Hmock H Hs.
  pose proof (mockMode_goesOut P req_body fuel response issued Hmock H Hs) as Hgo.
  rewrite (analyze_goesOut P req_body fuel Hgo) in H.
  destruct (pipeline_issued _ _ _ _ _ _ H)
    as (r & searched & classified & Hfetch & -> & Hr).
  destruct (fetchPages_trace _ _ _ _ _ _ _ _ _ targetResults_positive Hfetch)
    as (ps & Htrace & _ & _).
  destruct r as [allSearchResults|e]; [|destruct Hr as [_ ->]; discriminate].
  destruct (Nat.eqb_spec (List.length allSearchResults) 0) as [|Hpos];
    [destruct Hr as [_ ->]; discriminate|].
  destruct Hr as [-> ->].
  destruct (combineAnalyses _ _) as [final|e] eqn:E; [|discriminate].
  apply combineAnalyses_Ok in E. subst final.
  assert (Hsearched : filter isClassify searched = []).
  { rewrite Htrace. clear.
    generalize (searchParams P (prop req_body "userName")
                  (prop req_body "channelName") [] VNull :: ps) as l.
    generalize 0 as n. intros n l. revert n.
    induction l as [|p l IH]; intros n; [reflexivity|].
    specialize (IH (S n)). cbn [searchTrace filter isClassify].
    destruct l as [|p' l]; [reflexivity|]. exact IH. }
  rewrite batchLoop_turns.
  cbn [allAnalyses failedBatches events].
  exists allSearchResults,
    (flat_map (detailAt P (prop req_body "userName") (prop req_body "channelName")
                 allSearchResults)
              (turns allSearchResults)).
  cbn [body report prop lookup String.eqb Ascii.eqb Bool.eqb merged].
  rewrite !length_map, !turns_count.
  repeat split; try reflexivity.
  - lia.
  - cbn [allAnalyses]. rewrite length_map, turns_count. reflexivity.
  - rewrite filter_app, Hsearched, classify_calls. cbn [app].
    rewrite length_map, turns_count. reflexivity.
  - rewrite details_failed, <- turns_count.
    rewrite <- (length_map (outcome P (prop req_body "userName")
                              (prop req_body "channelName") allSearchResults)
                           (turns allSearchResults)).
    apply filter_length_le.
Qed.

Lemma report_accounting_witness :
  exists allSearchResults details,
    prop (body (responseOf (analyze flakyPlatform sampleBody 1))) "userName"
    = prop sampleBody "userName"
    /\ prop (body (responseOf (analyze flakyPlatform sampleBody 1))) "query"
       = prop sampleBody "channelName"
    /\ prop (body (responseOf (analyze flakyPlatform sampleBody 1))) "searchResults"
       = VArr allSearchResults
    /\ 1 <= List.length allSearchResults
    /\ prop (body (responseOf (analyze flakyPlatform sampleBody 1)))
            "totalVideosFound"
       = VNum (ofNat (List.length allSearchResults))
    /\ prop (body (responseOf (analyze flakyPlatform sampleBody 1)))
            "batchesAnalyzed"
       = VNum (ofNat (totalBatchesOf (List.length allSearchResults)))
    /\ prop (prop (body (responseOf (analyze flakyPlatform sampleBody 1)))
                  "analysis") "batch_count"
       = VNum (ofNat (totalBatchesOf (List.length allSearchResults)))
    /\ List.length (filter isClassify
                      (issuedBy (analyze flakyPlatform sampleBody 1)))
       = totalBatchesOf (List.length allSearchResults)
    /\ prop (body (responseOf (analyze flakyPlatform sampleBody 1)))
            "failedBatchDetails" = VArr details
    /\ prop (body (responseOf (analyze flakyPlatform sampleBody 1)))
            "batchesFailed" = VNum (ofNat (List.length details))
    /\ List.length details <= totalBatchesOf (List.length allSearchResults).
Proof.
  exact (report_accounting flakyPlatform sampleBody 1 _ _ eq_refl eq_refl eq_refl).
Defined.

Section Pauses.
Variable P : Platform.
Variables userName channelName : JSValue.
Variable allSearchResults : list JSValue.

Lemma more_batches (t : Turn) :
  index t = (batchNumber t - 1) * batchSize ->
  1 <= batchNumber t ->
  (index t + batchSize <? List.length allSearchResults)%nat
  = (batchNumber t <? totalBatchesOf (List.length allSearchResults))%nat.
Proof.
  intros Hi Hn. unfold totalBatchesOf, batchSize in *.
  destruct (Nat.ltb_spec (index t + 10) (List.length allSearchResults));
    destruct (Nat.ltb_spec (batchNumber t)
                ((List.length allSearchResults + (10 - 1)) / 10));
    trivial; lia.
Qed.

Lemma pauses_of_turns (ts : list Turn) :
  Forall (fun t => index t = (batchNumber t - 1) * batchSize
                   /\ 1 <= batchNumber t
                   /\ batch t = slice (index t) (index t + batchSize) allSearchResults
                   /\ index t < List.length allSearchResults) ts ->
  List.length
    (filter isPause (flat_map (eventsAt P userName channelName allSearchResults) ts))
  = List.length
      (filter (fun t => isOk (outcome P userName channelName allSearchResults t)
                        && (batchNumber t
                            <? totalBatchesOf (List.length allSearchResults))%nat)
              ts).
Proof.
  induction 1 as [|t ts (Hi & Hn & _ & _) _ IH]; [reflexivity|].
  cbn [flat_map filter]. rewrite filter_app, length_app, IH.
  unfold eventsAt. rewrite (more_batches t Hi Hn).
  destruct (isOk _ && _); reflexivity.
Qed.

End Pauses.

Lemma events_of_turns (P : Platform) (userName channelName : JSValue)
  (allSearchResults : list JSValue) (ts : list Turn) :
  Forall (fun t => index t = (batchNumber t - 1) * batchSize
                   /\ 1 <= batchNumber t
                   /\ batch t = slice (index t) (index t + batchSize) allSearchResults
                   /\ index t < List.length allSearchResults) ts ->
  flat_map (eventsAt P userName channelName allSearchResults) ts
  = flat_map
      (fun t =>
         Classify {| original_title := userName;
                     original_channel_title := channelName;
                     batchResults := batch t;
                     batchOrdinal := batchNumber t;
                     batchTotal := totalBatchesOf (List.length allSearchResults) |}
         :: (if isOk (outcome P userName channelName allSearchResults t)
                && (batchNumber t
                    <? totalBatchesOf (List.length allSearchResults))%nat
             then [Sleep 1000] else []))
      ts.
Proof.
  induction 1 as [|t ts (Hi & Hn & _ & _) _ IH]; [reflexivity|].
  cbn [flat_map]. rewrite IH. unfold eventsAt at 1, requestOf.
  rewrite (more_batches allSearchResults t Hi Hn). reflexivity.
Qed.

Lemma pause_after_call (request : Turn -> ChatRequest) (pausing : Turn -> bool)
  (ts : list Turn) (before : list Event) (ms : nat) (after : list Event) :
  flat_map (fun t => Classify (request t)
                     :: (if pausing t then [Sleep 1000] else [])) ts
  = before ++ Sleep ms :: after ->
  exists earlier t later,
    ts = earlier ++ t :: later
    /\ pausing t = true
    /\ ms = 1000
    /\ exists front, before = front ++ [Classify (request t)].
Proof.
  revert before.
  induction ts as [|t ts IH]; intros before H; cbn [flat_map] in H.
  - destruct before; discriminate.
  - destruct before as [|e before]; [discriminate|].
    cbn [app] in H. injection H as <- H.
    destruct (pausing t) eqn:Hp; cbn [app] in H.
    + destruct before as [|e before]; cbn [app] in H.
      * injection H as <- _.
        exists [], t, ts. repeat split; trivial. exists []. reflexivity.
      * injection H as <- H.
        destruct (IH _ H) as (earlier & t' & later & -> & Hp' & -> & front & ->).
        exists (t :: earlier), t', later. repeat split; trivial.
        exists (Classify (request t) :: Sleep 1000 :: front). reflexivity.
    + destruct (IH _ H) as (earlier & t' & later & -> & Hp' & -> & front & ->).
      exists (t :: earlier), t', later. repeat split; trivial.
      exists (Classify (request t) :: front). reflexivity.
Qed.

(** X15. Pauses of the batch loop. For every fetched sequence and whatever the
    classification calls do, the events of the loop are, batch by batch in
    order, the classification call of the batch, followed at once by a
    pause of 1000 ms exactly when the batch was analyzed without an error
    and is not the last batch.  So every pause directly follows a call that
    returned (the call just before it in the trace is that of a batch
    analyzed without an error), a failed batch is followed by no pause, and
    nothing is waited for before the first call or after the last one.
    The pauses are as
    many as the batches analyzed without an error that are not the last,
    and the last event of the loop is the classification call of the last
    batch. *)
Theorem pauses_follow_successes (P : Platform) (userName channelName : JSValue)
  (allSearchResults : list JSValue) :
  events (batchLoop P userName channelName allSearchResults)
  = flat_map
      (fun t =>
         Classify {| original_title := userName;
                     original_channel_title := channelName;
                     batchResults := batch t;
                     batchOrdinal := batchNumber t;
                     batchTotal := totalBatchesOf (List.length allSearchResults) |}
         :: (if isOk (outcome P userName channelName allSearchResults t)
                && (batchNumber t
                    <? totalBatchesOf (List.length allSearchResults))%nat
             then [Sleep 1000] else []))
      (turns allSearchResults)
  /\ List.length
       (filter isPause (events (batchLoop P userName channelName allSearchResults)))
     = List.length
         (filter (fun t => isOk (outcome P userName channelName allSearchResults t)
                           && (batchNumber t
                               <? totalBatchesOf (List.length allSearchResults))%nat)
                 (turns allSearchResults))
  /\ (forall before ms after,
        events (batchLoop P userName channelName allSearchResults)
        = before ++ Sleep ms :: after ->
        exists earlier t later,
          turns allSearchResults = earlier ++ t :: later
          /\ isOk (outcome P userName channelName allSearchResults t) = true
          /\ batchNumber t < totalBatchesOf (List.length allSearchResults)
          /\ ms = 1000
          /\ exists front,
               before
               = front
                 ++ [Classify {| original_title := userName;
                                 original_channel_title := channelName;
                                 batchResults := batch t;
                                 batchOrdinal := batchNumber t;
                                 batchTotal :=
                                   totalBatchesOf (List.length allSearchResults) |}])
  /\ (allSearchResults <> [] ->
      exists front request,
        events (batchLoop P userName channelName allSearchResults)
        = front ++ [Classify request]
        /\ batchOrdinal request = totalBatchesOf (List.length allSearchResults)).
Proof.
  pose proof (turnsFrom_index (List.length allSearchResults) 0 allSearchResults)
    as Hidx.
  pose proof (turnsFrom_numbers (List.length allSearchResults) 0 allSearchResults)
    as Hnum.
  pose proof (turns_count allSearchResults) as Hcount.
  change (turnsFrom (List.length allSearchResults) (0 * batchSize) allSearchResults)
    with (turns allSearchResults) in Hidx, Hnum.
  rewrite batchLoop_turns. cbn [events].
  split; [apply events_of_turns; exact Hidx|].
  split; [apply pauses_of_turns; exact Hidx|].
  split.
  { intros before ms after H.
    rewrite (events_of_turns P userName channelName allSearchResults _ Hidx) in H.
    destruct (pause_after_call _ _ _ _ _ _ H)
      as (earlier & t & later & Hts & Hc & -> & front & ->).
    apply andb_prop in Hc as [Hok Hlt]. apply Nat.ltb_lt in Hlt.
    exists earlier, t, later. repeat split; trivial.
    exists front. reflexivity. }
  intros Hne.
  destruct (turns allSearchResults) as [|t0 ts0] eqn:Hturns.
  { exfalso. destruct allSearchResults; [congruence|].
    unfold totalBatchesOf, batchSize in Hcount. cbn [List.length] in Hcount. lia. }
  destruct (@exists_last _ (t0 :: ts0)) as (ts & t & Hlast); [discriminate|].
  rewrite Hlast in *. clear Hlast.
  rewrite map_app, length_app in Hnum. cbn [map List.length] in Hnum.
  rewrite Nat.add_1_r, seq_S in Hnum.
  apply app_inj_tail in Hnum as [_ Hn]. cbn [Nat.add] in Hn.
  rewrite length_app in Hcount. cbn [List.length] in Hcount.
  apply Forall_app in Hidx as [_ Ht].
  inversion Ht as [|? ? (Hi & Hpos & _ & _) _]; subst.
  rewrite flat_map_app. cbn [flat_map]. rewrite app_nil_r.
  unfold eventsAt at 2. rewrite (more_batches allSearchResults t Hi Hpos).
  replace (batchNumber t <? totalBatchesOf (List.length allSearchResults))%nat
    with false by (symmetry; apply Nat.ltb_ge; lia).
  rewrite andb_false_r.
  exists (flat_map (eventsAt P userName channelName allSearchResults) ts),
    (requestOf userName channelName allSearchResults t).
  split; [reflexivity|]. cbn [batchOrdinal requestOf]. lia.
Qed.

(** ** The failure records of the batch loop *)

Section FailureRecords.
Variable P : Platform.
Variables userName channelName : JSValue.
Variable allSearchResults : list JSValue.

Lemma details_of_turns (ts : list Turn) :
  Forall (fun t => index t = (batchNumber t - 1) * batchSize
                   /\ 1 <= batchNumber t
                   /\ batch t = slice (index t) (index t + batchSize) allSearchResults
                   /\ index t < List.length allSearchResults) ts ->
  Forall2
    (fun t d =>
       exists openaiError,
         outcome P userName channelName allSearchResults t = Throw openaiError
         /\ d = VObj [ ("batchNumber", VNum (ofNat (batchNumber t)));
                       ("error", VStr (message openaiError));
                       ("videosInBatch", VNum (ofNat (List.length (batch t)))) ]
         /\ 1 <= List.length (batch t) <= batchSize)
    (filter (fun t => isThrow (outcome P userName channelName allSearchResults t)) ts)
    (flat_map (detailAt P userName channelName allSearchResults) ts).
Proof.
  induction 1 as [|t ts (Hi & Hn & Hb & Hlt) _ IH]; [constructor|].
  cbn [filter flat_map]. unfold detailAt at 1.
  destruct (outcome P userName channelName allSearchResults t) as [a|e] eqn:E;
    cbn [isThrow isOk negb app]; [exact IH|].
  constructor; [|exact IH].
  exists e. split; [exact E|]. split; [reflexivity|].
  rewrite Hb. unfold slice.
  rewrite length_firstn, length_skipn. unfold batchSize. lia.
Qed.

End FailureRecords.

(** X16. Failure records. For every fetched sequence and whatever the
    classification calls do, [failedBatchDetails] holds one record for each
    batch whose call or parse threw, and no other, in batch order; the
    record carries the ordinal of the batch, the message of the error that
    was thrown, and the number of videos of the batch, which is between 1
    and 10; and there is one analysis per batch, failed or not. *)
Theorem failure_records_identify_batches (P : Platform)
  (userName channelName : JSValue) (allSearchResults : list JSValue) :
  Forall2
    (fun t d =>
       exists openaiError,
         outcome P userName channelName allSearchResults t = Throw openaiError
         /\ d = VObj [ ("batchNumber", VNum (ofNat (batchNumber t)));
                       ("error", VStr (message openaiError));
                       ("videosInBatch", VNum (ofNat (List.length (batch t)))) ]
         /\ 1 <= List.length (batch t) <= batchSize)
    (filter (fun t => isThrow (outcome P userName channelName allSearchResults t))
            (turns allSearchResults))
    (failedBatches (batchLoop P userName channelName allSearchResults))
  /\ List.length (allAnalyses (batchLoop P userName channelName allSearchResults))
     = totalBatchesOf (List.length allSearchResults).
Proof.
  rewrite batchLoop_turns. cbn [failedBatches allAnalyses].
  split.
  - apply details_of_turns.
    exact (turnsFrom_index (List.length allSearchResults) 0 allSearchResults).
  - rewrite length_map. apply turns_count.
Qed.

(** ** The mock report of [generateMockResults] *)

Lemma mapM_Forall2 {A B : Type} (f : A -> result B) (l : list A) (ys : list B) :
  mapM f l = Ok ys -> Forall2 (fun x y => f x = Ok y) l ys.
Proof.
  revert ys. induction l as [|x l IH]; simpl; intros ys H.
  - injection H as <-. constructor.
  - destruct (f x) as [y|e] eqn:E; [|discriminate]. cbn [bind] in H.
    destruct (mapM f l) as [ys'|e]; [|discriminate]. cbn [bind] in H.
    injection H as <-. constructor; [exact E|apply IH; reflexivity].
Qed.

Lemma Forall2_head {A B : Type} (R : A -> B -> Prop) (x : A) (l : list A)
  (ys : list B) :
  Forall2 R (x :: l) ys -> exists y ys', ys = y :: ys' /\ R x y /\ Forall2 R l ys'.
Proof. intros H. inversion H; subst. eexists _, _. repeat split; eassumption. Qed.

Lemma mockVideo_fields (P : Platform) (userName channelName : JSValue) (i : nat)
  (r : JSValue) :
  mockVideo P userName channelName i = Ok r ->
  prop r "videoId" = VStr ("mock_video_" ++ decimal i)
  /\ prop r "channelTitle"
     = (if (i mod 5 =? 0)%nat then channelName
        else VStr ("Other Channel " ++ decimal i))
  /\ keys r = map fst fieldMap.
Proof.
  unfold mockVideo. intros H.
  destruct (toISOString _) as [publishedAt|e]; [|discriminate]. cbn [bind] in H.
  destruct (toISOString _) as [publishTime|e]; [|discriminate]. cbn [bind] in H.
  injection H as <-. repeat split.
Qed.

(** X17. The mock report. Whenever [generateMockResults] returns, for any two
    names and any clock, its report holds 100 videos with the eight fields
    of a normalized record and the ids mock_video_1 to mock_video_100, every
    fifth of them on the named channel and the others on a channel of
    their own; the ranked list ranks the first twenty of them in order,
    five High, then five Medium, then ten Low, so it is sorted by
    severity; and [top_priority] lists the ids of the High entries. *)
Theorem mock_report_contents (P : Platform) (userName channelName : JSValue)
  (mockResults : JSValue) :
  generateMockResults P userName channelName = Ok mockResults ->
  exists searchResults ranked,
    prop mockResults "searchResults" = VArr searchResults
    /\ Forall2 (fun i r =>
                  prop r "videoId" = VStr ("mock_video_" ++ decimal i)
                  /\ prop r "channelTitle"
                     = (if (i mod 5 =? 0)%nat then channelName
                        else VStr ("Other Channel " ++ decimal i))
                  /\ keys r = map fst fieldMap)
               (seq 1 100) searchResults
    /\ prop (prop mockResults "analysis") "ranked_list" = VArr ranked
    /\ map (fun e => prop e "videoId") ranked
       = map (fun i => VStr ("mock_video_" ++ decimal i)) (seq 1 20)
    /\ map (fun e => prop e "risk") ranked
       = map VStr (repeat "High" 5 ++ repeat "Medium" 5 ++ repeat "Low" 10)
    /\ prop (prop mockResults "analysis") "top_priority"
       = VArr (map (fun e => prop e "videoId") (filter (hasLevel "High") ranked)).
Proof.
  unfold generateMockResults. intros H.
  destruct (mapM (mockVideo P userName channelName) (seq 1 100))
    as [searchResults|e] eqn:E; [|discriminate].
  cbn [bind] in H. injection H as <-.
  apply mapM_Forall2 in E.
  assert (Hfields : Forall2 (fun i r =>
                  prop r "videoId" = VStr ("mock_video_" ++ decimal i)
                  /\ prop r "channelTitle"
                     = (if (i mod 5 =? 0)%nat then channelName
                        else VStr ("Other Channel " ++ decimal i))
                  /\ keys r = map fst fieldMap)
               (seq 1 100) searchResults).
  { eapply Forall2_impl; [|exact E]. intros i r. apply mockVideo_fields. }
  clear E.
  exists searchResults, (mapi (mockEntry) 0 (slice 0 20 searchResults)).
  split; [reflexivity|]. split; [exact Hfields|]. split; [reflexivity|].
  change (seq 1 100) with (seq 1 20 ++ seq 21 80) in Hfields.
  apply Forall2_app_inv_l in Hfields as (front & rest & Hfront & _ & ->).
  cbn [seq] in Hfront.
  repeat match goal with
         | [ F : Forall2 _ (_ :: _) _ |- _ ] =>
             apply Forall2_head in F as (? & ? & -> & (? & _ & _) & F)
         end.
  inversion Hfront; subst. clear Hfront.
  cbn [slice Nat.sub skipn firstn app mapi map filter hasLevel strictEqStr
       mockEntry prop lookup String.eqb Ascii.eqb Bool.eqb Nat.ltb Nat.leb seq
       repeat].
  repeat match goal with
         | [ E : prop _ "videoId" = _ |- _ ] => rewrite E; clear E
         end.
  repeat split.
Qed.

Lemma mock_report_contents_witness :
  exists mockResults searchResults ranked,
    generateMockResults mockPlatform (VStr "Artist") (VStr "ArtistOfficial")
    = Ok mockResults
    /\ prop mockResults "searchResults" = VArr searchResults
    /\ Forall2 (fun i r =>
                  prop r "videoId" = VStr ("mock_video_" ++ decimal i)
                  /\ prop r "channelTitle"
                     = (if (i mod 5 =? 0)%nat then VStr "ArtistOfficial"
                        else VStr ("Other Channel " ++ decimal i))
                  /\ keys r = map fst fieldMap)
               (seq 1 100) searchResults
    /\ prop (prop mockResults "analysis") "ranked_list" = VArr ranked
    /\ map (fun e => prop e "videoId") ranked
       = map (fun i => VStr ("mock_video_" ++ decimal i)) (seq 1 20)
    /\ map (fun e => prop e "risk") ranked
       = map VStr (repeat "High" 5 ++ repeat "Medium" 5 ++ repeat "Low" 10)
    /\ prop (prop mockResults "analysis") "top_priority"
       = VArr (map (fun e => prop e "videoId") (filter (hasLevel "High") ranked)).
Proof.
  destruct (generateMockResults mockPlatform (VStr "Artist") (VStr "ArtistOfficial"))
    as [mockResults|e] eqn:E; [|vm_compute in E; discriminate E].
  destruct (mock_report_contents mockPlatform (VStr "Artist")
              (VStr "ArtistOfficial") mockResults E)
    as (searchResults & ranked & H).
  exists mockResults, searchResults, ranked. split; [reflexivity|exact H].
Defined.

(** ** The tolerant parser [extractJSON] of the variant *)

Section Strings.
Import Variant.

Lemma string_app_assoc (a b c : string) : ((a ++ b) ++ c = a ++ (b ++ c))%string.
Proof. induction a as [|x a IH]; simpl; [reflexivity|]. rewrite IH. reflexivity. Qed.

Lemma string_app_nil_r (a : string) : (a ++ "" = a)%string.
Proof. induction a as [|x a IH]; simpl; [reflexivity|]. rewrite IH. reflexivity. Qed.

Lemma string_length_app (a b : string) :
  String.length (a ++ b) = String.length a + String.length b.
Proof. induction a as [|x a IH]; simpl; [reflexivity|]. rewrite IH. reflexivity. Qed.

Lemma list_ascii_app (a b : string) :
  list_ascii_of_string (a ++ b)
  = (list_ascii_of_string a ++ list_ascii_of_string b)%list.
Proof. induction a as [|x a IH]; simpl; [reflexivity|]. rewrite IH. reflexivity. Qed.

Lemma string_of_list_app (l m : list ascii) :
  string_of_list_ascii (l ++ m)
  = (string_of_list_ascii l ++ string_of_list_ascii m)%string.
Proof. induction l as [|x l IH]; simpl; [reflexivity|]. rewrite IH. reflexivity. Qed.

Lemma reverse_app (a b : string) :
  reverse (a ++ b) = (reverse b ++ reverse a)%string.
Proof.
  unfold reverse. rewrite list_ascii_app, rev_app_distr, string_of_list_app.
  reflexivity.
Qed.

Lemma reverse_involutive (s : string) : reverse (reverse s) = s.
Proof.
  unfold reverse.
  rewrite list_ascii_of_string_of_list_ascii, rev_involutive.
  apply string_of_list_ascii_of_string.
Qed.

Lemma reverse_cons (c : ascii) (s : string) :
  reverse (String c s) = (reverse s ++ String c "")%string.
Proof. change (String c s) with (String c "" ++ s)%string. apply reverse_app. Qed.

Lemma length_reverse (s : string) : String.length (reverse s) = String.length s.
Proof.
  induction s as [|c s IH]; [reflexivity|].
  rewrite reverse_cons, string_length_app, IH. simpl. lia.
Qed.

Lemma occurs_app (c : ascii) (a b : string) :
  occurs c (a ++ b) = occurs c a || occurs c b.
Proof.
  induction a as [|x a IH]; simpl; [reflexivity|].
  rewrite IH, orb_assoc. reflexivity.
Qed.

Lemma occurs_reverse (c : ascii) (s : string) : occurs c (reverse s) = occurs c s.
Proof.
  induction s as [|x s IH]; [reflexivity|].
  rewrite reverse_cons, occurs_app, IH. simpl.
  rewrite orb_false_r. apply orb_comm.
Qed.

Lemma indexOf_app (c : ascii) (pre rest : string) :
  occurs c pre = false ->
  indexOf c (pre ++ String c rest) = Some (String.length pre).
Proof.
  induction pre as [|x pre IH]; simpl; intros H.
  - rewrite Ascii.eqb_refl. reflexivity.
  - apply orb_false_elim in H as [Hx Hpre].
    rewrite Hx, (IH Hpre). reflexivity.
Qed.

Lemma indexOf_absent (c : ascii) (s : string) :
  occurs c s = false -> indexOf c s = None.
Proof.
  induction s as [|x s IH]; simpl; intros H; [reflexivity|].
  apply orb_false_elim in H as [Hx Hs]. rewrite Hx, (IH Hs). reflexivity.
Qed.

Lemma lastIndexOf_app (c : ascii) (front post : string) :
  occurs c post = false ->
  lastIndexOf c (front ++ String c post) = Some (String.length front).
Proof.
  intros H. unfold lastIndexOf.
  rewrite reverse_app, reverse_cons, string_app_assoc. cbn [append].
  rewrite indexOf_app by (rewrite occurs_reverse; exact H).
  rewrite length_reverse, string_length_app. simpl. f_equal. lia.
Qed.

Lemma lastIndexOf_absent (c : ascii) (s : string) :
  occurs c s = false -> lastIndexOf c s = None.
Proof.
  intros H. unfold lastIndexOf.
  rewrite indexOf_absent by (rewrite occurs_reverse; exact H). reflexivity.
Qed.

Lemma substring_skip (pre s : string) (n : nat) :
  substring (String.length pre) n (pre ++ s) = substring 0 n s.
Proof. induction pre as [|x pre IH]; simpl; [reflexivity|exact IH]. Qed.

Lemma substring_take (a b : string) :
  substring 0 (String.length a) (a ++ b) = a.
Proof.
  induction a as [|x a IH]; simpl.
  - destruct b; reflexivity.
  - rewrite IH. reflexivity.
Qed.

Lemma trimFrom_blank (mirror : bool) (lead s : string) :
  trimFrom mirror lead = ""%string ->
  trimFrom mirror (lead ++ s) = trimFrom mirror s.
Proof.
  remember (String.length lead) as n eqn:Hn.
  assert (Hle : String.length lead <= n) by lia. clear Hn.
  revert lead Hle.
  induction n as [|n IH]; intros lead Hle H.
  - destruct lead; [reflexivity|simpl in Hle; lia].
  - destruct lead as [|a s1]; [reflexivity|].
    cbn [append trimFrom] in *.
    destruct (isSpace a); [apply IH; [simpl in Hle; lia|exact H]|].
    destruct s1 as [|b s2]; [discriminate|].
    cbn [append] in *.
    destruct (if mirror then isSpace2 b a else isSpace2 a b);
      [apply IH; [simpl in Hle; lia|exact H]|].
    destruct s2 as [|c s3]; [discriminate|].
    cbn [append] in *.
    destruct (if mirror then isSpace3 c b a else isSpace3 a b c);
      [apply IH; [simpl in Hle; lia|exact H]|discriminate].
Qed.

Ltac by_cases_on_bytes :=
  unfold isSpace2, isSpace3, space2, space3;
  change (nat_of_ascii "`") with 96; cbn [Nat.eqb Nat.leb];
  repeat match goal with
         | [ |- context [Nat.eqb (nat_of_ascii ?x) ?k] ] =>
             destruct (Nat.eqb (nat_of_ascii x) k)
         | [ |- context [Nat.leb ?k (nat_of_ascii ?x)] ] =>
             destruct (Nat.leb k (nat_of_ascii x))
         | [ |- context [Nat.leb (nat_of_ascii ?x) ?k] ] =>
             destruct (Nat.leb (nat_of_ascii x) k)
         end;
  reflexivity.

Lemma backquote_in_no_space (mirror : bool) (x y : ascii) :
  (if mirror then isSpace2 x "`" else isSpace2 "`" x) = false
  /\ (if mirror then isSpace2 "`" x else isSpace2 x "`") = false
  /\ (if mirror then isSpace3 y x "`" else isSpace3 "`" x y) = false
  /\ (if mirror then isSpace3 y "`" x else isSpace3 x "`" y) = false
  /\ (if mirror then isSpace3 "`" y x else isSpace3 x y "`") = false.
Proof. destruct mirror; repeat split; by_cases_on_bytes. Qed.

Lemma trimFrom_backquote (mirror : bool) (b s : string) :
  trimFrom mirror (b ++ String "`" s)
  = (trimFrom mirror b ++ String "`" s)%string.
Proof.
  remember (String.length b) as n eqn:Hn.
  assert (Hle : String.length b <= n) by lia. clear Hn.
  revert b Hle.
  induction n as [|n IH]; intros b Hle.
  - destruct b; [|simpl in Hle; lia].
    cbn [append trimFrom]. change (isSpace "`") with false. cbv iota.
    destruct s as [|x s2]; [reflexivity|].
    destruct (backquote_in_no_space mirror x x) as (-> & _ & _ & _ & _).
    destruct s2 as [|y s3]; [reflexivity|].
    destruct (backquote_in_no_space mirror x y) as (_ & _ & -> & _ & _).
    reflexivity.
  - destruct b as [|a s1]; [apply (IH ""%string); simpl; lia|].
    cbn [append trimFrom].
    destruct (isSpace a); [apply IH; simpl in Hle; lia|].
    destruct s1 as [|b' s2].
    + cbn [append].
      destruct (backquote_in_no_space mirror a a) as (_ & -> & _ & _ & _).
      destruct s as [|y s3]; [reflexivity|].
      destruct (backquote_in_no_space mirror a y) as (_ & _ & _ & -> & _).
      reflexivity.
    + cbn [append].
      destruct (if mirror then isSpace2 b' a else isSpace2 a b');
        [apply IH; simpl in Hle; lia|].
      destruct s2 as [|c s3].
      * cbn [append].
        destruct (backquote_in_no_space mirror a b') as (_ & _ & _ & _ & ->).
        reflexivity.
      * cbn [append].
        destruct (if mirror then isSpace3 c b' a else isSpace3 a b' c);
          [apply IH; simpl in Hle; lia|reflexivity].
Qed.

Lemma reverse_empty (s : string) : reverse s = ""%string -> s = ""%string.
Proof.
  intros H. rewrite <- (reverse_involutive s), H. reflexivity.
Qed.

Lemma stripPrefixCI_app (p r : string) : stripPrefixCI p (p ++ r) = Some r.
Proof.
  induction p as [|a p IH]; simpl; [destruct r; reflexivity|].
  rewrite Ascii.eqb_refl. exact IH.
Qed.

Lemma stripPrefixCI_more (p t r x : string) :
  stripPrefixCI p t = Some r -> stripPrefixCI p (t ++ x) = Some (r ++ x)%string.
Proof.
  revert t. induction p as [|a p IH]; intros t H.
  - destruct t; simpl in *; injection H as <-; [destruct x|]; reflexivity.
  - destruct t as [|b t]; [discriminate|]. simpl in *.
    destruct (Ascii.eqb (lower a) (lower b)); [|discriminate].
    apply IH. exact H.
Qed.

Lemma stripPrefixCI_none (p b : string) (c : ascii) (x : string) :
  stripPrefixCI p b = None ->
  occurs (lower c) (string_of_list_ascii (map lower (list_ascii_of_string p)))
  = false ->
  stripPrefixCI p (b ++ String c x) = None.
Proof.
  revert b. induction p as [|a p IH]; intros b H Hc.
  - destruct b; discriminate.
  - simpl in Hc. apply orb_false_elim in Hc as [Ha Hp].
    destruct b as [|y b]; simpl in *.
    + rewrite Ha. reflexivity.
    + destruct (Ascii.eqb (lower a) (lower y)); [|reflexivity].
      apply IH; assumption.
Qed.

End Strings.

(** X18. The largest block. When the text left after trimming and removing the
    fences is [pre ++ "{" ++ mid ++ "}" ++ post] with no opening brace in
    [pre] and no closing brace in [post], [extractJSON] returns what
    [JSON.parse] makes of the whole text when it accepts it, otherwise
    what it makes of the block from the first opening brace to the last
    closing brace, and otherwise throws its own error: an error of
    [JSON.parse] never escapes, and no other part of the text is tried. *)
Theorem largest_block_fallback (parse : string -> result JSValue)
  (text pre mid post : string) :
  fencedOf text = (pre ++ "{" ++ mid ++ "}" ++ post)%string ->
  occurs "{" pre = false ->
  occurs "}" post = false ->
  Variant.extractJSON parse text
  = Variant.orElse (parse (fencedOf text))
      (Variant.orElse (parse ("{" ++ mid ++ "}")%string) (Throw giveUp)).
Proof.
  intros Hfenced Hpre Hpost. unfold Variant.extractJSON.
  change (Variant.stripClosingFence
            (Variant.stripOpeningFence (Variant.trim text)))
    with (fencedOf text).
  rewrite Hfenced. f_equal.
  change (pre ++ "{" ++ mid ++ "}" ++ post)%string
    with (pre ++ String "{" (mid ++ "}" ++ post))%string at 1.
  rewrite (indexOf_app "{" pre _ Hpre).
  replace (pre ++ "{" ++ mid ++ "}" ++ post)%string
    with ((pre ++ "{" ++ mid) ++ String "}" post)%string at 1
    by (rewrite !string_app_assoc; reflexivity).
  rewrite (lastIndexOf_app "}" _ post Hpost).
  rewrite !string_length_app. cbn [String.length].
  match goal with
  | [ |- context [(?a <? ?b)%nat] ] =>
      replace (a <? b)%nat with true by (symmetry; apply Nat.ltb_lt; lia)
  end.
  rewrite substring_skip.
  match goal with
  | [ |- context [substring 0 ?n _] ] =>
      replace n with (String.length ("{" ++ mid ++ "}")%string)
        by (rewrite !string_length_app; simpl; lia)
  end.
  replace ("{" ++ mid ++ "}" ++ post)%string
    with (("{" ++ mid ++ "}") ++ post)%string
    by (rewrite !string_app_assoc; reflexivity).
  rewrite substring_take. reflexivity.
Qed.

Lemma largest_block_fallback_witness :
  Variant.extractJSON parseSample chattyText
  = Variant.orElse (parseSample (fencedOf chattyText))
      (Variant.orElse
         (parseSample
            ("{" ++ (quoted "ranked_list" ++ ":[{" ++ quoted "videoId" ++ ":"
                     ++ quoted "v11" ++ "," ++ quoted "risk" ++ ":"
                     ++ quoted "High" ++ "}]")
             ++ "}")%string)
         (Throw giveUp)).
Proof.
  exact (largest_block_fallback parseSample chattyText "Here is the analysis: "
           (quoted "ranked_list" ++ ":[{" ++ quoted "videoId" ++ ":"
            ++ quoted "v11" ++ "," ++ quoted "risk" ++ ":" ++ quoted "High" ++ "}]")
           "" eq_refl eq_refl eq_refl).
Defined.

(** X19. No block. When the text left after trimming and removing the fences
    has no opening brace or no closing brace, [extractJSON] parses that
    text once and throws its own error when [JSON.parse] rejects it. *)
Theorem no_block_gives_up (parse : string -> result JSValue) (text : string) :
  occurs "{" (fencedOf text) && occurs "}" (fencedOf text) = false ->
  Variant.extractJSON parse text
  = Variant.orElse (parse (fencedOf text)) (Throw giveUp).
Proof.
  intros H. unfold Variant.extractJSON.
  change (Variant.stripClosingFence
            (Variant.stripOpeningFence (Variant.trim text)))
    with (fencedOf text).
  f_equal.
  destruct (occurs "{" (fencedOf text)) eqn:Hopen.
  - cbn [andb] in H. rewrite (lastIndexOf_absent _ _ H).
    destruct (Variant.indexOf "{" (fencedOf text)); reflexivity.
  - rewrite (indexOf_absent _ _ Hopen). reflexivity.
Qed.

Lemma no_block_gives_up_witness :
  Variant.extractJSON parseSample "I cannot help with that."
  = Variant.orElse (parseSample (fencedOf "I cannot help with that."))
      (Throw giveUp).
Proof.
  exact (no_block_gives_up parseSample "I cannot help with that." eq_refl).
Defined.

(** White space beyond ASCII is trimmed as [trim] does: a no-break space
    before the text and a byte order mark after it are removed before the
    first parse. *)
Example extractJSON_unicode_space :
  fencedOf (nbsp ++ "null" ++ newline ++ bom) = "null"%string
  /\ Variant.extractJSON parseSample (nbsp ++ "null") = Ok VNull
  /\ fencedOf (nbsp ++ "[{}]") = "[{}]"%string
  /\ Variant.trim (bom ++ " " ++ nbsp) = ""%string.
Proof. repeat split. Qed.

Lemma Variant_stripPrefixCI_tag (tag rest : string) :
  Variant.stripPrefixCI "json" tag = Some ""%string ->
  Variant.stripPrefixCI "json" (tag ++ rest) = Some rest.
Proof.
  intros H. rewrite (stripPrefixCI_more "json" tag "" rest H). reflexivity.
Qed.

Lemma trim_core (lead core trail : string) :
  Variant.trimStart lead = ""%string ->
  Variant.trimEnd trail = ""%string ->
  Variant.trim (lead ++ (Variant.fence ++ core ++ Variant.fence) ++ trail)
  = (Variant.fence ++ core ++ Variant.fence)%string.
Proof.
  intros Hlead Htrail. apply reverse_empty in Htrail.
  unfold Variant.trim, Variant.trimEnd, Variant.trimStart in *.
  rewrite (trimFrom_blank false lead _ Hlead).
  change ((Variant.fence ++ core ++ Variant.fence) ++ trail)%string
    with ("" ++ String "`" ("``" ++ (core ++ Variant.fence) ++ trail))%string.
  rewrite trimFrom_backquote.
  change ("" ++ String "`" ("``" ++ (core ++ Variant.fence) ++ trail))%string
    with ((Variant.fence ++ core ++ Variant.fence) ++ trail)%string.
  change (Variant.trimFrom false "" ++ String "`" ("``" ++ (core ++ Variant.fence) ++ trail))%string
    with ((Variant.fence ++ core ++ Variant.fence) ++ trail)%string.
  rewrite reverse_app.
  rewrite (trimFrom_blank true _ _ Htrail).
  replace (Variant.fence ++ core ++ Variant.fence)%string
    with ((Variant.fence ++ core) ++ Variant.fence)%string
    by apply string_app_assoc.
  rewrite (reverse_app (Variant.fence ++ core) Variant.fence).
  change (Variant.reverse Variant.fence ++ Variant.reverse (Variant.fence ++ core))%string
    with ("" ++ String "`" ("``" ++ Variant.reverse (Variant.fence ++ core)))%string.
  rewrite trimFrom_backquote.
  change (Variant.trimFrom true "" ++ String "`" ("``" ++ Variant.reverse (Variant.fence ++ core)))%string
    with (Variant.reverse Variant.fence ++ Variant.reverse (Variant.fence ++ core))%string.
  rewrite <- reverse_app. apply reverse_involutive.
Qed.

(** X20. A fenced block. When the answer is a block between two fences, with
    only white space (of any of the kinds [trim] removes) before the
    opening fence and after the closing one, the opening fence bare or
    tagged json in any letter case, what [extractJSON] parses first is the
    text between the fences without its leading white space: so a fenced
    answer whose content [JSON.parse] accepts is recovered. *)
Theorem fenced_block_unwrapped (parse : string -> result JSValue)
  (lead tag payload trail : string) :
  Variant.trimStart lead = ""%string ->
  Variant.trimEnd trail = ""%string ->
  tag = ""%string /\ Variant.stripPrefixCI "json" payload = None
  \/ Variant.stripPrefixCI "json" tag = Some ""%string ->
  fencedOf (lead ++ Variant.fence ++ tag ++ payload ++ Variant.fence ++ trail)
  = Variant.trimStart payload
  /\ forall v,
       parse (Variant.trimStart payload) = Ok v ->
       Variant.extractJSON parse
         (lead ++ Variant.fence ++ tag ++ payload ++ Variant.fence ++ trail)
       = Ok v.
Proof.
  intros Hlead Htrail Htag.
  assert (Hfenced :
            fencedOf (lead ++ Variant.fence ++ tag ++ payload
                      ++ Variant.fence ++ trail)
            = Variant.trimStart payload).
  { unfold fencedOf.
    replace (lead ++ Variant.fence ++ tag ++ payload ++ Variant.fence ++ trail)%string
      with (lead ++ (Variant.fence ++ (tag ++ payload) ++ Variant.fence) ++ trail)%string
      by (rewrite !string_app_assoc; reflexivity).
    rewrite (trim_core lead (tag ++ payload) trail Hlead Htrail).
    unfold Variant.stripOpeningFence.
    rewrite stripPrefixCI_app.
    assert (Hrest : match Variant.stripPrefixCI "json"
                            ((tag ++ payload) ++ Variant.fence) with
                    | Some rest' => rest'
                    | None => ((tag ++ payload) ++ Variant.fence)%string
                    end
                    = (payload ++ Variant.fence)%string).
    { destruct Htag as [[-> Hnone]|Hjson].
      - change (("" ++ payload) ++ Variant.fence)%string
          with (payload ++ String "`" "``")%string.
        rewrite (stripPrefixCI_none "json" payload "`" "``" Hnone eq_refl).
        reflexivity.
      - rewrite string_app_assoc.
        rewrite (Variant_stripPrefixCI_tag tag (payload ++ Variant.fence) Hjson).
        reflexivity. }
    rewrite Hrest.
    change (payload ++ Variant.fence)%string with (payload ++ String "`" "``")%string.
    unfold Variant.trimStart. rewrite (trimFrom_backquote false payload "``").
    unfold Variant.stripClosingFence.
    change (String "`" "``") with Variant.fence.
    rewrite reverse_app.
    change (Variant.reverse Variant.fence) with Variant.fence.
    rewrite stripPrefixCI_app. apply reverse_involutive. }
  split; [exact Hfenced|].
  intros v Hv. unfold Variant.extractJSON.
  change (Variant.stripClosingFence
            (Variant.stripOpeningFence
               (Variant.trim
                  (lead ++ Variant.fence ++ tag ++ payload
                   ++ Variant.fence ++ trail))))
    with (fencedOf (lead ++ Variant.fence ++ tag ++ payload
                    ++ Variant.fence ++ trail)).
  rewrite Hfenced, Hv. reflexivity.
Qed.

Lemma fenced_block_unwrapped_witness :
  fencedOf fencedText = "{}"%string
  /\ forall v,
       parseSample "{}" = Ok v ->
       Variant.extractJSON parseSample fencedText = Ok v.
Proof.
  exact (fenced_block_unwrapped parseSample (nbsp ++ " ") "JSON"
           (newline ++ nbsp ++ "{}") (newline ++ bom)
           eq_refl eq_refl (or_intror eq_refl)).
Defined.

(** ** The single-request handler of the variant *)

Lemma messageOr_not_empty (e : JSError) : Single.messageOr e <> ""%string.
Proof.
  unfold Single.messageOr.
  destruct (String.eqb_spec (message e) ""); [discriminate|assumption].
Qed.

(** X21. Calls and statuses of the variant. Every request to the single-request
    handler is answered, with one of the statuses 200, 400, 404, 500 and
    502, and with a string [error] that is not empty unless the status is
    200.  It issues at most one search call, for ten results and the user
    name alone, then at most one classification call, and never a pause.
    A 404 comes after the search call alone, and a 502 after both calls. *)
Theorem single_request_calls (P : Platform) (req_body : JSValue) :
  In (status (fst (Single.analyze P req_body))) [200; 400; 404; 500; 502]
  /\ (status (fst (Single.analyze P req_body)) <> 200 ->
      exists msg,
        prop (body (fst (Single.analyze P req_body))) "error" = VStr msg
        /\ msg <> ""%string)
  /\ (exists request,
        In (snd (Single.analyze P req_body))
           [ [];
             [ Search 1 (Single.searchParams P (prop req_body "userName")) ];
             [ Search 1 (Single.searchParams P (prop req_body "userName"));
               Classify request ] ])
  /\ (status (fst (Single.analyze P req_body)) = 404 ->
      snd (Single.analyze P req_body)
      = [ Search 1 (Single.searchParams P (prop req_body "userName")) ])
  /\ (status (fst (Single.analyze P req_body)) = 502 ->
      List.length (snd (Single.analyze P req_body)) = 2).
Proof.
  set (dummy := Single.chatRequest VUndefined VUndefined []).
  assert (Herr : forall s issued request,
            s = 400 \/ s = 404 /\ issued
                       = [ Search 1 (Single.searchParams P (prop req_body "userName")) ]
            \/ s = 500 /\ (issued = []
                           \/ issued = [ Search 1 (Single.searchParams P
                                                     (prop req_body "userName")) ]
                           \/ issued = [ Search 1 (Single.searchParams P
                                                     (prop req_body "userName"));
                                         Classify request ])
            \/ s = 502 /\ issued = [ Search 1 (Single.searchParams P
                                                 (prop req_body "userName"));
                                     Classify request ] ->
            forall msg, msg <> ""%string ->
            (s = 400 -> issued = []) ->
            In (status (fst ({| status := s; body := errorBody msg |}, issued)))
               [200; 400; 404; 500; 502]
            /\ (status (fst ({| status := s; body := errorBody msg |}, issued)) <> 200 ->
                exists msg',
                  prop (body (fst ({| status := s; body := errorBody msg |}, issued)))
                       "error" = VStr msg'
                  /\ msg' <> ""%string)
            /\ (exists request,
                  In (snd ({| status := s; body := errorBody msg |}, issued))
                     [ [];
                       [ Search 1 (Single.searchParams P (prop req_body "userName")) ];
                       [ Search 1 (Single.searchParams P (prop req_body "userName"));
                         Classify request ] ])
            /\ (status (fst ({| status := s; body := errorBody msg |}, issued)) = 404 ->
                snd ({| status := s; body := errorBody msg |}, issued)
                = [ Search 1 (Single.searchParams P (prop req_body "userName")) ])
            /\ (status (fst ({| status := s; body := errorBody msg |}, issued)) = 502 ->
                List.length (snd ({| status := s; body := errorBody msg |}, issued))
                = 2)).
  { intros s issued request Hs msg Hmsg H400. cbn [fst snd status body].
    split; [simpl; intuition lia|].
    split; [intros _; exists msg; split; [reflexivity|exact Hmsg]|].
    split.
    { exists request. simpl.
      destruct Hs as [Hs|[[_ Hi]|[[_ Hi]|[_ Hi]]]].
      - left. symmetry. apply H400. exact Hs.
      - subst issued. auto.
      - destruct Hi as [Hi|[Hi|Hi]]; subst issued; auto.
      - subst issued. auto. }
    split; intros Hst; subst s;
      destruct Hs as [Hs|[[Hs Hi]|[[Hs Hi]|[Hs Hi]]]];
      try discriminate; subst; reflexivity. }
  assert (Hne : forall a b : string, a <> ""%string -> (a ++ b)%string <> ""%string)
    by apply append_not_empty.
  unfold Single.analyze, destructure.
  destruct (nullish req_body).
  { apply (Herr 500 [] dummy); [tauto|discriminate|discriminate]. }
  destruct (negb (truthy (prop req_body "userName"))
            || negb (truthy (prop req_body "channelName"))).
  { apply (Herr 400 [] dummy); [tauto|discriminate|reflexivity]. }
  destruct (negb (keyPresent (YOUTUBE_API_KEY P))
            || negb (keyPresent (OPENAI_API_KEY P))).
  { destruct (Single.generateMockResults P _ _).
    - cbn [fst snd status body]. split; [simpl; tauto|].
      split; [intros H; contradiction H; reflexivity|].
      split; [exists dummy; simpl; tauto|]. split; discriminate.
    - apply (Herr 500 [] dummy); [tauto|discriminate|discriminate]. }
  destruct (toPrimitive (prop req_body "userName")).
  2:{ apply (Herr 500 [] dummy); [tauto| |discriminate].
      apply Hne. discriminate. }
  destruct (axios_get P 1 _).
  2:{ apply (Herr 500 _ dummy); [tauto| |discriminate].
      apply Hne. discriminate. }
  destruct (data <- get _ "data" ;; get data "items") as [items|e].
  2:{ apply (Herr 500 _ dummy); [tauto|discriminate|discriminate]. }
  destruct (negb (Single.hasLength items)).
  { apply (Herr 404 _ dummy); [tauto|discriminate|discriminate]. }
  destruct (arrayMap normalize items) as [searchResults|e].
  2:{ apply (Herr 500 _ dummy); [tauto|discriminate|discriminate]. }
  unfold Single.classify.
  destruct (toPrimitive (prop req_body "channelName")).
  2:{ apply (Herr 500 _ dummy); [tauto|discriminate|discriminate]. }
  destruct (chat_create P _).
  2:{ apply (Herr 500 _ (Single.chatRequest (prop req_body "userName")
                           (prop req_body "channelName") searchResults));
        [tauto| |discriminate].
      apply Hne. discriminate. }
  destruct (Variant.extractJSON _ _).
  - cbn [fst snd status body]. split; [simpl; tauto|].
    split; [intros H; contradiction H; reflexivity|].
    split; [eexists; simpl; right; right; left; reflexivity|].
    split; discriminate.
  - apply (Herr 502 _ (Single.chatRequest (prop req_body "userName")
                         (prop req_body "channelName") searchResults));
      [tauto|discriminate|discriminate].
Qed.

(** X22. The report of the variant. When the request reaches the search stage,
    the one search call returns a page whose items are a non-empty array
    of complete items, and the one classification call returns a text,
    the handler answers after exactly these two calls: 200 with the two
    names, the normalized items and, as the analysis, the value
    [extractJSON] recovers from the text, without any check of its shape;
    and 502 when [extractJSON] gives up. *)
Theorem single_request_report (P : Platform) (req_body page : JSValue)
  (items : list JSValue) (raw : string) :
  goesOut P req_body = true ->
  axios_get P 1 (Single.searchParams P (prop req_body "userName")) = Ok page ->
  (data <- get page "data" ;; get data "items") = Ok (VArr items) ->
  items <> [] ->
  forallb complete items = true ->
  chat_create P (Single.chatRequest (prop req_body "userName")
                   (prop req_body "channelName") (map normalized items))
  = Ok raw ->
  Single.analyze P req_body
  = (match Variant.extractJSON (JSON_parse P) raw with
     | Ok analysis =>
         {| status := 200;
            body := VObj [ ("userName", prop req_body "userName");
                           ("query", prop req_body "channelName");
                           ("searchResults", VArr (map normalized items));
                           ("analysis", analysis) ] |}
     | Throw _ =>
         {| status := 502;
            body := errorBody "Model returned non-JSON output. Please retry." |}
     end,
     [ Search 1 (Single.searchParams P (prop req_body "userName"));
       Classify (Single.chatRequest (prop req_body "userName")
                   (prop req_body "channelName") (map normalized items)) ]).
Proof.
  unfold goesOut, mockMode. intros Hgo Hget Hitems Hne Hcomplete Hchat.
  repeat (apply andb_prop in Hgo as [Hgo ?]).
  unfold Single.analyze, destructure, Single.classify, toPrimitive.
  destruct (nullish req_body); [discriminate|].
  repeat match goal with
         | [ E : ?b = true |- _ ] => rewrite E; clear E
         end.
  destruct (negb (keyPresent (YOUTUBE_API_KEY P))
            || negb (keyPresent (OPENAI_API_KEY P))); [discriminate|].
  cbn [negb orb]. rewrite Hget, Hitems.
  cbn [Single.hasLength arrayMap].
  destruct items as [|item items]; [congruence|].
  cbn [List.length Nat.eqb negb].
  rewrite (mapM_normalize_complete _ Hcomplete), Hchat.
  destruct (Variant.extractJSON (JSON_parse P) raw); reflexivity.
Qed.

Lemma single_request_report_witness :
  Single.analyze chattyPlatform sampleBody
  = ({| status := 200;
        body := VObj [ ("userName", VStr "Artist");
                       ("query", VStr "ArtistOfficial");
                       ("searchResults", VArr (found 1));
                       ("analysis", sampleAnalysis) ] |},
     [ Search 1 {| q := "Artist"; maxResults := 10; pageToken := VUndefined |};
       classifyCall 1 1 (found 1) ]).
Proof.
  exact (single_request_report chattyPlatform sampleBody
           (pageOf (videos 1) VUndefined) (videos 1) chattyText
           eq_refl eq_refl eq_refl
           (fun H => eq_ind (videos 1)
                       (fun l => match l with [] => False | _ :: _ => True end)
                       I [] H)
           eq_refl eq_refl).
Defined.

(** ** The mock report of the variant *)

Lemma single_mockVideo_fields (P : Platform) (channelName : JSValue) (i : nat)
  (r : JSValue) :
  Single.mockVideo P channelName i = Ok r ->
  prop r "videoId" = VStr ("mock_video_" ++ decimal i)
  /\ prop r "channelTitle"
     = (if (i =? 1)%nat then channelName
        else VStr ("Other Channel " ++ decimal i))
  /\ keys r = map fst fieldMap.
Proof.
  unfold Single.mockVideo. intros H.
  destruct (toISOString _) as [publishedAt|e]; [|discriminate]. cbn [bind] in H.
  destruct (toISOString _) as [publishTime|e]; [|discriminate]. cbn [bind] in H.
  injection H as <-. repeat split.
Qed.

Lemma single_mockEntry_fields (P : Platform) (channelName : JSValue)
  (reading i : nat) (channel : JSValue) (risk : string) (rationale : list string)
  (e : JSValue) :
  Single.mockEntry P channelName reading i channel risk rationale = Ok e ->
  prop e "videoId" = VStr ("mock_video_" ++ decimal i)
  /\ prop e "channel" = channel
  /\ prop e "risk" = VStr risk.
Proof.
  unfold Single.mockEntry. intros H.
  destruct (toISOString _) as [publishedAt|err]; [|discriminate]. cbn [bind] in H.
  injection H as <-. repeat split.
Qed.

(** X23. The mock report of the variant. Whenever the mock generator of the
    single-request handler returns, its report has the four keys of the
    variant's real report; it holds five videos with the fields of a
    normalized record, the first on the named channel; the ranked list
    ranks the five of them, one High, one Medium and three Low in that
    order, the video of the named channel last; and [top_priority] lists
    the ids of the High and the Medium entry. *)
Theorem single_mock_contents (P : Platform) (userName channelName : JSValue)
  (mockResults : JSValue) :
  Single.generateMockResults P userName channelName = Ok mockResults ->
  exists searchResults ranked,
    keys mockResults = [ "userName"; "query"; "searchResults"; "analysis" ]
    /\ prop mockResults "searchResults" = VArr searchResults
    /\ Forall2 (fun i r =>
                  prop r "videoId" = VStr ("mock_video_" ++ decimal i)
                  /\ prop r "channelTitle"
                     = (if (i =? 1)%nat then channelName
                        else VStr ("Other Channel " ++ decimal i))
                  /\ keys r = map fst fieldMap)
               (seq 1 5) searchResults
    /\ prop (prop mockResults "analysis") "ranked_list" = VArr ranked
    /\ map (fun e => prop e "videoId") ranked
       = map (fun i => VStr ("mock_video_" ++ decimal i)) [2; 3; 4; 5; 1]
    /\ map (fun e => prop e "risk") ranked
       = map VStr [ "High"; "Medium"; "Low"; "Low"; "Low" ]
    /\ prop (last ranked VUndefined) "channel" = channelName
    /\ prop (prop mockResults "analysis") "top_priority"
       = VArr (map (fun e => prop e "videoId")
                   (filter (fun e => hasLevel "High" e || hasLevel "Medium" e)
                           ranked)).
Proof.
  unfold Single.generateMockResults. intros H.
  destruct (toPrimitive channelName); [|discriminate]. cbn [bind] in H.
  destruct (mapM (Single.mockVideo P channelName) (seq 1 5))
    as [searchResults|e] eqn:E; [|discriminate].
  cbn [bind] in H.
  repeat match type of H with
         | context [Single.mockEntry ?P ?c ?n ?i ?ch ?risk ?why] =>
             let e := fresh "e" in
             let He := fresh "He" in
             destruct (Single.mockEntry P c n i ch risk why) as [e|?] eqn:He;
             [|discriminate];
             apply single_mockEntry_fields in He as (? & ? & ?);
             cbn [bind] in H
         end.
  injection H as <-.
  apply mapM_Forall2 in E.
  eexists searchResults, _.
  split; [reflexivity|]. split; [reflexivity|].
  split.
  { eapply Forall2_impl; [|exact E]. intros i r. apply single_mockVideo_fields. }
  split; [reflexivity|].
  cbn [map filter last]. unfold hasLevel.
  repeat match goal with
         | [ E : prop _ "risk" = _ |- _ ] => rewrite !E; clear E
         end.
  cbn [strictEqStr String.eqb Ascii.eqb Bool.eqb orb map].
  repeat match goal with
         | [ E : prop _ _ = _ |- _ ] => rewrite ?E; clear E
         end.
  repeat split.
Qed.

Lemma single_mock_contents_witness :
  exists mockResults searchResults ranked,
    Single.generateMockResults mockPlatform (VStr "Artist") (VStr "ArtistOfficial")
    = Ok mockResults
    /\ keys mockResults = [ "userName"; "query"; "searchResults"; "analysis" ]
    /\ prop mockResults "searchResults" = VArr searchResults
    /\ Forall2 (fun i r =>
                  prop r "videoId" = VStr ("mock_video_" ++ decimal i)
                  /\ prop r "channelTitle"
                     = (if (i =? 1)%nat then VStr "ArtistOfficial"
                        else VStr ("Other Channel " ++ decimal i))
                  /\ keys r = map fst fieldMap)
               (seq 1 5) searchResults
    /\ prop (prop mockResults "analysis") "ranked_list" = VArr ranked
    /\ map (fun e => prop e "videoId") ranked
       = map (fun i => VStr ("mock_video_" ++ decimal i)) [2; 3; 4; 5; 1]
    /\ map (fun e => prop e "risk") ranked
       = map VStr [ "High"; "Medium"; "Low"; "Low"; "Low" ]
    /\ prop (last ranked VUndefined) "channel" = VStr "ArtistOfficial"
    /\ prop (prop mockResults "analysis") "top_priority"
       = VArr (map (fun e => prop e "videoId")
                   (filter (fun e => hasLevel "High" e || hasLevel "Medium" e)
                           ranked)).
Proof.
  destruct (Single.generateMockResults mockPlatform (VStr "Artist")
              (VStr "ArtistOfficial"))
    as [mockResults|e] eqn:E; [|vm_compute in E; discriminate E].
  destruct (single_mock_contents mockPlatform (VStr "Artist")
              (VStr "ArtistOfficial") mockResults E)
    as (searchResults & ranked & H).
  exists mockResults, searchResults, ranked. split; [reflexivity|exact H].
Defined.
